(** * selenium-auto: test-result aggregation and reporting pipeline

    A shallow embedding of the reporting pipeline of the repository:
    - [scripts/generate_dashboard.py]  (module [Dashboard]),
    - [run_tests.py]                   (module [Runner]),
    - [tests/conftest.py]              (module [Conftest]),
    - [tests/test_aqx_platform.py], class [TestReporter] (module [Reporter]).

    Python values read back from JSON documents are dynamically typed, so
    they are embedded as a tagged union [json]; Python's binary64 floats are
    embedded as [spec_float] with [prec = 53] and [emax = 1024], and the
    arithmetic the code performs on them is IEEE 754 arithmetic as given by
    [SpecFloat]. Operations that can raise return a [pyresult]. *)

From Stdlib Require Import ZArith List String Ascii Bool Lia.
From Stdlib Require Import QArith Qabs Qpower Lqa.
From Stdlib Require Import DecimalString.
From Stdlib Require Import Floats.SpecFloat.
Import ListNotations.

Set Warnings "-register-all".
Open Scope string_scope.
Open Scope Z_scope.

(* ================================================================== *)
(** * Python values, exceptions and the builtins the code relies on     *)
(* ================================================================== *)

Module Py.

(** The exceptions that the modelled code can meet. All of them derive
    from Python's [Exception], so an [except Exception] clause catches
    every one of them. *)
Inductive pyexc : Type :=
| TypeError
| AttributeError
| ValueError
| ZeroDivisionError
| OverflowError
| JSONDecodeError
| UnicodeDecodeError
| OSError (what : string)
| CalledProcessError (returncode : Z).

Inductive pyresult (A : Type) : Type :=
| Ok (a : A)
| Raise (e : pyexc).
Arguments Ok {A} a.
Arguments Raise {A} e.

Definition bind {A B : Type} (m : pyresult A) (k : A -> pyresult B) : pyresult B :=
  match m with
  | Ok a => k a
  | Raise e => Raise e
  end.

(** What [json.load] returns. A Python [dict] keeps insertion order, so it
    is an association list; lookups take the first binding of a key. *)
Inductive json : Type :=
| JNull
| JBool (b : bool)
| JInt (n : Z)
| JFloat (f : spec_float)
| JStr (s : string)
| JList (l : list json)
| JDict (d : list (string * json)).

Definition dict := list (string * json).

Fixpoint lookup (d : dict) (key : string) : option json :=
  match d with
  | [] => None
  | (k, v) :: rest => if String.eqb k key then Some v else lookup rest key
  end.

(** [d.get(key, default)] on a dict. *)
Definition dict_get (d : dict) (key : string) (default : json) : json :=
  match lookup d key with
  | Some v => v
  | None => default
  end.

(** [v.get(key, default)] on an arbitrary value: only dicts have [get]. *)
Definition py_get (v : json) (key : string) (default : json) : pyresult json :=
  match v with
  | JDict d => Ok (dict_get d key default)
  | _ => Raise AttributeError
  end.

(** ** binary64 *)

Definition prec : Z := 53.
Definition emax : Z := 1024.

Definition float := spec_float.

Definition is_infinity (f : float) : bool :=
  match f with S754_infinity _ => true | _ => false end.

Definition is_zero (f : float) : bool :=
  match f with S754_zero _ => true | _ => false end.

(** [float(n)] for an int: correctly rounded, [OverflowError] when the
    int is too large for a float. *)
Definition int_to_float (n : Z) : pyresult float :=
  let f := binary_normalize prec emax n 0 false in
  if is_infinity f then Raise OverflowError else Ok f.

(** [a / b] on two ints (CPython's [long_true_divide]): the correctly
    rounded quotient; the sign of a zero result is the sign of [b]. *)
Definition int_true_divide (a b : Z) : pyresult float :=
  if b =? 0 then Raise ZeroDivisionError
  else if a =? 0 then Ok (S754_zero (b <? 0))
  else
    let q := SFdiv prec emax
               (S754_finite (a <? 0) (Z.to_pos (Z.abs a)) 0)
               (S754_finite (b <? 0) (Z.to_pos (Z.abs b)) 0) in
    if is_infinity q then Raise OverflowError else Ok q.

(** [a / b] on two floats (CPython's [float_div]). *)
Definition float_div (a b : float) : pyresult float :=
  if is_zero b then Raise ZeroDivisionError else Ok (SFdiv prec emax a b).

Definition float_mul (a b : float) : float := SFmul prec emax a b.

(** The numeric reading of a value: [bool] is a subclass of [int]. *)
Inductive number : Type :=
| NInt (n : Z)
| NFloat (f : float).

Definition as_number (v : json) : option number :=
  match v with
  | JBool b => Some (NInt (if b then 1 else 0))
  | JInt n => Some (NInt n)
  | JFloat f => Some (NFloat f)
  | _ => None
  end.

Definition number_to_float (x : number) : pyresult float :=
  match x with
  | NInt n => int_to_float n
  | NFloat f => Ok f
  end.

(** [a / b]: true division, always a float. *)
Definition py_truediv (a b : json) : pyresult float :=
  match as_number a, as_number b with
  | Some (NInt x), Some (NInt y) => int_true_divide x y
  | Some x, Some y =>
      bind (number_to_float x) (fun fa =>
      bind (number_to_float y) (fun fb =>
      float_div fa fb))
  | _, _ => Raise TypeError
  end.

(** [f * n] for a float [f] and an int literal [n]. *)
Definition float_mul_int (f : float) (n : Z) : pyresult float :=
  bind (int_to_float n) (fun fn => Ok (float_mul f fn)).

(** [f > n] for a float and an int: Python compares the exact values. *)
Definition float_gt_int (f : float) (n : Z) : bool :=
  match f with
  | S754_nan => false
  | S754_infinity s => negb s
  | S754_zero _ => 0 >? n
  | S754_finite s m e =>
      let v := if s then Z.neg m else Z.pos m in
      if 0 <=? e then v * 2 ^ e >? n else v >? n * 2 ^ (- e)
  end.

(** [v > n] for an int literal [n]. *)
Definition py_gt_int (v : json) (n : Z) : pyresult bool :=
  match as_number v with
  | Some (NInt x) => Ok (x >? n)
  | Some (NFloat f) => Ok (float_gt_int f n)
  | None => Raise TypeError
  end.

(** [v == s] for a str literal [s]. *)
Definition py_eq_str (v : json) (s : string) : bool :=
  match v with
  | JStr t => String.eqb t s
  | _ => false
  end.

(** ** Text *)

Definition dq : string := String "034"%char EmptyString.

(** [needle in s] *)
Definition contains (needle s : string) : bool :=
  match index 0 needle s with
  | Some _ => true
  | None => false
  end.

Definition string_of_Z (n : Z) : string := NilZero.string_of_int (Z.to_int n).

(** Nearest integer to [num / den] ([den > 0], [num >= 0]), ties to even. *)
Definition round_half_even (num den : Z) : Z :=
  let q := num / den in
  let r := num mod den in
  match 2 * r ?= den with
  | Lt => q
  | Gt => q + 1
  | Eq => if Z.even q then q else q + 1
  end.

(** [n] tenths written with one digit after the point. *)
Definition tenths_text (n : Z) : string :=
  string_of_Z (n / 10) ++ "." ++ string_of_Z (n mod 10).

(** [format(f, ".1f")] for a float: the exact binary value, correctly
    rounded to one decimal. *)
Definition float_format_1f (f : float) : string :=
  match f with
  | S754_nan => "nan"
  | S754_infinity s => if s then "-inf" else "inf"
  | S754_zero s => if s then "-0.0" else "0.0"
  | S754_finite s m e =>
      let n := if 0 <=? e then Z.pos m * 10 * 2 ^ e
               else round_half_even (Z.pos m * 10) (2 ^ (- e)) in
      (if s then "-" else "") ++ tenths_text n
  end.

(** [format(v, ".1f")], the conversion behind [{v:.1f}]. *)
Definition py_format_1f (v : json) : pyresult string :=
  match v with
  | JFloat f => Ok (float_format_1f f)
  | JInt n => bind (int_to_float n) (fun f => Ok (float_format_1f f))
  | JBool b => bind (int_to_float (if b then 1 else 0)) (fun f => Ok (float_format_1f f))
  | JStr _ => Raise ValueError
  | JNull | JList _ | JDict _ => Raise TypeError
  end.

(** The parts of the Python runtime that the code calls but that are not
    described here: [str] of a float (shortest round-trip [repr]) and of a
    list or dict ([repr] of the elements), the message [str(e)] of an
    exception, and [str.strip]. *)
Class Builtins : Type := {
  repr_other : json -> string;
  exc_str : pyexc -> string;
  str_strip : string -> string
}.

(** [str(v)], the conversion behind a plain [{v}] in an f-string. *)
Definition py_str `{Builtins} (v : json) : string :=
  match v with
  | JStr s => s
  | JInt n => string_of_Z n
  | JBool b => if b then "True" else "False"
  | JNull => "None"
  | JFloat _ | JList _ | JDict _ => repr_other v
  end.

(** [for x in v]: the items a [for] loop visits. Iterating a dict visits
    its keys, iterating a str visits its characters. *)
Fixpoint chars (s : string) : list json :=
  match s with
  | EmptyString => []
  | String c rest => JStr (String c EmptyString) :: chars rest
  end.

Definition py_iter (v : json) : pyresult (list json) :=
  match v with
  | JList l => Ok l
  | JDict d => Ok (map (fun kv => JStr (fst kv)) d)
  | JStr s => Ok (chars s)
  | JNull | JBool _ | JInt _ | JFloat _ => Raise TypeError
  end.

(** ** [datetime] and [strftime] *)

Record datetime : Type := {
  year : Z; month : Z; day : Z; hour : Z; minute : Z; second : Z
}.

Fixpoint zero_pad (width : nat) (s : string) : string :=
  match width with
  | O => s
  | S w => if (String.length s <? width)%nat then zero_pad w ("0" ++ s) else s
  end.

Definition digits (width : nat) (n : Z) : string := zero_pad width (string_of_Z n).

(** [t.strftime("%Y-%m-%d %H:%M:%S")] *)
Definition strftime_dashed (t : datetime) : string :=
  digits 4 (year t) ++ "-" ++ digits 2 (month t) ++ "-" ++ digits 2 (day t) ++ " "
  ++ digits 2 (hour t) ++ ":" ++ digits 2 (minute t) ++ ":" ++ digits 2 (second t).

(** [t.strftime('%Y%m%d_%H%M%S')] *)
Definition strftime_compact (t : datetime) : string :=
  digits 4 (year t) ++ digits 2 (month t) ++ digits 2 (day t) ++ "_"
  ++ digits 2 (hour t) ++ digits 2 (minute t) ++ digits 2 (second t).

End Py.

Import Py.

Declare Scope py_scope.
Delimit Scope py_scope with py.
Notation "x <- m ;; k" := (Py.bind m (fun x => k))
  (at level 61, m at next level, right associativity) : py_scope.
Open Scope py_scope.

(* ================================================================== *)
(** * scripts/generate_dashboard.py                                     *)
(* ================================================================== *)

Module Dashboard.

(** ** The document template

    The literal text of the f-strings of [generate_dashboard_html], cut at
    the interpolated fields. *)

Definition header_prefix : string :=
  "
<!DOCTYPE html>
<html lang=" ++ dq ++ "en" ++ dq ++ ">
<head>
    <meta charset=" ++ dq ++ "UTF-8" ++ dq ++ ">
    <meta name=" ++ dq ++ "viewport" ++ dq ++ " content=" ++ dq ++ "width=device-width, initial-scale=1.0" ++ dq ++ ">
    <title>AQX Trading Platform - Test Dashboard</title>
    <script src=" ++ dq ++ "https://cdn.jsdelivr.net/npm/chart.js" ++ dq ++ "></script>
    <style>
        * {
            margin: 0;
            padding: 0;
            box-sizing: border-box;
        }
        
        body {
            font-family: 'Segoe UI', Tahoma, Geneva, Verdana, sans-serif;
            background: linear-gradient(135deg, #667eea 0%, #764ba2 100%);
            min-height: 100vh;
            color: #333;
        }
        
        .container {
            max-width: 1200px;
            margin: 0 auto;
            padding: 20px;
        }
        
        .header {
            background: rgba(255, 255, 255, 0.95);
            border-radius: 15px;
            padding: 30px;
            margin-bottom: 30px;
            box-shadow: 0 10px 30px rgba(0, 0, 0, 0.1);
            backdrop-filter: blur(10px);
        }
        
        .header h1 {
            color: #2c3e50;
            font-size: 2.5em;
            margin-bottom: 10px;
            text-align: center;
        }
        
        .header .subtitle {
            text-align: center;
            color: #7f8c8d;
            font-size: 1.2em;
        }
        
        .metrics-grid {
            display: grid;
            grid-template-columns: repeat(auto-fit, minmax(250px, 1fr));
            gap: 20px;
            margin-bottom: 30px;
        }
        
        .metric-card {
            background: rgba(255, 255, 255, 0.95);
            border-radius: 15px;
            padding: 25px;
            box-shadow: 0 8px 25px rgba(0, 0, 0, 0.1);
            backdrop-filter: blur(10px);
            transition: transform 0.3s ease;
        }
        
        .metric-card:hover {
            transform: translateY(-5px);
        }
        
        .metric-value {
            font-size: 3em;
            font-weight: bold;
            margin-bottom: 10px;
        }
        
        .metric-label {
            color: #7f8c8d;
            font-size: 1.1em;
        }
        
        .passed { color: #27ae60; }
        .failed { color: #e74c3c; }
        .total { color: #3498db; }
        .rate { color: #9b59b6; }
        
        .charts-container {
            display: grid;
            grid-template-columns: 1fr 1fr;
            gap: 30px;
            margin-bottom: 30px;
        }
        
        .chart-card {
            background: rgba(255, 255, 255, 0.95);
            border-radius: 15px;
            padding: 25px;
            box-shadow: 0 8px 25px rgba(0, 0, 0, 0.1);
            backdrop-filter: blur(10px);
        }
        
        .test-details {
            background: rgba(255, 255, 255, 0.95);
            border-radius: 15px;
            padding: 25px;
            box-shadow: 0 8px 25px rgba(0, 0, 0, 0.1);
            backdrop-filter: blur(10px);
            margin-bottom: 30px;
        }
        
        .test-item {
            border-bottom: 1px solid #ecf0f1;
            padding: 15px 0;
            display: flex;
            justify-content: space-between;
            align-items: center;
        }
        
        .test-item:last-child {
            border-bottom: none;
        }
        
        .test-name {
            font-weight: 600;
            color: #2c3e50;
        }
        
        .test-status {
            padding: 5px 15px;
            border-radius: 20px;
            font-size: 0.9em;
            font-weight: 600;
        }
        
        .status-passed {
            background: #d5f4e6;
            color: #27ae60;
        }
        
        .status-failed {
            background: #fadbd8;
            color: #e74c3c;
        }
        
        .screenshots-section {
            background: rgba(255, 255, 255, 0.95);
            border-radius: 15px;
            padding: 25px;
            box-shadow: 0 8px 25px rgba(0, 0, 0, 0.1);
            backdrop-filter: blur(10px);
        }
        
        .screenshot-grid {
            display: grid;
            grid-template-columns: repeat(auto-fill, minmax(200px, 1fr));
            gap: 15px;
            margin-top: 20px;
        }
        
        .screenshot-item {
            border-radius: 10px;
            overflow: hidden;
            box-shadow: 0 4px 15px rgba(0, 0, 0, 0.1);
            transition: transform 0.3s ease;
        }
        
        .screenshot-item:hover {
            transform: scale(1.05);
        }
        
        .screenshot-item img {
            width: 100%;
            height: auto;
            cursor: pointer;
        }
        
        .timestamp {
            color: #7f8c8d;
            font-size: 0.9em;
            text-align: center;
            margin-top: 20px;
        }
        
        @media (max-width: 768px) {
            .charts-container {
                grid-template-columns: 1fr;
            }
            
            .metrics-grid {
                grid-template-columns: 1fr;
            }
        }
    </style>
</head>
<body>
    <div class=" ++ dq ++ "container" ++ dq ++ ">
        <div class=" ++ dq ++ "header" ++ dq ++ ">
            <h1>🚀 AQX Trading Platform</h1>
            <div class=" ++ dq ++ "subtitle" ++ dq ++ ">Automated Test Results Dashboard</div>
        </div>
        
        <div class=" ++ dq ++ "metrics-grid" ++ dq ++ ">
            <div class=" ++ dq ++ "metric-card" ++ dq ++ ">
                <div class=" ++ dq ++ "metric-value total" ++ dq ++ ">".

Definition header_text (total_tests passed failed pass_rate : string) : string :=
  header_prefix
  ++ total_tests
  ++ "</div>
                <div class=" ++ dq ++ "metric-label" ++ dq ++ ">Total Tests</div>
            </div>
            <div class=" ++ dq ++ "metric-card" ++ dq ++ ">
                <div class=" ++ dq ++ "metric-value passed" ++ dq ++ ">"
  ++ passed
  ++ "</div>
                <div class=" ++ dq ++ "metric-label" ++ dq ++ ">Tests Passed</div>
            </div>
            <div class=" ++ dq ++ "metric-card" ++ dq ++ ">
                <div class=" ++ dq ++ "metric-value failed" ++ dq ++ ">"
  ++ failed
  ++ "</div>
                <div class=" ++ dq ++ "metric-label" ++ dq ++ ">Tests Failed</div>
            </div>
            <div class=" ++ dq ++ "metric-card" ++ dq ++ ">
                <div class=" ++ dq ++ "metric-value rate" ++ dq ++ ">"
  ++ pass_rate
  ++ "%</div>
                <div class=" ++ dq ++ "metric-label" ++ dq ++ ">Pass Rate</div>
            </div>
        </div>
        
        <div class=" ++ dq ++ "charts-container" ++ dq ++ ">
            <div class=" ++ dq ++ "chart-card" ++ dq ++ ">
                <h3>Test Results Distribution</h3>
                <canvas id=" ++ dq ++ "resultsChart" ++ dq ++ " width=" ++ dq ++ "400" ++ dq ++ " height=" ++ dq ++ "200" ++ dq ++ "></canvas>
            </div>
            <div class=" ++ dq ++ "chart-card" ++ dq ++ ">
                <h3>Test Categories</h3>
                <canvas id=" ++ dq ++ "categoriesChart" ++ dq ++ " width=" ++ dq ++ "400" ++ dq ++ " height=" ++ dq ++ "200" ++ dq ++ "></canvas>
            </div>
        </div>
        
        <div class=" ++ dq ++ "test-details" ++ dq ++ ">
            <h3>📋 Detailed Test Results</h3>
            <div class=" ++ dq ++ "test-list" ++ dq ++ ">
".

Definition test_item_text (test_name status_class status : string) : string :=
  "
                <div class=" ++ dq ++ "test-item" ++ dq ++ ">
                    <div class=" ++ dq ++ "test-name" ++ dq ++ ">"
  ++ test_name
  ++ "</div>
                    <div class=" ++ dq ++ "test-status "
  ++ status_class
  ++ dq ++ ">"
  ++ status
  ++ "</div>
                </div>
".

Definition details_close_text : string :=
  "
            </div>
        </div>
".

Definition screenshots_open_text : string :=
  "
        <div class=" ++ dq ++ "screenshots-section" ++ dq ++ ">
            <h3>📸 Test Screenshots</h3>
            <div class=" ++ dq ++ "screenshot-grid" ++ dq ++ ">
".

Definition screenshot_item_text (screenshot : string) : string :=
  "
                <div class=" ++ dq ++ "screenshot-item" ++ dq ++ ">
                    <img src=" ++ dq ++ "screenshots/"
  ++ screenshot
  ++ dq ++ " alt=" ++ dq ++ "Test Screenshot" ++ dq ++ " onclick=" ++ dq ++ "window.open('screenshots/"
  ++ screenshot
  ++ "', '_blank')" ++ dq ++ ">
                </div>
".

Definition screenshots_close_text : string :=
  "
            </div>
        </div>
".

Definition timestamp_open_text : string :=
  "
        <div class=" ++ dq ++ "timestamp" ++ dq ++ ">
            Generated on ".

Definition results_chart_open_text : string :=
  "
        </div>
    </div>
    
    <script>
        // Results chart
        const resultsCtx = document.getElementById('resultsChart').getContext('2d');
        new Chart(resultsCtx, {
            type: 'doughnut',
            data: {
                labels: ['Passed', 'Failed'],
                datasets: [{
                    data: [".

Definition results_chart_close_text : string :=
  "],
                    backgroundColor: ['#27ae60', '#e74c3c'],
                    borderWidth: 0
                }]
            },
            options: {
                responsive: true,
                plugins: {
                    legend: {
                        position: 'bottom'
                    }
                }
            }
        });
        
".

Definition categories_chart_text : string :=
  "        // Categories chart (mock data for demonstration)
        const categoriesCtx = document.getElementById('categoriesChart').getContext('2d');
        new Chart(categoriesCtx, {
            type: 'bar',
            data: {
                labels: ['Login', 'Trading', 'Views', 'Bulk Ops'],
                datasets: [{
                    label: 'Tests',
                    data: [2, 4, 4, 2],
                    backgroundColor: ['#3498db', '#9b59b6', '#f39c12', '#1abc9c'],
                    borderWidth: 0
                }]
            },
            options: {
                responsive: true,
                scales: {
                    y: {
                        beginAtZero: true
                    }
                },
                plugins: {
                    legend: {
                        display: false
                    }
                }
            }
        });
".

Definition document_close_text : string :=
  "    </script>
</body>
</html>
".

Definition footer_text (timestamp passed failed : string) : string :=
  timestamp_open_text
  ++ timestamp
  ++ results_chart_open_text
  ++ passed
  ++ ", "
  ++ failed
  ++ results_chart_close_text
  ++ categories_chart_text
  ++ document_close_text.

(** ** Inputs *)

(** The [results] dict. [None] is an absent key. [load_test_results] is
    its only producer: [screenshots] and [logs] are lists of str by
    construction, [summary] and [test_details] are whatever [json.load]
    found in the report files. *)
Record results : Type := {
  summary : option json;
  test_details : option json;
  screenshots : option (list string);
  logs : option (list string)
}.

Definition get {A : Type} (field : option A) (default : A) : A :=
  match field with
  | Some v => v
  | None => default
  end.

(** ** [generate_dashboard_html] *)

(** [(passed / total_tests * 100) if total_tests > 0 else 0] *)
Definition pass_rate (total_tests passed : json) : pyresult json :=
  positive <- py_gt_int total_tests 0 ;;
  if (positive : bool) then
    q <- py_truediv passed total_tests ;;
    r <- float_mul_int q 100 ;;
    Ok (JFloat r)
  else Ok (JInt 0).

(** A [for] loop whose body updates [html_content] and may raise. *)
Fixpoint for_each {A S : Type} (body : S -> A -> pyresult S) (items : list A) (s : S)
  : pyresult S :=
  match items with
  | [] => Ok s
  | x :: rest => s' <- body s x ;; for_each body rest s'
  end.

Section Render.
Context `{Builtins}.

(** The body of [for test in test_details]. *)
Definition add_test_item (html_content : string) (test : json) : pyresult string :=
  test_name <- py_get test "test_name" (JStr "Unknown Test") ;;
  status <- py_get test "status" (JStr "UNKNOWN") ;;
  let status_class :=
    if py_eq_str status "PASSED" then "status-passed" else "status-failed" in
  Ok (html_content ++ test_item_text (py_str test_name) status_class (py_str status)).

(** The body of [for screenshot in screenshots[:12]]. *)
Definition add_screenshot (html_content : string) (screenshot : string) : pyresult string :=
  Ok (html_content ++ screenshot_item_text screenshot).

(** [now] is what [datetime.now()] reads when the closing f-string is
    evaluated. *)
Definition generate_dashboard_html (r : results) (now : datetime) : pyresult string :=
  let summary := get (summary r) (JDict []) in
  let test_details := get (test_details r) (JList []) in
  let screenshots := get (screenshots r) [] in
  total_tests <- py_get summary "total_tests" (JInt 0) ;;
  passed <- py_get summary "passed" (JInt 0) ;;
  failed <- py_get summary "failed" (JInt 0) ;;
  pass_rate <- pass_rate total_tests passed ;;
  rate_text <- py_format_1f pass_rate ;;
  let html_content :=
    header_text (py_str total_tests) (py_str passed) (py_str failed) rate_text in
  tests <- py_iter test_details ;;
  html_content <- for_each add_test_item tests html_content ;;
  let html_content := html_content ++ details_close_text in
  html_content <-
    match screenshots with
    | [] => Ok html_content
    | _ :: _ =>
        let html_content := html_content ++ screenshots_open_text in
        html_content <- for_each add_screenshot (firstn 12 screenshots) html_content ;;
        Ok (html_content ++ screenshots_close_text)
    end ;;
  Ok (html_content ++ footer_text (strftime_dashed now) (py_str passed) (py_str failed)).

End Render.

(** ** [load_test_results] *)

(** The files and directories the script looks at, relative to the working
    directory. A report file is absent ([None]) or holds what [open] and
    [json.load] make of it; a directory is absent or lists its entries in
    the order the operating system yields them. *)
Record filesystem : Type := {
  summary_file : option (pyresult json);
  report_file : option (pyresult json);
  screenshot_dir : option (list string);
  log_dir : option (list string);
  dashboard_file : option string
}.

Definition ends_with (suffix s : string) : bool :=
  let n := String.length s in
  let k := String.length suffix in
  (k <=? n)%nat && String.eqb (substring (n - k) k s) suffix.

(** [[str(f.relative_to(d)) for f in d.glob("*" + suffix)]] *)
Definition glob_suffix (suffix : string) (entries : list string) : list string :=
  filter (ends_with suffix) entries.

Definition load_test_results (fs : filesystem) : pyresult results :=
  summary <-
    match summary_file fs with
    | Some loaded => loaded
    | None => Ok (JDict [])
    end ;;
  test_details <-
    match report_file fs with
    | Some loaded =>
        report_data <- loaded ;;
        py_get report_data "test_results" (JList [])
    | None => Ok (JList [])
    end ;;
  let screenshots :=
    match screenshot_dir fs with
    | Some entries => glob_suffix ".png" entries
    | None => []
    end in
  let logs :=
    match log_dir fs with
    | Some entries => glob_suffix ".log" entries
    | None => []
    end in
  Ok {| summary := Some summary;
        test_details := Some test_details;
        screenshots := Some screenshots;
        logs := Some logs |}.

(** ** [main]: load, render, write [reports/test_dashboard.html].
    Creating the [reports] directory and writing the file are taken to
    succeed; the progress messages are left out. *)
Definition main `{Builtins} (fs : filesystem) (now : datetime) : pyresult filesystem :=
  results <- load_test_results fs ;;
  dashboard_html <- generate_dashboard_html results now ;;
  Ok {| summary_file := summary_file fs;
        report_file := report_file fs;
        screenshot_dir := screenshot_dir fs;
        log_dir := log_dir fs;
        dashboard_file := Some dashboard_html |}.

End Dashboard.

(* ================================================================== *)
(** * run_tests.py                                                      *)
(* ================================================================== *)

Module Runner.

(** ** The process and its surroundings *)

Record completed_process : Type := {
  stdout : string;
  stderr : string;
  returncode : Z
}.

Definition environ := list (string * string).

(** What the orchestrator does to the outside, in order. *)
Inductive event : Type :=
| Printed (line : string)
| Spawned (cmd : list string) (env : option environ).

Definition trace := list event.

(** What the outside answers. [base_dir] is [Path(__file__).parent],
    [os_environ] is [os.environ], [mkdirs] is what creating the three
    directories in [TestRunner.__init__] does, the clocks are the two
    readings of [datetime.now()] in [run_tests], and [summary_json] is
    [reports/test_summary.json] as [print_summary] finds it: absent, or
    what [open] and [json.load] make of it. [subprocess_run cmd] is what
    [subprocess.run(cmd, ...)] does: it raises (the executable is missing,
    the captured output does not decode) or returns the finished child. *)
Record world : Type := {
  base_dir : string;
  os_environ : environ;
  mkdirs : pyresult unit;
  report_clock : datetime;
  junit_clock : datetime;
  subprocess_run : list string -> pyresult completed_process;
  summary_json : option (pyresult json)
}.

(** An action prints and spawns, then returns or raises; what it did
    before raising stays done. Writing to standard output and looking a
    file up are taken to succeed. *)
Definition action (A : Type) : Type := trace -> pyresult A * trace.

Definition ret {A : Type} (a : A) : action A := fun t => (Ok a, t).

Definition raise {A : Type} (e : pyexc) : action A := fun t => (Raise e, t).

Definition lift {A : Type} (r : pyresult A) : action A := fun t => (r, t).

Definition abind {A B : Type} (m : action A) (k : A -> action B) : action B :=
  fun t =>
    match m t with
    | (Ok a, t') => k a t'
    | (Raise e, t') => (Raise e, t')
    end.

(** [try: m  except Exception as e: handler e] *)
Definition try_except {A : Type} (m : action A) (handler : pyexc -> action A) : action A :=
  fun t =>
    match m t with
    | (Ok a, t') => (Ok a, t')
    | (Raise e, t') => handler e t'
    end.

Definition print (line : string) : action unit :=
  fun t => (Ok tt, (t ++ [Printed line])%list).

Definition when (b : bool) (m : action unit) : action unit :=
  if b then m else ret tt.

Declare Scope action_scope.
Delimit Scope action_scope with action.
Notation "x <- m ;; k" := (abind m (fun x => k))
  (at level 61, m at next level, right associativity) : action_scope.
Notation "m ;; k" := (abind m (fun _ => k))
  (at level 61, right associativity) : action_scope.
Open Scope action_scope.

(** [subprocess.run(cmd, env=env, check=check)] *)
Definition run (w : world) (cmd : list string) (env : option environ) (check : bool)
  : action completed_process :=
  fun t =>
    let t' := (t ++ [Spawned cmd env])%list in
    match subprocess_run w cmd with
    | Ok result =>
        if check && negb (returncode result =? 0)
        then (Raise (CalledProcessError (returncode result)), t')
        else (Ok result, t')
    | Raise e => (Raise e, t')
    end.

(** ** Paths, strings, dicts *)

Definition path_join (dir name : string) : string := dir ++ "/" ++ name.

Definition reports_dir (w : world) : string := path_join (base_dir w) "reports".
Definition screenshots_dir (w : world) : string := path_join (base_dir w) "screenshots".
Definition logs_dir (w : world) : string := path_join (base_dir w) "logs".

Fixpoint repeat_string (s : string) (n : nat) : string :=
  match n with
  | O => ""
  | S k => s ++ repeat_string s k
  end.

Definition str_bool (b : bool) : string := if b then "True" else "False".

(** [env[key] = value] *)
Fixpoint env_set (key value : string) (env : environ) : environ :=
  match env with
  | [] => [(key, value)]
  | (k, v) :: rest =>
      if String.eqb k key then (k, value) :: rest else (k, v) :: env_set key value rest
  end.

(** [s.split('\n')] *)
Fixpoint split_lines_from (current : string) (s : string) : list string :=
  match s with
  | EmptyString => [current]
  | String c rest =>
      if Ascii.eqb c "010"%char then current :: split_lines_from "" rest
      else split_lines_from (current ++ String c EmptyString) rest
  end.

Definition split_lines (s : string) : list string := split_lines_from "" s.

Definition nonempty (s : string) : bool := negb (String.eqb s "").

Section TestRunner.
Context `{Builtins}.
Variable w : world.

(** ** [TestRunner.generate_dashboard] *)
Definition dashboard_cmd : list string :=
  ["python"; path_join (path_join (base_dir w) "scripts") "generate_dashboard.py"].

Definition generate_dashboard : action unit :=
  try_except
    (print "📊 Generating test dashboard..." ;;
     _ <- run w dashboard_cmd None true ;;
     print "✅ Dashboard generated successfully")
    (fun e => print ("⚠️  Dashboard generation failed: " ++ exc_str e)).

(** ** [TestRunner.print_summary] *)
Definition print_results (loaded : pyresult json) : action unit :=
  try_except
    (summary <- lift loaded ;;
     print (String "010"%char "📈 Results:") ;;
     total <- lift (py_get summary "total_tests" (JStr "N/A")) ;;
     print ("  Total Tests: " ++ py_str total) ;;
     passed <- lift (py_get summary "passed" (JStr "N/A")) ;;
     print ("  Passed: " ++ py_str passed) ;;
     failed <- lift (py_get summary "failed" (JStr "N/A")) ;;
     print ("  Failed: " ++ py_str failed) ;;
     total <- lift (py_get summary "total_tests" (JInt 0)) ;;
     positive <- lift (py_gt_int total 0) ;;
     when positive
       (passed <- lift (py_get summary "passed" (JInt 0)) ;;
        total <- lift (py_get summary "total_tests" (JInt 1)) ;;
        q <- lift (py_truediv passed total) ;;
        pass_rate <- lift (float_mul_int q 100) ;;
        print ("  Pass Rate: " ++ float_format_1f pass_rate ++ "%")))
    (fun e => print ("⚠️  Could not load test summary: " ++ exc_str e)).

Definition print_summary (exit_code : Z) (report_name : string) : action unit :=
  print (String "010"%char (repeat_string "=" 60)) ;;
  print "📋 TEST EXECUTION SUMMARY" ;;
  print (repeat_string "=" 60) ;;
  let status := if exit_code =? 0 then "✅ PASSED" else "❌ FAILED" in
  print ("Status: " ++ status) ;;
  print ("HTML Report: " ++ path_join (reports_dir w) report_name) ;;
  print ("Dashboard: " ++ path_join (reports_dir w) "test_dashboard.html") ;;
  print ("Screenshots: " ++ screenshots_dir w) ;;
  print ("Logs: " ++ logs_dir w) ;;
  match summary_json w with
  | Some loaded => print_results loaded
  | None => ret tt
  end ;;
  print (repeat_string "=" 60).

(** ** [TestRunner.run_tests] *)
Definition report_name (test_type : string) : string :=
  test_type ++ "_test_report_" ++ strftime_compact (report_clock w) ++ ".html".

Definition junit_name (test_type : string) : string :=
  "junit_" ++ test_type ++ "_" ++ strftime_compact (junit_clock w) ++ ".xml".

Definition pytest_cmd (test_type : string) (parallel : bool) : list string :=
  let cmd := ["python"; "-m"; "pytest"] in
  let cmd := if String.eqb test_type "all" then cmd else (cmd ++ ["-m"; test_type])%list in
  let cmd := (cmd ++ ["-v"])%list in
  let cmd := (cmd ++ ["--html"; path_join (reports_dir w) (report_name test_type)])%list in
  let cmd := (cmd ++ ["--self-contained-html"])%list in
  let cmd := (cmd ++ ["--junit-xml"; path_join (reports_dir w) (junit_name test_type)])%list in
  if parallel then (cmd ++ ["-n"; "auto"])%list else cmd.

Definition pytest_env (browser : string) (headless : bool) : environ :=
  let env := os_environ w in
  let env := if headless then env_set "HEADLESS" "true" env else env in
  env_set "BROWSER" browser env.

Definition run_tests (test_type browser : string) (headless parallel : bool) : action bool :=
  print "🚀 Starting AQX Trading Platform Tests" ;;
  print ("📊 Test Type: " ++ test_type) ;;
  print ("🌐 Browser: " ++ browser) ;;
  print ("👁️  Headless: " ++ str_bool headless) ;;
  print ("⚡ Parallel: " ++ str_bool parallel) ;;
  print (repeat_string "-" 50) ;;
  let cmd := pytest_cmd test_type parallel in
  let env := pytest_env browser headless in
  print ("🔄 Executing command: " ++ String.concat " " cmd) ;;
  try_except
    (result <- run w cmd (Some env) false ;;
     when (nonempty (stdout result))
       (print "📄 Test Output:" ;; print (stdout result)) ;;
     when (nonempty (stderr result))
       (print "⚠️  Warnings/Errors:" ;; print (stderr result)) ;;
     generate_dashboard ;;
     print_summary (returncode result) (report_name test_type) ;;
     ret (returncode result =? 0))
    (fun e =>
       print ("❌ Error running tests: " ++ exc_str e) ;;
       ret false).

(** ** [TestRunner.list_available_tests] *)
Definition collect_cmd : list string := ["python"; "-m"; "pytest"; "--collect-only"; "-q"].

Fixpoint print_each (lines : list string) : action unit :=
  match lines with
  | [] => ret tt
  | test :: rest => print ("  - " ++ str_strip test) ;; print_each rest
  end.

Definition list_available_tests : action unit :=
  print "📋 Available Test Types:" ;;
  print "  - all: Run all tests" ;;
  print "  - smoke: Basic functionality tests" ;;
  print "  - critical: Critical path tests" ;;
  print "  - trading: Trading operations tests" ;;
  print "  - view: View/display tests" ;;
  print "  - bulk: Bulk operations tests" ;;
  print "  - regression: Regression tests" ;;
  print (String "010"%char "🔍 Available Tests:") ;;
  try_except
    (result <- run w collect_cmd None false ;;
     when (nonempty (stdout result))
       (let tests := filter (contains "::test_") (split_lines (stdout result)) in
        print_each (firstn 10 tests) ;;
        when (10 <? Z.of_nat (List.length tests))
          (print ("  ... and " ++ string_of_Z (Z.of_nat (List.length tests) - 10)
                  ++ " more tests"))))
    (fun e => print ("⚠️  Could not collect test list: " ++ exc_str e)).

(** ** [main] *)

(** The parsed command line. *)
Record args : Type := {
  type : string;
  browser : string;
  headless : bool;
  parallel : bool;
  list : bool;
  dashboard_only : bool
}.

(** [main] either returns ([None]) or leaves through [sys.exit(code)]. *)
Definition main (a : args) : action (option Z) :=
  lift (mkdirs w) ;;
  if list a then list_available_tests ;; ret None
  else if dashboard_only a then generate_dashboard ;; ret None
  else
    success <- run_tests (type a) (browser a) (headless a) (parallel a) ;;
    ret (Some (if (success : bool) then 0 else 1)).

(** The exit status of the interpreter: 0 after a plain return, the
    argument of [sys.exit], 1 after an uncaught exception. *)
Definition exit_status (outcome : pyresult (option Z)) : Z :=
  match outcome with
  | Ok None => 0
  | Ok (Some code) => code
  | Raise _ => 1
  end.

Definition process (a : args) : Z * trace :=
  let (outcome, t) := main a [] in
  (exit_status outcome, t).

End TestRunner.

Close Scope action_scope.

End Runner.

(* ================================================================== *)
(** * The browser driver and the run-time of the tests                  *)
(* ================================================================== *)

Module Selenium.

(** The exceptions that the page objects, the tests and the hooks can
    meet. All of them derive from [Exception]; [TimeoutException] is the
    only one that the code catches by name. *)
Inductive exn : Type :=
| TimeoutException
| WebDriverException (msg : string)
| AssertionError
| KeyError (key : string)
| Builtin (e : pyexc).

Inductive outcome (A : Type) : Type :=
| Returned (a : A)
| Raised (e : exn).
Arguments Returned {A} a.
Arguments Raised {A} e.

(** A locator: the strategy and the selector, [(By.CSS_SELECTOR, "...")]. *)
Definition locator : Type := (string * string)%type.

Definition CSS_SELECTOR : string := "css selector".

(** The two expected conditions the pages wait for. *)
Inductive condition : Type :=
| presence_of_element_located
| element_to_be_clickable.

(** A handle on an element of the page. *)
Definition element : Type := Z.

Inductive level : Type := INFO | ERROR.

(** What the test code does to the outside, in order: log records,
    readings of the two clocks, and calls of the driver and of [os]. *)
Inductive event : Type :=
| Logged (lvl : level) (message : string)
| ReadNow
| ReadTime
| Slept (seconds : Z)
| Started
| Got (url : string)
| Waited (cond : condition) (loc : locator) (timeout : Z)
| Cleared (el : element)
| Typed (el : element) (text : string)
| Clicked (el : element)
| SavedScreenshot (filename : string)
| ReadTitle
| ReadUrl
| MadeDirs (name : string).

Definition history : Type := list event.

(** What the outside answers, given everything done so far:
    [datetime.now()], [time.time()], [webdriver.Chrome(options=...)], the
    methods of the driver and of its elements, and [os.makedirs].
    [until] is [WebDriverWait(driver, timeout).until(condition(locator))];
    [save_screenshot] returns whether the file was written; [title] is a
    str or [None]. *)
Record world : Type := {
  now : history -> datetime;
  time : history -> float;
  start : history -> outcome unit;
  get : history -> string -> outcome unit;
  until : history -> condition -> locator -> Z -> outcome element;
  clear : history -> element -> outcome unit;
  send_keys : history -> element -> string -> outcome unit;
  click : history -> element -> outcome unit;
  save_screenshot : history -> string -> outcome bool;
  title : history -> outcome json;
  current_url : history -> outcome string;
  makedirs : history -> string -> outcome unit
}.

(** The parts of the run-time that the code calls and that are not
    described here: the message [str(e)] of an exception,
    [datetime.isoformat], [str] of a locator tuple, and [str.lower]. *)
Class Runtime : Type := {
  exn_str : exn -> string;
  isoformat : datetime -> string;
  tuple_str : locator -> string;
  str_lower : string -> string
}.

(** [int(f)]: truncation towards zero. *)
Definition float_to_int (f : float) : outcome Z :=
  match f with
  | S754_nan => Raised (Builtin ValueError)
  | S754_infinity _ => Raised (Builtin OverflowError)
  | S754_zero _ => Returned 0
  | S754_finite s m e =>
      let magnitude := if 0 <=? e then Z.pos m * 2 ^ e else Z.pos m / 2 ^ (- e) in
      Returned (if s then - magnitude else magnitude)
  end.

(** [d[key]] *)
Definition item (d : dict) (key : string) : outcome json :=
  match lookup d key with
  | Some v => Returned v
  | None => Raised (KeyError key)
  end.

End Selenium.

(* ================================================================== *)
(** * tests/conftest.py: the session-finish hook                        *)
(* ================================================================== *)

Module Conftest.

(** The two counters of the pytest session that the hook reads. *)
Record session : Type := {
  testscollected : Z;
  testsfailed : Z
}.

(** [pytest_sessionfinish]: the summary written to
    [reports/test_summary.json]. [end_time] is [datetime.now().isoformat()]. *)
Definition pytest_sessionfinish (s : session) (exitstatus : Z) (end_time : string) : dict :=
  let passed := testscollected s - testsfailed s in
  [ ("total_tests", JInt (testscollected s));
    ("passed", JInt passed);
    ("failed", JInt (testsfailed s));
    ("exit_status", JInt exitstatus);
    ("end_time", JStr end_time) ].

(** ** [pytest_runtest_makereport] *)

(** A driver object, as the hook finds it on the test instance or among
    the fixture values; [None] stands for Python's [None]. *)
Definition driver : Type := string.

(** What the hook reads of the test item: its name, [item.instance.driver]
    ([None] when the instance has no such attribute), [item.fixturenames]
    and [item.funcargs]. *)
Record item : Type := {
  name : string;
  instance_driver : option (option driver);
  fixturenames : list string;
  funcargs : list (string * option driver)
}.

(** What the hook reads of the report that the wrapped hooks made:
    [report.when], [report.failed] and [report.extra] ([None] when the
    report has no such attribute). *)
Record report : Type := {
  when : string;
  failed : bool;
  extra : option (list json)
}.

Fixpoint funcarg (args : list (string * option driver)) (key : string)
  : Selenium.outcome (option driver) :=
  match args with
  | [] => Selenium.Raised (Selenium.KeyError key)
  | (k, v) :: rest => if String.eqb k key then Selenium.Returned v else funcarg rest key
  end.

(** The part of the hook after the [yield]. [save_screenshot d f] is what
    [d.save_screenshot(f)] does and [now] what [datetime.now()] reads. The
    result is the report as the hook leaves it, or the exception that
    leaves the hook, together with the screenshots it asked for. *)
Definition pytest_runtest_makereport
    (save_screenshot : driver -> string -> Selenium.outcome bool) (now : datetime)
    (it : item) (rep : report)
  : Selenium.outcome report * list (driver * string) :=
  if String.eqb (when rep) "call" && failed rep then
    let found :=
      match instance_driver it with
      | Some d => Selenium.Returned d
      | None =>
          if existsb (String.eqb "chrome_driver") (fixturenames it)
          then funcarg (funcargs it) "chrome_driver"
          else Selenium.Returned None
      end in
    match found with
    | Selenium.Raised e => (Selenium.Raised e, [])
    | Selenium.Returned None => (Selenium.Returned rep, [])
    | Selenium.Returned (Some d) =>
        let timestamp := strftime_compact now in
        let screenshot_name :=
          "screenshots/failure_" ++ name it ++ "_" ++ timestamp ++ ".png" in
        match save_screenshot d screenshot_name with
        | Selenium.Raised e => (Selenium.Raised e, [(d, screenshot_name)])
        | Selenium.Returned _ =>
            let rep' :=
              match extra rep with
              | Some entries =>
                  {| when := when rep;
                     failed := failed rep;
                     extra := Some (entries ++ [JDict [ ("name", JStr "Screenshot");
                                                        ("path", JStr screenshot_name);
                                                        ("type", JStr "image") ]])%list |}
              | None => rep
              end in
            (Selenium.Returned rep', [(d, screenshot_name)])
        end
    end
  else (Selenium.Returned rep, []).

End Conftest.

(* ================================================================== *)
(** * tests/test_aqx_platform.py: class TestReporter                    *)
(* ================================================================== *)

Module Reporter.

(** One entry of [self.results]. *)
Record result : Type := {
  test_name : string;
  status : string;
  details : json;
  timestamp : string;
  duration : float
}.

Record TestReporter : Type := {
  results : list result;
  start_time : string
}.

(** [TestReporter()]; [now] is [datetime.now().isoformat()]. *)
Definition init (now : string) : TestReporter :=
  {| results := []; start_time := now |}.

(** [add_result]; [now] is [datetime.now().isoformat()] and [time] is
    [time.time()] at the call. *)
Definition add_result (self : TestReporter) (test_name status : string) (details : json)
    (now : string) (time : float) : TestReporter :=
  {| results := (results self ++
                 [{| test_name := test_name; status := status; details := details;
                     timestamp := now; duration := time |}])%list;
     start_time := start_time self |}.


(** [len([r for r in self.results if r["status"] == wanted])] *)
Definition count_status (wanted : string) (rs : list result) : Z :=
  Z.of_nat (List.length (filter (fun r => String.eqb (status r) wanted) rs)).

(** [f"{(passed/len(self.results)*100):.1f}%" if self.results else "0%"] *)
Definition pass_rate_text (passed : Z) (rs : list result) : pyresult string :=
  match rs with
  | [] => Ok "0%"
  | _ :: _ =>
      q <- int_true_divide passed (Z.of_nat (List.length rs)) ;;
      r <- float_mul_int q 100 ;;
      Ok (float_format_1f r ++ "%")
  end.

(** The ["summary"] of [generate_report]. [end_time] is the clock reading
    of the call and [total_duration] the text of the elapsed seconds. *)
Definition summary_of (self : TestReporter) (end_time total_duration : string)
  : pyresult dict :=
  let passed := count_status "PASSED" (results self) in
  let failed := count_status "FAILED" (results self) in
  rate <- pass_rate_text passed (results self) ;;
  Ok [ ("total_tests", JInt (Z.of_nat (List.length (results self))));
       ("passed", JInt passed);
       ("failed", JInt failed);
       ("pass_rate", JStr rate);
       ("start_time", JStr (start_time self));
       ("end_time", JStr end_time);
       ("duration", JStr (total_duration ++ "s")) ].


End Reporter.

(* ================================================================== *)
(** * tests/test_aqx_platform.py: mock responses, page objects, tests   *)
(* ================================================================== *)

Module Pages.
Import Selenium.

(** ** Constants *)

(** [TestConfig]: the defaults of the dataclass, which no caller
    overrides. *)
Definition base_url : string := "https://aqxtrader.aquariux.com/web".
Definition account_id : string := "998995".
Definition password : string := "u#TuWNf2J2p$".
Definition timeout : Z := 20.
Definition page_load_wait : Z := 5.

(** [AQXPageLocators]: the three locators that the pages use. *)
Definition ACCOUNT_ID_INPUT : locator :=
  (CSS_SELECTOR, "[data-testid=" ++ dq ++ "login-user-id" ++ dq ++ "]").
Definition PASSWORD_INPUT : locator :=
  (CSS_SELECTOR, "[data-testid=" ++ dq ++ "login-password" ++ dq ++ "]").
Definition LOGIN_BUTTON : locator :=
  (CSS_SELECTOR, "[data-testid=" ++ dq ++ "login-submit" ++ dq ++ "]").

(** The float literals of the file. *)
Definition float_of_int (n : Z) : float :=
  binary_normalize prec emax n 0 false.

Definition f_0_1 : float :=
  Eval vm_compute in SFdiv prec emax (float_of_int 1) (float_of_int 10).
Definition f_0_5 : float := Eval vm_compute in binary_normalize prec emax 1 (-1) false.
Definition f_45000 : float := Eval vm_compute in float_of_int 45000.
Definition f_45100 : float := Eval vm_compute in float_of_int 45100.

(** ** Data *)

(** [MockTradeOrder]. A dataclass does not check its fields: [order_id]
    and [price] hold whatever the mock response held. *)
Record MockTradeOrder : Type := {
  order_id : json;
  symbol : string;
  order_type : string;
  quantity : float;
  price : json;
  status : string;
  timestamp : datetime
}.


(** ** State and actions

    The state is the test instance ([self.trading_page.mock_orders],
    [self.reporter]) together with everything done to the outside so
    far. An action returns or raises; what it did before raising stays
    done. *)
Record state : Type := {
  past : history;
  mock_orders : list MockTradeOrder;
  reporter : Reporter.TestReporter
}.

Definition action (A : Type) : Type := state -> outcome A * state.

Definition ret {A : Type} (a : A) : action A := fun st => (Returned a, st).

Definition raise {A : Type} (e : exn) : action A := fun st => (Raised e, st).

Definition lift {A : Type} (r : outcome A) : action A := fun st => (r, st).

Definition bind {A B : Type} (m : action A) (k : A -> action B) : action B :=
  fun st =>
    match m st with
    | (Returned a, st') => k a st'
    | (Raised e, st') => (Raised e, st')
    end.

(** [try: m  except ...: handler]; [handler e] is [None] when no clause
    catches [e]. *)
Definition try_except {A : Type} (m : action A) (handler : exn -> option (action A))
  : action A :=
  fun st =>
    match m st with
    | (Returned a, st') => (Returned a, st')
    | (Raised e, st') =>
        match handler e with
        | Some h => h st'
        | None => (Raised e, st')
        end
    end.

Definition happened (ev : event) (st : state) : state :=
  {| past := (past st ++ [ev])%list;
     mock_orders := mock_orders st;
     reporter := reporter st |}.

(** A call to the outside: the answer depends on what was done before. *)
Definition ask {A : Type} (ev : event) (answer : history -> outcome A) : action A :=
  fun st => (answer (past st), happened ev st).

Definition read {A : Type} (ev : event) (answer : history -> A) : action A :=
  ask ev (fun h => Returned (answer h)).

(** [logger.info], [logger.error]: a handler that fails does not raise. *)
Definition log (lvl : level) (message : string) : action unit :=
  fun st => (Returned tt, happened (Logged lvl message) st).

(** [time.sleep] *)
Definition sleep (seconds : Z) : action unit :=
  fun st => (Returned tt, happened (Slept seconds) st).

(** [assert b] *)
Definition assert (b : bool) : action unit :=
  if b then ret tt else raise AssertionError.

Declare Scope page_scope.
Delimit Scope page_scope with page.
Notation "x <- m ;; k" := (bind m (fun x => k))
  (at level 61, m at next level, right associativity) : page_scope.
Notation "m ;; k" := (bind m (fun _ => k))
  (at level 61, right associativity) : page_scope.
Open Scope page_scope.

Section Platform.
Context `{Builtins} `{Runtime}.
Variable w : world.

(** ** [MockAPIResponse] *)

Definition login_success : dict :=
  [ ("status", JStr "success");
    ("message", JStr "Login successful");
    ("user_id", JStr "998995");
    ("session_token", JStr "mock_token_12345") ].

Definition trade_order_success (order_type symbol : string) : action dict :=
  seconds <- read ReadTime (time w) ;;
  n <- lift (float_to_int seconds) ;;
  created <- read ReadNow (now w) ;;
  ret [ ("status", JStr "success");
        ("order_id", JStr ("ORD" ++ string_of_Z n));
        ("symbol", JStr symbol);
        ("type", JStr order_type);
        ("quantity", JFloat f_0_1);
        ("price", JFloat (if String.eqb order_type "buy" then f_45000 else f_45100));
        ("timestamp", JStr (isoformat created)) ].


(** ** [AQXBasePage] *)

Definition navigate_to_login : action unit :=
  log INFO ("Navigating to: " ++ base_url) ;;
  ask (Got base_url) (fun h => get w h base_url) ;;
  sleep page_load_wait.

Definition take_screenshot (name : string) : action string :=
  stamp <- read ReadNow (now w) ;;
  let filename := "screenshots/" ++ name ++ "_" ++ strftime_compact stamp ++ ".png" in
  _ <- ask (SavedScreenshot filename) (fun h => save_screenshot w h filename) ;;
  log INFO ("Screenshot saved: " ++ filename) ;;
  ret filename.

(** [timeout or self.config.timeout] *)
Definition wait_time (requested : option Z) : Z :=
  match requested with
  | Some t => if t =? 0 then timeout else t
  | None => timeout
  end.

Definition wait_for_element (loc : locator) (requested : option Z) : action element :=
  let wait_time := wait_time requested in
  try_except
    (ask (Waited presence_of_element_located loc wait_time)
         (fun h => until w h presence_of_element_located loc wait_time))
    (fun e =>
       match e with
       | TimeoutException =>
           Some (log ERROR ("Element not found: " ++ tuple_str loc) ;;
                 _ <- take_screenshot ("element_not_found_" ++ snd loc) ;;
                 raise e)
       | _ => None
       end).

Definition wait_for_clickable (loc : locator) (requested : option Z) : action element :=
  let wait_time := wait_time requested in
  try_except
    (ask (Waited element_to_be_clickable loc wait_time)
         (fun h => until w h element_to_be_clickable loc wait_time))
    (fun e =>
       match e with
       | TimeoutException =>
           Some (log ERROR ("Element not clickable: " ++ tuple_str loc) ;;
                 _ <- take_screenshot ("element_not_clickable_" ++ snd loc) ;;
                 raise e)
       | _ => None
       end).

(** ** [AQXLoginPage] *)

(** [{"status": "error", "message": str(e)}] *)
Definition error_response (e : exn) : dict :=
  [ ("status", JStr "error"); ("message", JStr (exn_str e)) ].

Definition login (account_id password : string) : action dict :=
  log INFO "Starting login process..." ;;
  try_except
    (account_input <- wait_for_element ACCOUNT_ID_INPUT None ;;
     ask (Cleared account_input) (fun h => clear w h account_input) ;;
     ask (Typed account_input account_id) (fun h => send_keys w h account_input account_id) ;;
     log INFO ("Entered Account ID: " ++ account_id) ;;
     password_input <- wait_for_element PASSWORD_INPUT None ;;
     ask (Cleared password_input) (fun h => clear w h password_input) ;;
     ask (Typed password_input password) (fun h => send_keys w h password_input password) ;;
     log INFO "Entered password" ;;
     _ <- take_screenshot "before_login" ;;
     login_button <- wait_for_clickable LOGIN_BUTTON None ;;
     ask (Clicked login_button) (fun h => click w h login_button) ;;
     log INFO "Clicked login button" ;;
     sleep 5 ;;
     _ <- take_screenshot "after_login" ;;
     ret login_success)
    (fun e =>
       Some (log ERROR ("Login failed: " ++ exn_str e) ;;
             _ <- take_screenshot "login_error" ;;
             ret (error_response e))).

(** ** [AQXTradingPage] *)

(** [self.mock_orders.append(order)] *)
Definition append_order (order : MockTradeOrder) : action unit :=
  fun st =>
    (Returned tt,
     {| past := past st;
        mock_orders := (mock_orders st ++ [order])%list;
        reporter := reporter st |}).

Definition place_buy_order (symbol : string) (quantity : float) : action dict :=
  log INFO ("Placing buy order: " ++ symbol ++ " x " ++ py_str (JFloat quantity)) ;;
  try_except
    (log INFO "Simulating buy button click..." ;;
     mock_response <- trade_order_success "buy" symbol ;;
     id <- lift (item mock_response "order_id") ;;
     cost <- lift (item mock_response "price") ;;
     created <- read ReadNow (now w) ;;
     append_order {| order_id := id; symbol := symbol; order_type := "buy";
                     quantity := quantity; price := cost; status := "executed";
                     timestamp := created |} ;;
     id <- lift (item mock_response "order_id") ;;
     log INFO ("Buy order placed successfully: " ++ py_str id) ;;
     _ <- take_screenshot "buy_order_placed" ;;
     ret mock_response)
    (fun e =>
       Some (log ERROR ("Buy order failed: " ++ exn_str e) ;;
             ret (error_response e))).

Definition place_sell_order (symbol : string) (quantity : float) : action dict :=
  log INFO ("Placing sell order: " ++ symbol ++ " x " ++ py_str (JFloat quantity)) ;;
  try_except
    (log INFO "Simulating sell button click..." ;;
     mock_response <- trade_order_success "sell" symbol ;;
     id <- lift (item mock_response "order_id") ;;
     cost <- lift (item mock_response "price") ;;
     created <- read ReadNow (now w) ;;
     append_order {| order_id := id; symbol := symbol; order_type := "sell";
                     quantity := quantity; price := cost; status := "executed";
                     timestamp := created |} ;;
     id <- lift (item mock_response "order_id") ;;
     log INFO ("Sell order placed successfully: " ++ py_str id) ;;
     _ <- take_screenshot "sell_order_placed" ;;
     ret mock_response)
    (fun e =>
       Some (log ERROR ("Sell order failed: " ++ exn_str e) ;;
             ret (error_response e))).







(** ** The test classes *)

(** [self.reporter = TestReporter()] *)
Definition new_reporter : action unit :=
  started <- read ReadNow (now w) ;;
  fun st =>
    (Returned tt,
     {| past := past st;
        mock_orders := mock_orders st;
        reporter := Reporter.init (isoformat started) |}).

(** [self.trading_page = AQXTradingPage(self.driver)] *)
Definition new_trading_page : action unit :=
  fun st =>
    (Returned tt,
     {| past := past st; mock_orders := []; reporter := reporter st |}).

(** [self.reporter.add_result(test_name, status, details)] *)
Definition add_result (test_name status : string) (details : json) : action unit :=
  stamp <- read ReadNow (now w) ;;
  seconds <- read ReadTime (time w) ;;
  fun st =>
    (Returned tt,
     {| past := past st;
        mock_orders := mock_orders st;
        reporter := Reporter.add_result (reporter st) test_name status details
                      (isoformat stamp) seconds |}).

(** The [except Exception as e] clause of every test: record the
    failure and raise it again. *)
Definition record_failure (test_name : string) (e : exn) : option (action unit) :=
  Some (add_result test_name "FAILED" (JDict [("error", JStr (exn_str e))]) ;;
        raise e).


(** [TestAQXLoginFunctionality.setup_method] *)
Definition login_setup_method : action unit :=
  ask Started (start w) ;;
  new_reporter ;;
  ask (MadeDirs "screenshots") (fun h => makedirs w h "screenshots") ;;
  ask (MadeDirs "reports") (fun h => makedirs w h "reports").

Definition test_login_page_loads : action unit :=
  try_except
    (navigate_to_login ;;
     page_title <- ask ReadTitle (title w) ;;
     url <- ask ReadUrl (current_url w) ;;
     assert (contains "aquariux" (str_lower url)) ;;
     assert (match page_title with JNull => false | _ => true end) ;;
     add_result "test_login_page_loads" "PASSED"
       (JDict [("page_title", page_title); ("url", JStr url)]))
    (record_failure "test_login_page_loads").

Definition test_successful_login : action unit :=
  try_except
    (navigate_to_login ;;
     result <- login account_id password ;;
     outcome <- lift (item result "status") ;;
     assert (py_eq_str outcome "success") ;;
     add_result "test_successful_login" "PASSED" (JDict result))
    (record_failure "test_successful_login").

(** [TestAQXTradingFunctionality.setup_method] *)
Definition trading_setup_method : action unit :=
  ask Started (start w) ;;
  new_trading_page ;;
  new_reporter ;;
  navigate_to_login ;;
  _ <- login account_id password ;;
  ret tt.









End Platform.

Close Scope page_scope.

End Pages.

(* ================================================================== *)
(** * Reading the models: values, counts, sections                      *)
(* ================================================================== *)

Module Reading.

(** ** The rational value of a float *)

Definition pow2 (e : Z) : Q := (2 ^ e)%Q.

Definition float_value (f : float) : Q :=
  match f with
  | S754_finite s m e =>
      ((if s then -1 else 1) * inject_Z (Z.pos m) * pow2 e)%Q
  | _ => 0%Q
  end.

Definition is_finite (f : float) : bool :=
  match f with
  | S754_finite _ _ _ | S754_zero _ => true
  | _ => false
  end.

(** Where a non-negative [x] lies between two consecutive multiples of
    [2^e], as a [location] records it. *)
Definition located (x : Q) (m e : Z) (l : location) : Prop :=
  match l with
  | loc_Exact => (x == inject_Z m * pow2 e)%Q
  | loc_Inexact Lt =>
      (inject_Z m * pow2 e < x)%Q /\ (x < (inject_Z m + (1 # 2)) * pow2 e)%Q
  | loc_Inexact Eq => (x == (inject_Z m + (1 # 2)) * pow2 e)%Q
  | loc_Inexact Gt =>
      ((inject_Z m + (1 # 2)) * pow2 e < x)%Q /\ (x < (inject_Z m + 1) * pow2 e)%Q
  end.

(** What a rounded result is, given its sign, mantissa and exponent. *)
Definition assemble (s : bool) (m e : Z) : float :=
  match m with
  | Z0 => S754_zero s
  | Z.pos p => S754_finite s p e
  | Z.neg _ => S754_nan
  end.

(** The float [100.0], which [int_to_float 100] evaluates to. *)
Definition hundred : float := S754_finite false 7036874417766400 (-46).

(** ** Fields of a summary *)

Definition total_tests (summary : dict) : json := dict_get summary "total_tests" JNull.
Definition passed (summary : dict) : json := dict_get summary "passed" JNull.
Definition failed (summary : dict) : json := dict_get summary "failed" JNull.

(** The invariant of a Run Summary: three non-negative integer counts
    with [total_tests = passed + failed]. *)
Definition summary_invariant (summary : dict) : Prop :=
  exists t p f : Z,
    total_tests summary = JInt t /\ passed summary = JInt p /\ failed summary = JInt f /\
    0 <= t /\ 0 <= p /\ 0 <= f /\ t = p + f.

(** A result whose status is one of the two that [generate_report] counts. *)
Definition counted (r : Reporter.result) : Prop :=
  Reporter.status r = "PASSED" \/ Reporter.status r = "FAILED".

(** A summary document with integer counts, as both writers produce it. *)
Definition summary_doc (total passed failed : Z) : json :=
  JDict [ ("total_tests", JInt total); ("passed", JInt passed); ("failed", JInt failed) ].

Import Dashboard.

(** ** The rendered document, piece by piece

    [html_content] grows by a sequence of [+=]. A [chunk] names one
    appended piece, and [dashboard_chunks] is [generate_dashboard_html]
    run with each [+=] recorded as a chunk instead of performed on the
    string; the string returned is the concatenation of the pieces' texts
    (lemma [generate_dashboard_html_render]). *)
Inductive chunk : Type :=
| Header (total_tests passed failed pass_rate : string)
| TestItem (test_name status_class status : string)
| DetailsClose
| ScreenshotsOpen
| ScreenshotItem (screenshot : string)
| ScreenshotsClose
| Footer (timestamp passed failed : string).

Definition chunk_text (c : chunk) : string :=
  match c with
  | Header t p f r => header_text t p f r
  | TestItem n c s => test_item_text n c s
  | DetailsClose => details_close_text
  | ScreenshotsOpen => screenshots_open_text
  | ScreenshotItem s => screenshot_item_text s
  | ScreenshotsClose => screenshots_close_text
  | Footer ts p f => footer_text ts p f
  end.

Definition render (html_content : list chunk) : string :=
  fold_left (fun acc c => acc ++ chunk_text c) html_content "".

Section Pieces.
Context `{Builtins}.

(** The piece [add_test_item] appends. *)
Definition add_test_chunk (html_content : list chunk) (test : json) : pyresult (list chunk) :=
  test_name <- py_get test "test_name" (JStr "Unknown Test") ;;
  status <- py_get test "status" (JStr "UNKNOWN") ;;
  let status_class :=
    if py_eq_str status "PASSED" then "status-passed" else "status-failed" in
  Ok (html_content ++ [TestItem (py_str test_name) status_class (py_str status)])%list.

(** The piece [add_screenshot] appends. *)
Definition add_screenshot_chunk (html_content : list chunk) (screenshot : string)
  : pyresult (list chunk) :=
  Ok (html_content ++ [ScreenshotItem screenshot])%list.

Definition dashboard_chunks (r : results) (now : datetime) : pyresult (list chunk) :=
  let summary := get (summary r) (JDict []) in
  let test_details := get (test_details r) (JList []) in
  let screenshots := get (screenshots r) [] in
  total_tests <- py_get summary "total_tests" (JInt 0) ;;
  passed <- py_get summary "passed" (JInt 0) ;;
  failed <- py_get summary "failed" (JInt 0) ;;
  pass_rate <- pass_rate total_tests passed ;;
  rate_text <- py_format_1f pass_rate ;;
  let html_content :=
    [Header (py_str total_tests) (py_str passed) (py_str failed) rate_text] in
  tests <- py_iter test_details ;;
  html_content <- for_each add_test_chunk tests html_content ;;
  let html_content := (html_content ++ [DetailsClose])%list in
  html_content <-
    match screenshots with
    | [] => Ok html_content
    | _ :: _ =>
        let html_content := (html_content ++ [ScreenshotsOpen])%list in
        html_content <-
          for_each add_screenshot_chunk (firstn 12 screenshots) html_content ;;
        Ok (html_content ++ [ScreenshotsClose])%list
    end ;;
  Ok (html_content ++ [Footer (strftime_dashed now) (py_str passed) (py_str failed)])%list.

End Pieces.

(** ** Sections of a rendered document *)






(** The pieces that a list of screenshot filenames is rendered as. *)
Definition screenshot_part (screenshots : list string) : list chunk :=
  match screenshots with
  | [] => []
  | _ :: _ =>
      (ScreenshotsOpen :: map ScreenshotItem (firstn 12 screenshots) ++ [ScreenshotsClose])%list
  end.

(** The entry that a Result Record is rendered as. *)
Definition entry_of `{Builtins} (record : dict) : chunk :=
  let test_name := dict_get record "test_name" (JStr "Unknown Test") in
  let status := dict_get record "status" (JStr "UNKNOWN") in
  TestItem (py_str test_name)
           (if py_eq_str status "PASSED" then "status-passed" else "status-failed")
           (py_str status).

(** Inputs on which rendering is expected to succeed: the summary is
    absent or a dict whose counts, where present, are ints with
    [|passed| <= total_tests] (or no tests at all), and the detail list is
    absent or a list of records. *)
Definition well_formed (r : results) : Prop :=
  exists (d : dict) (t p : Z) (records : list dict),
    get (summary r) (JDict []) = JDict d /\
    dict_get d "total_tests" (JInt 0) = JInt t /\
    dict_get d "passed" (JInt 0) = JInt p /\
    (t <= 0 \/ Z.abs p <= t) /\
    get (test_details r) (JList []) = JList (map JDict records).

(** [results] as [load_test_results] builds it. *)
Definition results_of (summary test_details : json) (screenshots logs : list string)
  : results :=
  {| summary := Some summary;
     test_details := Some test_details;
     screenshots := Some screenshots;
     logs := Some logs |}.

(** ** Traces of the orchestrator *)

(** The commands a trace spawned, in order. *)
Definition spawned (t : Runner.trace) : list (list string) :=
  flat_map (fun ev => match ev with
                      | Runner.Spawned cmd _ => [cmd]
                      | Runner.Printed _ => []
                      end) t.

(** An action that spawns nothing: it only extends the trace by prints. *)
Definition quiet {A : Type} (m : Runner.action A) : Prop :=
  forall t : Runner.trace,
    exists (r : pyresult A) (delta : Runner.trace),
      m t = (r, (t ++ delta)%list) /\ spawned delta = [].

(** An action that spawns nothing and never raises. *)
Definition silent (m : Runner.action unit) : Prop :=
  forall t : Runner.trace,
    exists delta : Runner.trace,
      m t = (Ok tt, (t ++ delta)%list) /\ spawned delta = [].

(** What [run_tests] prints before it spawns the engine. *)
Definition prelude (w : Runner.world) (test_type browser : string)
    (headless parallel : bool) : Runner.trace :=
  [ Runner.Printed "🚀 Starting AQX Trading Platform Tests";
    Runner.Printed ("📊 Test Type: " ++ test_type);
    Runner.Printed ("🌐 Browser: " ++ browser);
    Runner.Printed ("👁️  Headless: " ++ Runner.str_bool headless);
    Runner.Printed ("⚡ Parallel: " ++ Runner.str_bool parallel);
    Runner.Printed (Runner.repeat_string "-" 50);
    Runner.Printed ("🔄 Executing command: "
                    ++ String.concat " " (Runner.pytest_cmd w test_type parallel)) ].

(** The renderer is among the commands a trace spawned. *)
Definition renderer_invoked `{Builtins} (w : Runner.world) (t : Runner.trace) : Prop :=
  In (Runner.dashboard_cmd w) (spawned t).

(** The line [generate_dashboard] prints after spawning the renderer. *)
Definition dashboard_message `{Builtins} (w : Runner.world) : string :=
  match Runner.subprocess_run w (Runner.dashboard_cmd w) with
  | Ok child =>
      if Runner.returncode child =? 0 then "✅ Dashboard generated successfully"
      else "⚠️  Dashboard generation failed: "
           ++ exc_str (CalledProcessError (Runner.returncode child))
  | Raise e => "⚠️  Dashboard generation failed: " ++ exc_str e
  end.

(** ** A runtime to evaluate examples with *)
Definition plain_builtins : Builtins :=
  {| repr_other := fun _ => "<object>";
     exc_str := fun _ => "error";
     str_strip := fun s => s |}.

(** ** Concrete inputs *)

Definition example_now : datetime :=
  {| year := 2026; month := 1; day := 4; hour := 9; minute := 5; second := 0 |}.

(** Three records, two of them with the same name. *)
Definition example_records : list dict :=
  [ [("test_name", JStr "test_login_page_loads"); ("status", JStr "PASSED")];
    [("test_name", JStr "test_place_buy_order"); ("status", JStr "FAILED")];
    [("test_name", JStr "test_login_page_loads"); ("status", JStr "PASSED")] ].

(** Fifteen screenshot filenames. *)
Definition example_screenshots : list string :=
  [ "failure_01.png"; "failure_02.png"; "failure_03.png"; "failure_04.png";
    "failure_05.png"; "failure_06.png"; "failure_07.png"; "failure_08.png";
    "failure_09.png"; "failure_10.png"; "failure_11.png"; "failure_12.png";
    "failure_13.png"; "failure_14.png"; "failure_15.png" ].

Definition example_results : results :=
  results_of (summary_doc 9 7 2) (JList (map JDict example_records)) example_screenshots [].



(** A world in which the engine finishes with exit code 1 and the
    renderer cannot be started. *)
Definition example_world : Runner.world :=
  {| Runner.base_dir := "/repo";
     Runner.os_environ := [("PATH", "/usr/bin")];
     Runner.mkdirs := Ok tt;
     Runner.report_clock := example_now;
     Runner.junit_clock := example_now;
     Runner.subprocess_run := fun cmd =>
       match cmd with
       | [_; _] => Raise (OSError "generate_dashboard.py")
       | _ => Ok {| Runner.stdout := "1 failed"; Runner.stderr := "";
                    Runner.returncode := 1 |}
       end;
     Runner.summary_json := None |}.

(** A world without a [python] executable: nothing can be spawned. *)
Definition example_world_no_python : Runner.world :=
  {| Runner.base_dir := "/repo";
     Runner.os_environ := [("PATH", "/usr/bin")];
     Runner.mkdirs := Ok tt;
     Runner.report_clock := example_now;
     Runner.junit_clock := example_now;
     Runner.subprocess_run := fun _ => Raise (OSError "python");
     Runner.summary_json := None |}.

Definition example_args : Runner.args :=
  {| Runner.type := "smoke"; Runner.browser := "chrome"; Runner.headless := false;
     Runner.parallel := false; Runner.list := false; Runner.dashboard_only := false |}.

(** A session of two collected tests, one of them failed. *)
Definition example_session : Conftest.session :=
  {| Conftest.testscollected := 2; Conftest.testsfailed := 1 |}.

(** A reporter that recorded one passed and one failed test. *)
Definition example_reporter : Reporter.TestReporter :=
  Reporter.add_result
    (Reporter.add_result (Reporter.init "2026-01-04T09:05:00") "test_login_page_loads"
       "PASSED" (JDict []) "2026-01-04T09:05:01" (S754_zero false))
    "test_place_buy_order" "FAILED" (JDict []) "2026-01-04T09:05:02" (S754_zero false).

(** ** Further readings *)

Definition is_dict (v : json) : bool :=
  match v with JDict _ => true | _ => false end.

(** The number of tenths that [format(f, ".1f")] shows for the
    non-negative float of mantissa [m] and exponent [e]. *)
Definition tenths (m e : Z) : Z :=
  if 0 <=? e then m * 10 * 2 ^ e else round_half_even (m * 10) (2 ^ (- e)).

(** [env.get(key)], as the child process reads its environment. *)
Fixpoint env_lookup (env : Runner.environ) (key : string) : option string :=
  match env with
  | [] => None
  | (k, v) :: rest => if String.eqb k key then Some v else env_lookup rest key
  end.

(** The lines a trace printed, in order. *)
Definition printed (t : Runner.trace) : list string :=
  flat_map (fun ev => match ev with
                      | Runner.Printed line => [line]
                      | Runner.Spawned _ _ => []
                      end) t.

(** An action whose outcome and output do not depend on what was done
    before it. *)
Definition uniform {A : Type} (m : Runner.action A) : Prop :=
  forall t : Runner.trace, m t = (fst (m []), (t ++ snd (m []))%list).

(** What [list_available_tests] prints before it collects. *)
Definition list_header : Runner.trace :=
  [ Runner.Printed "📋 Available Test Types:";
    Runner.Printed "  - all: Run all tests";
    Runner.Printed "  - smoke: Basic functionality tests";
    Runner.Printed "  - critical: Critical path tests";
    Runner.Printed "  - trading: Trading operations tests";
    Runner.Printed "  - view: View/display tests";
    Runner.Printed "  - bulk: Bulk operations tests";
    Runner.Printed "  - regression: Regression tests";
    Runner.Printed (String "010"%char "🔍 Available Tests:") ].

(** The lines of the collection's output that name a test. *)
Definition collected_tests (out : string) : list string :=
  filter (contains "::test_") (Runner.split_lines out).

(** The lines [list_available_tests] prints for the output of the
    collection. *)
Definition listing `{Builtins} (out : string) : list string :=
  let tests := collected_tests out in
  List.app
    (map (fun test => "  - " ++ str_strip test) (firstn 10 tests))
    (if 10 <? Z.of_nat (List.length tests)
     then ["  ... and " ++ string_of_Z (Z.of_nat (List.length tests) - 10) ++ " more tests"]
     else []).

(** The rule that frames the summary block. *)
Definition rule : string := Runner.repeat_string "=" 60.

(** The lines of the summary block that do not depend on the summary
    file. *)
Definition summary_head (w : Runner.world) (exit_code : Z) (report_name : string)
  : list string :=
  [ String "010"%char rule;
    "📋 TEST EXECUTION SUMMARY";
    rule;
    "Status: " ++ (if exit_code =? 0 then "✅ PASSED" else "❌ FAILED");
    "HTML Report: " ++ Runner.path_join (Runner.reports_dir w) report_name;
    "Dashboard: " ++ Runner.path_join (Runner.reports_dir w) "test_dashboard.html";
    "Screenshots: " ++ Runner.screenshots_dir w;
    "Logs: " ++ Runner.logs_dir w ].

(** ** Further concrete inputs *)

(** A working directory whose summary file does not parse. *)
Definition example_filesystem_corrupt : filesystem :=
  {| summary_file := Some (Raise JSONDecodeError);
     report_file := None;
     screenshot_dir := None;
     log_dir := None;
     dashboard_file := None |}.

(** A detail list whose second item is not a record. *)
Definition example_results_bad_item : results :=
  results_of (summary_doc 9 7 2) (JList [JDict []; JStr "oops"]) [] [].


Definition example_args_dashboard_only : Runner.args :=
  {| Runner.type := "all"; Runner.browser := "chrome"; Runner.headless := false;
     Runner.parallel := false; Runner.list := false; Runner.dashboard_only := true |}.

Definition example_args_list : Runner.args :=
  {| Runner.type := "all"; Runner.browser := "chrome"; Runner.headless := false;
     Runner.parallel := false; Runner.list := true; Runner.dashboard_only := true |}.

(** A world in which the collection names twelve tests and the summary
    file holds 9 tests, 7 of them passed. *)
Definition example_world_collecting : Runner.world :=
  {| Runner.base_dir := "/repo";
     Runner.os_environ := [("PATH", "/usr/bin"); ("HEADLESS", "false")];
     Runner.mkdirs := Ok tt;
     Runner.report_clock := example_now;
     Runner.junit_clock := example_now;
     Runner.subprocess_run := fun _ =>
       Ok {| Runner.stdout :=
               String.concat (String "010"%char "")
                 [ "t.py::test_01"; "t.py::test_02"; "t.py::test_03"; "t.py::test_04";
                   "t.py::test_05"; "t.py::test_06"; "t.py::test_07"; "t.py::test_08";
                   "t.py::test_09"; "t.py::test_10"; "t.py::test_11"; "t.py::test_12";
                   ""; "12 tests collected in 0.01s" ];
             Runner.stderr := "";
             Runner.returncode := 0 |};
     Runner.summary_json := Some (Ok (summary_doc 9 7 2)) |}.

(** ** The reports of the tests, as the dashboard reads them *)



(** The screenshots the dashboard lists for a file system. *)
Definition listed_screenshots (fs : filesystem) : list string :=
  match screenshot_dir fs with
  | Some entries => glob_suffix ".png" entries
  | None => []
  end.

(** The file the hook asks the driver to write for the test [name]. *)
Definition failure_file (name : string) (stamp : datetime) : string :=
  "screenshots/failure_" ++ name ++ "_" ++ strftime_compact stamp ++ ".png".

(** The entry the hook adds to the extras of a report. *)
Definition screenshot_extra (path : string) : json :=
  JDict [ ("name", JStr "Screenshot"); ("path", JStr path); ("type", JStr "image") ].



(** ** The page objects and the tests *)

Import Selenium.

(** Two states of the same test instance: only the outside has moved. *)
Definition same_instance (st st' : Pages.state) : Prop :=
  Pages.mock_orders st' = Pages.mock_orders st /\ Pages.reporter st' = Pages.reporter st.

(** The name [take_screenshot] gives the file, at the clock reading [stamp]. *)
Definition screenshot_file (name : string) (stamp : datetime) : string :=
  "screenshots/" ++ name ++ "_" ++ strftime_compact stamp ++ ".png".

(** A driver that never raises when asked for a screenshot. *)
Definition screenshots_return (w : world) : Prop :=
  forall (h : history) (f : string), exists written : bool, save_screenshot w h f = Returned written.

(** A driver that raises [e] whenever it is asked for a screenshot. *)
Definition screenshots_raise (w : world) (e : exn) : Prop :=
  forall (h : history) (f : string), save_screenshot w h f = Raised e.

(** A clock whose readings [time.time()] convert to an int. *)
Definition time_is_finite (w : world) : Prop :=
  forall h : history, exists n : Z, float_to_int (time w h) = Returned n.

(** The response of [trade_order_success] for the order number [n]
    and the text [created] of the clock reading. *)
Definition order_response (side symbol : string) (n : Z) (created : string) : dict :=
  [ ("status", JStr "success");
    ("order_id", JStr ("ORD" ++ string_of_Z n));
    ("symbol", JStr symbol);
    ("type", JStr side);
    ("quantity", JFloat Pages.f_0_1);
    ("price", JFloat (if String.eqb side "buy" then Pages.f_45000 else Pages.f_45100));
    ("timestamp", JStr created) ].

(** The order that [place_buy_order] and [place_sell_order] record. *)
Definition placed_order (side symbol : string) (quantity : float) (n : Z)
    (created : datetime) : Pages.MockTradeOrder :=
  {| Pages.order_id := JStr ("ORD" ++ string_of_Z n);
     Pages.symbol := symbol;
     Pages.order_type := side;
     Pages.quantity := quantity;
     Pages.price := JFloat (if String.eqb side "buy" then Pages.f_45000 else Pages.f_45100);
     Pages.status := "executed";
     Pages.timestamp := created |}.




(** [place_buy_order] and [place_sell_order] are the same text up to
    the side of the order: [side] is ["buy"] or ["sell"], [Side] the same
    capitalised. *)
Definition place_order `{Builtins} `{Runtime} (w : world) (side Side symbol : string)
    (quantity : float) : Pages.action dict :=
  Pages.bind
    (Pages.log INFO ("Placing " ++ side ++ " order: " ++ symbol ++ " x "
                     ++ py_str (JFloat quantity)))
    (fun _ =>
  Pages.try_except
    (Pages.bind (Pages.log INFO ("Simulating " ++ side ++ " button click...")) (fun _ =>
     Pages.bind (Pages.trade_order_success w side symbol) (fun mock_response =>
     Pages.bind (Pages.lift (item mock_response "order_id")) (fun id =>
     Pages.bind (Pages.lift (item mock_response "price")) (fun cost =>
     Pages.bind (Pages.read ReadNow (now w)) (fun created =>
     Pages.bind
       (Pages.append_order
          {| Pages.order_id := id; Pages.symbol := symbol; Pages.order_type := side;
             Pages.quantity := quantity; Pages.price := cost; Pages.status := "executed";
             Pages.timestamp := created |}) (fun _ =>
     Pages.bind (Pages.lift (item mock_response "order_id")) (fun id =>
     Pages.bind (Pages.log INFO (Side ++ " order placed successfully: " ++ py_str id))
       (fun _ =>
     Pages.bind (Pages.take_screenshot w (side ++ "_order_placed")) (fun _ =>
     Pages.ret mock_response))))))))))
    (fun e =>
       Some (Pages.bind (Pages.log ERROR (Side ++ " order failed: " ++ exn_str e))
               (fun _ => Pages.ret (Pages.error_response e))))).

(** What placing an order does, case by case: the order is recorded
    before the screenshot is taken, so that a failing screenshot leaves
    it recorded while the caller is told of an error. *)
Definition placed `{Runtime} (w : world) (side symbol : string) (quantity : float) (st : Pages.state)
    (d : dict) (st' : Pages.state) : Prop :=
  Pages.reporter st' = Pages.reporter st /\
  ((exists n created_text created h h' f,
      float_to_int (time w h) = Returned n /\
      (exists written, save_screenshot w h' f = Returned written) /\
      d = order_response side symbol n created_text /\
      Pages.mock_orders st'
      = (Pages.mock_orders st ++ [placed_order side symbol quantity n created])%list) \/
   (exists n created e h h' f,
      float_to_int (time w h) = Returned n /\
      save_screenshot w h' f = Raised e /\
      d = Pages.error_response e /\
      Pages.mock_orders st'
      = (Pages.mock_orders st ++ [placed_order side symbol quantity n created])%list) \/
   (exists e h,
      float_to_int (time w h) = Raised e /\
      d = Pages.error_response e /\
      Pages.mock_orders st' = Pages.mock_orders st)).


(** A driver and a page that answer every call of [login].  *)
Definition cooperative (w : world) : Prop :=
  screenshots_return w /\
  (forall h c l t, exists el, until w h c l t = Returned el) /\
  (forall h el, clear w h el = Returned tt) /\
  (forall h el text, send_keys w h el text = Returned tt) /\
  (forall h el, click w h el = Returned tt).

(** A page on which no element ever shows up. *)
Definition unresponsive (w : world) : Prop :=
  forall h c l t, until w h c l t = Raised TimeoutException.

(** The reporter of [st'] is that of [st] with one more result, recorded
    for the test [name] with the status [status] and the details
    [details]. *)
Definition recorded (name status : string) (details : json) (st st' : Pages.state) : Prop :=
  exists stamp seconds,
    Pages.reporter st'
    = Reporter.add_result (Pages.reporter st) name status details stamp seconds.

(** How a test method leaves the reporter: one result more, [PASSED]
    when the method returns, [FAILED] with the message of the exception
    when it raises. *)
Definition test_recorded `{Runtime} (name : string) (r : outcome unit) (st st' : Pages.state)
  : Prop :=
  match r with
  | Returned _ => exists details, recorded name "PASSED" details st st'
  | Raised e => recorded name "FAILED" (JDict [("error", JStr (exn_str e))]) st st'
  end.


(** An action that only deals with the outside: it leaves the orders
    and the reporter of the test instance as they are. *)
Definition external {A : Type} (m : Pages.action A) : Prop :=
  forall st : Pages.state,
    Pages.mock_orders (snd (m st)) = Pages.mock_orders st /\
    Pages.reporter (snd (m st)) = Pages.reporter st.

(** A test that cannot fail: it returns, leaves the orders alone and
    records one [PASSED] result whose only detail is a count under
    [key]: [n] when the driver returns from screenshots, 0 when it
    raises on them. *)
Definition counts (w : world) (name key : string) (n : Z) (st : Pages.state)
    (run : outcome unit * Pages.state) : Prop :=
  exists count st',
    run = (Returned tt, st') /\
    Pages.mock_orders st' = Pages.mock_orders st /\
    recorded name "PASSED" (JDict [(key, JInt count)]) st st' /\
    (count = n \/ count = 0) /\
    (screenshots_return w -> count = n) /\
    (forall e, screenshots_raise w e -> count = 0).


(** What a wait does, step by step: it asks the driver once; on a
    [TimeoutException] it logs an error, reads the clock, asks for a
    screenshot and raises the [TimeoutException] again, unless the
    screenshot itself raises; any other exception is passed on at once. *)
Definition waited `{Runtime} (w : world) (cond : condition) (words prefix : string)
    (loc : locator) (requested : option Z) (st : Pages.state)
    (run : outcome element * Pages.state) : Prop :=
  let wait_time := Pages.wait_time requested in
  let asked := Waited cond loc wait_time in
  let h := (Pages.past st ++ [asked; Logged ERROR (words ++ tuple_str loc)])%list in
  let file := screenshot_file (prefix ++ snd loc) (now w h) in
  same_instance st (snd run) /\
  match until w (Pages.past st) cond loc wait_time with
  | Returned el =>
      fst run = Returned el /\ Pages.past (snd run) = (Pages.past st ++ [asked])%list
  | Raised TimeoutException =>
      match save_screenshot w (h ++ [ReadNow])%list file with
      | Returned _ =>
          fst run = Raised TimeoutException /\
          Pages.past (snd run)
          = (h ++ [ReadNow; SavedScreenshot file;
                   Logged INFO ("Screenshot saved: " ++ file)])%list
      | Raised e =>
          fst run = Raised e /\
          Pages.past (snd run) = (h ++ [ReadNow; SavedScreenshot file])%list
      end
  | Raised e =>
      fst run = Raised e /\ Pages.past (snd run) = (Pages.past st ++ [asked])%list
  end.

(** ** A run-time and two browsers to evaluate examples with *)

Definition plain_runtime : Runtime :=
  {| exn_str := fun e =>
       match e with
       | TimeoutException => "Message: "
       | WebDriverException msg => "Message: " ++ msg
       | AssertionError => ""
       | KeyError key => "'" ++ key ++ "'"
       | Builtin _ => "error"
       end;
     isoformat := strftime_dashed;
     tuple_str := fun loc => "('" ++ fst loc ++ "', '" ++ snd loc ++ "')";
     str_lower := fun s => s |}.

(** A browser that answers every call; the clock stands still. *)
Definition example_browser : world :=
  {| now := fun _ => example_now;
     time := fun _ => Pages.float_of_int 1767517500;
     start := fun _ => Returned tt;
     get := fun _ _ => Returned tt;
     until := fun _ _ _ _ => Returned 1;
     clear := fun _ _ => Returned tt;
     send_keys := fun _ _ _ => Returned tt;
     click := fun _ _ => Returned tt;
     save_screenshot := fun _ _ => Returned true;
     title := fun _ => Returned (JStr "AQX Trader");
     current_url := fun _ => Returned "https://aqxtrader.aquariux.com/web/login";
     makedirs := fun _ _ => Returned tt |}.

(** The same browser on a page where no element ever shows up. *)
Definition example_browser_stuck : world :=
  {| now := now example_browser;
     time := time example_browser;
     start := start example_browser;
     get := get example_browser;
     until := fun _ _ _ _ => Raised TimeoutException;
     clear := clear example_browser;
     send_keys := send_keys example_browser;
     click := click example_browser;
     save_screenshot := save_screenshot example_browser;
     title := title example_browser;
     current_url := current_url example_browser;
     makedirs := makedirs example_browser |}.


(** A test instance before its set-up. *)
Definition example_instance : Pages.state :=
  {| Pages.past := [];
     Pages.mock_orders := [];
     Pages.reporter := Reporter.init "2026-01-04 09:05:00" |}.

End Reading.

(* ================================================================== *)
(** * Theorems                                                          *)
(* ================================================================== *)

Import Reading.
Import Dashboard.

(** ** binary64 arithmetic: rounding is correct

    [SpecFloat] gives the operations and no theorems about them. The
    lemmas below follow a non-negative rational [x] through the shifts of
    [binary_round_aux] and bound the distance between the rounded float
    and [x]; they are what the claims about [pass_rate] rest on. *)

Section Pow2.

Lemma pow2_pos (e : Z) : (0 < pow2 e)%Q.
Proof. unfold pow2. apply Qpower_0_lt. reflexivity. Qed.

Lemma pow2_add (a b : Z) : (pow2 (a + b) == pow2 a * pow2 b)%Q.
Proof. unfold pow2. apply Qpower_plus. discriminate. Qed.

Lemma pow2_succ (e : Z) : (pow2 (e + 1) == 2 * pow2 e)%Q.
Proof. rewrite pow2_add. unfold pow2 at 2. simpl. ring. Qed.

Lemma pow2_le (a b : Z) : a <= b -> (pow2 a <= pow2 b)%Q.
Proof. intros Hab. unfold pow2. apply Qpower_le_compat_l; [exact Hab | discriminate]. Qed.

Lemma pow2_lt_inv (a b : Z) : (pow2 a < pow2 b)%Q -> a < b.
Proof.
  intros Hlt. destruct (Z_lt_le_dec a b) as [Hab | Hba]; [exact Hab | ].
  apply pow2_le in Hba. lra.
Qed.

Lemma pow2_inject (e : Z) : 0 <= e -> (pow2 e == inject_Z (2 ^ e))%Q.
Proof. intros He. unfold pow2. rewrite Zpower_Qpower by exact He. reflexivity. Qed.

End Pow2.

Lemma digits2_pos_bounds (p : positive) :
  2 ^ (Z.pos (digits2_pos p) - 1) <= Z.pos p < 2 ^ Z.pos (digits2_pos p).
Proof.
  induction p as [p IH | p IH | ]; simpl digits2_pos.
  - rewrite Pos2Z.inj_succ.
    replace (Z.succ (Z.pos (digits2_pos p)) - 1) with (Z.succ (Z.pos (digits2_pos p) - 1)) by lia.
    rewrite !Z.pow_succ_r by lia. lia.
  - rewrite Pos2Z.inj_succ.
    replace (Z.succ (Z.pos (digits2_pos p)) - 1) with (Z.succ (Z.pos (digits2_pos p) - 1)) by lia.
    rewrite !Z.pow_succ_r by lia. lia.
  - simpl. lia.
Qed.

Lemma Zdigits2_bounds (m : Z) :
  0 < m -> 2 ^ (Zdigits2 m - 1) <= m < 2 ^ Zdigits2 m.
Proof.
  intros Hm. destruct m as [ | p | p]; try lia. apply digits2_pos_bounds.
Qed.

Lemma Zdigits2_nonneg (m : Z) : 0 <= Zdigits2 m.
Proof. destruct m; simpl; lia. Qed.

Lemma inject_xO (p : positive) : (inject_Z (Z.pos p~0) == 2 * inject_Z (Z.pos p))%Q.
Proof. rewrite Pos2Z.inj_xO, inject_Z_mult. reflexivity. Qed.

Lemma inject_xI (p : positive) : (inject_Z (Z.pos p~1) == 2 * inject_Z (Z.pos p) + 1)%Q.
Proof. rewrite Pos2Z.inj_xI, inject_Z_plus, inject_Z_mult. reflexivity. Qed.

Lemma shr_1_located (x : Q) (e : Z) (mrs : shr_record) :
  0 <= shr_m mrs ->
  located x (shr_m mrs) e (loc_of_shr_record mrs) ->
  0 <= shr_m (shr_1 mrs) /\
  located x (shr_m (shr_1 mrs)) (e + 1) (loc_of_shr_record (shr_1 mrs)).
Proof.
  destruct mrs as [m r s]. simpl shr_m. intros Hm Hloc.
  assert (HP := pow2_pos e). assert (HS := pow2_succ e).
  destruct m as [ | [p | p | ] | p]; try lia;
    destruct r, s; simpl in *; (split; [lia | ]);
    rewrite ?HS; rewrite ?inject_xO, ?inject_xI in *;
    try (set (a := inject_Z (Z.pos p)) in * );
    set (P := pow2 e) in *;
    repeat match goal with
           | H : _ /\ _ |- _ => destruct H
           end;
    change (inject_Z 0) with 0%Q in *; change (inject_Z 1) with 1%Q in *;
    try split; try lra; try nra.
Qed.

Lemma iter_shr_1_located (x : Q) (n : positive) :
  forall (e : Z) (mrs : shr_record),
  0 <= shr_m mrs ->
  located x (shr_m mrs) e (loc_of_shr_record mrs) ->
  0 <= shr_m (iter_pos shr_1 n mrs) /\
  located x (shr_m (iter_pos shr_1 n mrs)) (e + Z.pos n)
          (loc_of_shr_record (iter_pos shr_1 n mrs)).
Proof.
  induction n as [n IH | n IH | ]; intros e mrs Hm Hloc; simpl iter_pos.
  - destruct (shr_1_located x e mrs Hm Hloc) as [H1 L1].
    destruct (IH _ _ H1 L1) as [H2 L2].
    destruct (IH _ _ H2 L2) as [H3 L3].
    split; [exact H3 | ].
    replace (e + Z.pos n~1) with (e + 1 + Z.pos n + Z.pos n) by lia. exact L3.
  - destruct (IH _ _ Hm Hloc) as [H2 L2].
    destruct (IH _ _ H2 L2) as [H3 L3].
    split; [exact H3 | ].
    replace (e + Z.pos n~0) with (e + Z.pos n + Z.pos n) by lia. exact L3.
  - apply shr_1_located; assumption.
Qed.

Lemma loc_of_record_of_loc (m : Z) (l : location) :
  loc_of_shr_record (shr_record_of_loc m l) = l /\ shr_m (shr_record_of_loc m l) = m.
Proof. destruct l as [ | [ | | ]]; split; reflexivity. Qed.

(** [shr_fexp] moves the mantissa to the exponent of the format and keeps
    track of where [x] lies. *)
Lemma shr_fexp_located (x : Q) (m e : Z) (l : location) :
  0 <= m ->
  located x m e l ->
  let e' := Z.max e (fexp prec emax (Zdigits2 m + e)) in
  0 <= shr_m (fst (shr_fexp prec emax m e l)) /\
  snd (shr_fexp prec emax m e l) = e' /\
  located x (shr_m (fst (shr_fexp prec emax m e l))) e'
          (loc_of_shr_record (fst (shr_fexp prec emax m e l))).
Proof.
  intros Hm Hloc e'. unfold shr_fexp, shr.
  destruct (loc_of_record_of_loc m l) as [Hl Hr].
  remember (fexp prec emax (Zdigits2 m + e) - e) as n eqn:Hn.
  destruct n as [ | n | n]; simpl fst; simpl snd.
  - rewrite Hl, Hr. replace e' with e by (unfold e'; lia). auto.
  - replace e' with (e + Z.pos n) by (unfold e'; lia).
    destruct (iter_shr_1_located x n e (shr_record_of_loc m l)) as [H1 L1].
    + rewrite Hr. exact Hm.
    + rewrite Hl, Hr. exact Hloc.
    + auto.
  - rewrite Hl, Hr. replace e' with e by (unfold e'; lia). auto.
Qed.

(** Rounding to nearest: the chosen mantissa is within half a unit. *)
Lemma round_nearest_even_close (x : Q) (m e : Z) (l : location) :
  located x m e l ->
  m <= round_nearest_even m l <= m + 1 /\
  (Qabs (inject_Z (round_nearest_even m l) * pow2 e - x) <= (1 # 2) * pow2 e)%Q.
Proof.
  intros Hloc. assert (HP := pow2_pos e).
  destruct l as [ | [ | | ]]; cbn [round_nearest_even located] in *.
  - split; [lia | ]. apply Qabs_Qle_condition. split; nra.
  - destruct (Z.even m).
    + split; [lia | ]. apply Qabs_Qle_condition. split; nra.
    + split; [lia | ]. rewrite inject_Z_plus. change (inject_Z 1) with 1%Q.
      apply Qabs_Qle_condition. split; nra.
  - split; [lia | ]. destruct Hloc as [H1 H2]. apply Qabs_Qle_condition. split; nra.
  - split; [lia | ]. destruct Hloc as [H1 H2]. rewrite inject_Z_plus. change (inject_Z 1) with 1%Q.
    apply Qabs_Qle_condition. split; nra.
Qed.

Lemma located_bounds (x : Q) (m e : Z) (l : location) :
  located x m e l ->
  (inject_Z m * pow2 e <= x)%Q /\ (x < (inject_Z m + 1) * pow2 e)%Q.
Proof.
  intros Hloc. assert (HP := pow2_pos e).
  set (P := pow2 e) in *. set (a := inject_Z m) in *.
  destruct l as [ | [ | | ]]; cbn [located] in Hloc; fold P in Hloc; fold a in Hloc.
  - split; nra.
  - split; nra.
  - destruct Hloc; split; nra.
  - destruct Hloc; split; nra.
Qed.

Lemma succ_le_pow2_digits (m : Z) : 0 <= m -> m + 1 <= 2 ^ Zdigits2 m.
Proof.
  intros Hm. destruct (Z.eq_dec m 0) as [-> | Hnz]; [simpl; lia | ].
  assert (H := Zdigits2_bounds m ltac:(lia)). lia.
Qed.

Lemma digits_le_of_lt_pow2 (m k : Z) : 0 <= m -> 0 <= k -> m < 2 ^ k -> Zdigits2 m <= k.
Proof.
  intros Hm Hk Hlt. destruct (Z.eq_dec m 0) as [-> | Hnz]; [simpl; lia | ].
  assert (H := Zdigits2_bounds m ltac:(lia)).
  assert (Hd := Zdigits2_nonneg m).
  destruct (Z_le_gt_dec (Zdigits2 m) k) as [Hle | Hgt]; [exact Hle | exfalso].
  assert (2 ^ k <= 2 ^ (Zdigits2 m - 1)) by (apply Z.pow_le_mono_r; lia).
  lia.
Qed.

Lemma fexp_ge (k : Z) : k - prec <= fexp prec emax k /\ emin prec emax <= fexp prec emax k.
Proof. unfold fexp. lia. Qed.

(** The second [shr_fexp] of [binary_round_aux] only renormalises a
    mantissa that rounding carried up to [2^prec]. *)
Lemma renormalise (m e : Z) :
  0 <= m <= 2 ^ prec ->
  emin prec emax <= e ->
  exists m' e',
    shr_fexp prec emax m e loc_Exact = ({| shr_m := m'; shr_r := false; shr_s := false |}, e') /\
    0 <= m' /\ e <= e' <= e + 1 /\
    (inject_Z m' * pow2 e' == inject_Z m * pow2 e)%Q.
Proof.
  intros Hm He. destruct (Z.eq_dec m (2 ^ prec)) as [-> | Hne].
  - exists (2 ^ (prec - 1)), (e + 1). unfold shr_fexp.
    replace (fexp prec emax (Zdigits2 (2 ^ prec) + e) - e) with 1
      by (unfold fexp, emin, prec, emax in *; simpl Zdigits2; lia).
    repeat split; try (unfold prec; simpl; lia).
    rewrite pow2_succ. unfold prec. simpl Z.pow. ring_simplify.
    setoid_replace (inject_Z 9007199254740992) with (2 * inject_Z 4503599627370496)%Q by reflexivity.
    ring.
  - exists m, e. unfold shr_fexp.
    assert (Hd : Zdigits2 m <= prec).
    { apply digits_le_of_lt_pow2; unfold prec in *; lia. }
    assert (Hn : fexp prec emax (Zdigits2 m + e) - e <= 0) by (unfold fexp; lia).
    unfold shr. destruct (fexp prec emax (Zdigits2 m + e) - e); try lia;
      (repeat split; try lia; reflexivity).
Qed.

(** Correctness of the rounding that closes every arithmetic operation:
    the result carries the sign it was given and the nearest mantissa, at
    most half a unit of the target exponent away from the exact value. *)
Lemma binary_round_aux_correct (x : Q) (s : bool) (mx ex : Z) (lx : location) :
  0 <= mx ->
  located x mx ex lx ->
  let e1 := Z.max ex (fexp prec emax (Zdigits2 mx + ex)) in
  exists m e,
    0 <= m /\ e1 <= e <= e1 + 1 /\
    (Qabs (inject_Z m * pow2 e - x) <= (1 # 2) * pow2 e1)%Q /\
    binary_round_aux prec emax s mx ex lx =
      match m with
      | Z0 => S754_zero s
      | Z.pos p => if e <=? emax - prec then S754_finite s p e else S754_infinity s
      | Z.neg _ => S754_nan
      end.
Proof.
  intros Hmx Hloc e1.
  destruct (shr_fexp_located x mx ex lx Hmx Hloc) as (Hm1 & He1 & Hloc1).
  fold e1 in He1, Hloc1.
  unfold binary_round_aux.
  destruct (shr_fexp prec emax mx ex lx) as [mrs1 e'] eqn:E1.
  simpl fst in *; simpl snd in *. subst e'.
  set (m1 := shr_m mrs1) in *. set (l1 := loc_of_shr_record mrs1) in *.
  destruct (round_nearest_even_close x m1 e1 l1 Hloc1) as [Hm2 Hclose].
  set (m2 := round_nearest_even m1 l1) in *.
  (* the shifted mantissa has at most [prec] digits *)
  assert (Hlt : m1 < 2 ^ prec).
  { destruct (located_bounds _ _ _ _ Hloc) as [_ Hup].
    destruct (located_bounds _ _ _ _ Hloc1) as [Hlow _].
    assert (Hd := succ_le_pow2_digits mx Hmx).
    assert (Hdn := Zdigits2_nonneg mx).
    assert (Hq : (inject_Z mx + 1 <= pow2 (Zdigits2 mx))%Q).
    { rewrite pow2_inject by exact Hdn.
      change 1%Q with (inject_Z 1). rewrite <- inject_Z_plus, <- Zle_Qle. exact Hd. }
    assert (Hk : Zdigits2 mx + ex <= prec + e1).
    { destruct (fexp_ge (Zdigits2 mx + ex)). unfold e1. lia. }
    assert (Hp : (pow2 (Zdigits2 mx + ex) <= pow2 (prec + e1))%Q) by (apply pow2_le; exact Hk).
    rewrite !pow2_add in Hp.
    assert (HPe := pow2_pos ex). assert (HPe1 := pow2_pos e1).
    assert (Hm1q : (inject_Z m1 * pow2 e1 < pow2 prec * pow2 e1)%Q) by nra.
    assert (Hm1lt : (inject_Z m1 < pow2 prec)%Q) by nra.
    rewrite pow2_inject in Hm1lt by (unfold prec; lia).
    rewrite <- Zlt_Qlt in Hm1lt. exact Hm1lt. }
  assert (Hemin : emin prec emax <= e1).
  { destruct (fexp_ge (Zdigits2 mx + ex)). unfold e1. lia. }
  destruct (renormalise m2 e1 ltac:(lia) Hemin) as (m' & e' & E2 & Hm' & He' & Hval).
  rewrite E2. cbn [shr_m].
  exists m', e'.
  split; [lia | ]. split; [lia | ]. split.
  - rewrite Hval. exact Hclose.
  - reflexivity.
Qed.

Lemma pow2_le_inv (a b : Z) : (pow2 a <= pow2 b)%Q -> a <= b.
Proof.
  intros Hle. destruct (Z_le_gt_dec a b) as [Hab | Hba]; [exact Hab | exfalso].
  assert (H : (pow2 (b + 1) <= pow2 a)%Q) by (apply pow2_le; lia).
  rewrite pow2_succ in H. assert (HP := pow2_pos b). lra.
Qed.

(** A mantissa tells the magnitude: [m * 2^e <= 2^k] bounds the digits. *)
Lemma digits_of_magnitude (m e k : Z) :
  0 <= m ->
  (inject_Z m * pow2 e <= pow2 k)%Q ->
  Zdigits2 m + e <= k + 1 \/ m = 0.
Proof.
  intros Hm Hle. destruct (Z.eq_dec m 0) as [-> | Hnz]; [right; reflexivity | left].
  assert (Hb := Zdigits2_bounds m ltac:(lia)).
  assert (Hd : 1 <= Zdigits2 m) by (destruct m; simpl; lia).
  assert (Hq : (pow2 (Zdigits2 m - 1) <= inject_Z m)%Q).
  { rewrite pow2_inject by lia. rewrite <- Zle_Qle. lia. }
  assert (HP := pow2_pos e).
  assert (H : (pow2 (Zdigits2 m - 1 + e) <= pow2 k)%Q).
  { rewrite pow2_add. nra. }
  apply pow2_le_inv in H. lia.
Qed.

Lemma new_location_spec (b r : Z) :
  0 < b -> 0 <= r < b ->
  match new_location b r with
  | loc_Exact => r = 0
  | loc_Inexact Lt => 0 < r /\ 2 * r < b
  | loc_Inexact Eq => 0 < r /\ 2 * r = b
  | loc_Inexact Gt => 0 < r /\ b < 2 * r
  end.
Proof.
  intros Hb Hr. unfold new_location, new_location_even, new_location_odd.
  destruct (Z.even b) eqn:Heven.
  - destruct (Z.eqb_spec r 0) as [Hr0 | Hr0]; [exact Hr0 | ].
    destruct (Z.compare_spec (2 * r) b); lia.
  - assert (Hodd : Z.odd b = true) by (rewrite <- Z.negb_even, Heven; reflexivity).
    apply Z.odd_spec in Hodd. destruct Hodd as [k Hk].
    destruct (Z.eqb_spec r 0) as [Hr0 | Hr0]; [exact Hr0 | ].
    destruct (Z.compare_spec (2 * r + 1) b); lia.
Qed.

(** The integer division at the heart of [SFdiv], on two integers: the
    exact quotient lies where the location says. *)
Lemma div_core_located (a b : positive) :
  let e := Z.min (fexp prec emax (Zdigits2 (Z.pos a) - Zdigits2 (Z.pos b))) 0 in
  exists q l,
    SFdiv_core_binary prec emax (Z.pos a) 0 (Z.pos b) 0 = (q, e, l) /\
    0 <= q /\
    located (inject_Z (Z.pos a) / inject_Z (Z.pos b)) q e l.
Proof.
  intros e. unfold SFdiv_core_binary.
  rewrite !Z.add_0_r, Z.sub_0_r. fold e. rewrite Z.sub_0_l.
  assert (He : e <= 0) by (unfold e; lia).
  set (m' := match - e with
             | 0 => Z.pos a
             | Z.pos _ => Z.shiftl (Z.pos a) (- e)
             | Z.neg _ => 0
             end).
  assert (Hm' : m' = Z.pos a * 2 ^ (- e)).
  { unfold m'. destruct (- e) eqn:E; try lia.
    rewrite Z.shiftl_mul_pow2 by lia. reflexivity. }
  assert (Hdiv := Z_div_mod m' (Z.pos b) ltac:(lia)).
  destruct (Z.div_eucl m' (Z.pos b)) as [q r]. destruct Hdiv as [Hqr Hr].
  exists q, (new_location (Z.pos b) r).
  assert (Hq : 0 <= q).
  { assert (0 <= m') by (rewrite Hm'; apply Z.mul_nonneg_nonneg; [lia | apply Z.pow_nonneg; lia]).
    nia. }
  split; [reflexivity | ]. split; [exact Hq | ].
  (* the quotient in Q *)
  set (A := inject_Z (Z.pos a)). set (B := inject_Z (Z.pos b)).
  set (R := inject_Z r). set (Qq := inject_Z q). set (P := pow2 e).
  assert (HB : (0 < B)%Q) by (unfold B; change 0%Q with (inject_Z 0); rewrite <- Zlt_Qlt; lia).
  assert (HP : (0 < P)%Q) by apply pow2_pos.
  assert (HA : (A == (B * Qq + R) * P)%Q).
  { unfold A, B, Qq, R, P.
    rewrite <- inject_Z_mult, <- inject_Z_plus, <- Hqr, Hm', inject_Z_mult.
    rewrite <- pow2_inject by lia.
    setoid_replace (inject_Z (Z.pos a) * pow2 (- e) * pow2 e)%Q
      with (inject_Z (Z.pos a) * (pow2 (- e) * pow2 e))%Q by ring.
    rewrite <- pow2_add. replace (- e + e) with 0 by lia.
    unfold pow2. simpl. ring. }
  assert (HX : (A / B == (Qq + R / B) * P)%Q).
  { rewrite HA. field. lra. }
  set (F := (R / B)%Q) in *.
  assert (HF : (F * B == R)%Q) by (unfold F; field; lra).
  assert (HR0 : (0 <= R)%Q) by (unfold R; change 0%Q with (inject_Z 0); rewrite <- Zle_Qle; lia).
  assert (Hspec := new_location_spec (Z.pos b) r ltac:(lia) Hr).
  destruct (new_location (Z.pos b) r) as [ | [ | | ]]; cbn [located]; fold Qq P.
  - assert (HR : (R == 0)%Q) by (unfold R; rewrite Hspec; reflexivity).
    assert (HF0 : (F == 0)%Q) by nra.
    rewrite HX, HF0. ring.
  - destruct Hspec as [Hr0 Hhalf].
    assert (HR : (2 * R == B)%Q).
    { unfold R, B. rewrite <- Hhalf, inject_Z_mult. reflexivity. }
    assert (HFh : (F == 1 # 2)%Q) by nra.
    rewrite HX, HFh. ring.
  - destruct Hspec as [Hr0 Hhalf].
    assert (HR1 : (0 < R)%Q) by (unfold R; change 0%Q with (inject_Z 0); rewrite <- Zlt_Qlt; lia).
    assert (HR2 : (2 * R < B)%Q).
    { unfold R, B. change 2%Q with (inject_Z 2). rewrite <- inject_Z_mult, <- Zlt_Qlt. lia. }
    assert (HF1 : (0 < F)%Q) by nra.
    assert (HF2 : (F < 1 # 2)%Q) by nra.
    rewrite HX. split; nra.
  - destruct Hspec as [Hr0 Hhalf].
    assert (HR2 : (B < 2 * R)%Q).
    { unfold R, B. change 2%Q with (inject_Z 2). rewrite <- inject_Z_mult, <- Zlt_Qlt. lia. }
    assert (HR3 : (R < B)%Q) by (unfold R, B; rewrite <- Zlt_Qlt; lia).
    assert (HF1 : (1 # 2 < F)%Q) by nra.
    assert (HF2 : (F < 1)%Q) by nra.
    rewrite HX. split; nra.
Qed.

Lemma digits_of_magnitude_lt (m e k : Z) :
  0 <= m ->
  (inject_Z m * pow2 e < pow2 k)%Q ->
  Zdigits2 m + e <= k \/ m = 0.
Proof.
  intros Hm Hlt. destruct (Z.eq_dec m 0) as [-> | Hnz]; [right; reflexivity | left].
  assert (Hb := Zdigits2_bounds m ltac:(lia)).
  assert (Hd : 1 <= Zdigits2 m) by (destruct m; simpl; lia).
  assert (Hq : (pow2 (Zdigits2 m - 1) <= inject_Z m)%Q).
  { rewrite pow2_inject by lia. rewrite <- Zle_Qle. lia. }
  assert (HP := pow2_pos e).
  assert (H : (pow2 (Zdigits2 m - 1 + e) < pow2 k)%Q).
  { rewrite pow2_add. nra. }
  apply pow2_lt_inv in H. lia.
Qed.

Lemma assemble_value (s : bool) (m e : Z) :
  0 <= m ->
  is_finite (assemble s m e) = true /\
  (float_value (assemble s m e) == (if s then -1 else 1) * (inject_Z m * pow2 e))%Q.
Proof.
  intros Hm. destruct m as [ | p | p]; try lia; simpl.
  - split; [reflexivity | ]. change (inject_Z 0) with 0%Q. ring.
  - split; [reflexivity | ]. ring.
Qed.

(** [a / b] for positive integers [a <= b], as [SFdiv] computes it. *)
Lemma SFdiv_int_correct (s : bool) (a b : positive) :
  (a <= b)%positive ->
  exists m e,
    0 <= m /\ e <= -51 /\
    SFdiv prec emax (S754_finite s a 0) (S754_finite false b 0) = assemble s m e /\
    (Qabs (inject_Z m * pow2 e - inject_Z (Z.pos a) / inject_Z (Z.pos b)) <= pow2 (-53))%Q.
Proof.
  intros Hab. cbn [SFdiv].
  destruct (div_core_located a b) as (q & l & Hcore & Hq & Hloc).
  rewrite Hcore. rewrite xorb_false_r.
  set (ex := Z.min (fexp prec emax (Zdigits2 (Z.pos a) - Zdigits2 (Z.pos b))) 0) in *.
  set (x := (inject_Z (Z.pos a) / inject_Z (Z.pos b))%Q) in *.
  (* the quotient is at most one *)
  assert (Hx1 : (x <= 1)%Q).
  { unfold x. apply Qle_shift_div_r.
    - change 0%Q with (inject_Z 0). rewrite <- Zlt_Qlt. lia.
    - rewrite Qmult_1_l, <- Zle_Qle. lia. }
  (* so the divisor has at least as many digits as the dividend *)
  assert (Hdig : Zdigits2 (Z.pos a) <= Zdigits2 (Z.pos b)).
  { assert (Ha := Zdigits2_bounds (Z.pos a) ltac:(lia)).
    assert (Hb := Zdigits2_bounds (Z.pos b) ltac:(lia)).
    assert (Hda := Zdigits2_nonneg (Z.pos a)). assert (Hdb := Zdigits2_nonneg (Z.pos b)).
    destruct (Z_le_gt_dec (Zdigits2 (Z.pos a)) (Zdigits2 (Z.pos b))) as [Hle | Hgt]; [exact Hle | exfalso].
    assert (2 ^ Zdigits2 (Z.pos b) <= 2 ^ (Zdigits2 (Z.pos a) - 1)) by (apply Z.pow_le_mono_r; lia).
    lia. }
  assert (Hex : ex <= -53) by (unfold ex, fexp, emin, prec, emax; lia).
  destruct (binary_round_aux_correct x s q ex l Hq Hloc) as (m & e & Hm & He & Hclose & Hres).
  set (e1 := Z.max ex (fexp prec emax (Zdigits2 q + ex))) in *.
  assert (He1 : e1 <= -52).
  { destruct (located_bounds _ _ _ _ Hloc) as [Hlow _].
    assert (Hmag : (inject_Z q * pow2 ex <= pow2 0)%Q) by (unfold pow2 at 2; simpl; lra).
    destruct (digits_of_magnitude q ex 0 Hq Hmag) as [Hd | ->].
    - unfold e1, fexp, emin, prec, emax. lia.
    - unfold e1, fexp, emin, prec, emax. simpl Zdigits2. lia. }
  exists m, e. split; [exact Hm | ]. split; [lia | ]. split.
  - rewrite Hres. unfold assemble. destruct m as [ | p | p]; try reflexivity.
    replace (e <=? emax - prec) with true; [reflexivity | ].
    symmetry. apply Z.leb_le. unfold emax, prec. lia.
  - eapply Qle_trans; [exact Hclose | ].
    assert (Hp : (pow2 e1 <= pow2 (-52))%Q) by (apply pow2_le; exact He1).
    replace (-52) with (-53 + 1) in Hp by lia. rewrite pow2_succ in Hp. lra.
Qed.

Lemma int_to_float_100 : int_to_float 100 = Ok hundred.
Proof. reflexivity. Qed.

(** [f * 100.0] for a small non-negative magnitude [f = m * 2^e]. *)
Lemma SFmul_100_correct (s : bool) (m : positive) (e : Z) :
  e <= 0 ->
  (inject_Z (Z.pos m) * pow2 e <= 5 # 4)%Q ->
  exists m' e',
    0 <= m' /\
    float_mul (S754_finite s m e) hundred = assemble s m' e' /\
    (Qabs (inject_Z m' * pow2 e' - 100 * (inject_Z (Z.pos m) * pow2 e)) <= pow2 (-47))%Q.
Proof.
  intros He Hmag. unfold float_mul, hundred. cbn [SFmul]. rewrite xorb_false_r.
  set (M := 7036874417766400%positive).
  set (x := (100 * (inject_Z (Z.pos m) * pow2 e))%Q).
  assert (HP := pow2_pos e).
  assert (Hloc : located x (Z.pos (m * M)) (e + -46) loc_Exact).
  { cbn [located]. unfold x. rewrite Pos2Z.inj_mul, inject_Z_mult, pow2_add.
    setoid_replace (pow2 (-46)) with (1 # 70368744177664)%Q by reflexivity.
    setoid_replace (inject_Z (Z.pos M)) with (100 * (70368744177664 # 1))%Q by reflexivity.
    field. }
  destruct (binary_round_aux_correct x s (Z.pos (m * M)) (e + -46) loc_Exact ltac:(lia) Hloc)
    as (m' & e' & Hm' & He' & Hclose & Hres).
  set (e1 := Z.max (e + -46) (fexp prec emax (Zdigits2 (Z.pos (m * M)) + (e + -46)))) in *.
  assert (He1 : e1 <= -46).
  { cbn [located] in Hloc.
    assert (Hlt : (inject_Z (Z.pos (m * M)) * pow2 (e + -46) < pow2 7)%Q).
    { rewrite <- Hloc. unfold x. setoid_replace (pow2 7) with 128%Q by reflexivity.
      clear - Hmag. set (a := (inject_Z (Z.pos m) * pow2 e)%Q) in *. clearbody a. lra. }
    destruct (digits_of_magnitude_lt _ _ _ (Pos2Z.is_nonneg _) Hlt) as [Hd | Hd]; [ | lia].
    unfold e1, fexp, emin, prec, emax. lia. }
  exists m', e'. split; [exact Hm' | ]. split.
  - rewrite Hres. unfold assemble. destruct m' as [ | p | p]; try reflexivity.
    replace (e' <=? emax - prec) with true; [reflexivity | ].
    symmetry. apply Z.leb_le. unfold emax, prec. lia.
  - eapply Qle_trans; [exact Hclose | ].
    assert (Hp : (pow2 e1 <= pow2 (-46))%Q) by (apply pow2_le; exact He1).
    replace (-46) with (-47 + 1) in Hp by lia. rewrite pow2_succ in Hp. lra.
Qed.

Lemma float_mul_zero_hundred (s : bool) : float_mul (S754_zero s) hundred = S754_zero s.
Proof. destruct s; reflexivity. Qed.

Lemma is_infinity_assemble (s : bool) (m e : Z) : 0 <= m -> is_infinity (assemble s m e) = false.
Proof. intros Hm. destruct m; try lia; reflexivity. Qed.

(** [a / b * 100] on ints with [|a| <= b]: no exception, a finite float,
    and the value is the exact percentage up to [2^-45]. *)
Lemma percentage_correct (a b : Z) :
  0 < b -> Z.abs a <= b ->
  exists q r,
    int_true_divide a b = Ok q /\
    float_mul_int q 100 = Ok r /\
    is_finite r = true /\
    (Qabs (float_value r - 100 * (inject_Z a / inject_Z b)) <= pow2 (-45))%Q.
Proof.
  intros Hb Hab. unfold int_true_divide.
  destruct (Z.eqb_spec b 0) as [Hb0 | _]; [lia | ].
  replace (b <? 0) with false by (symmetry; apply Z.ltb_ge; lia).
  unfold float_mul_int. rewrite int_to_float_100. cbn [bind].
  destruct (Z.eqb_spec a 0) as [-> | Ha0].
  - exists (S754_zero false), (S754_zero false).
    rewrite float_mul_zero_hundred.
    split; [reflexivity | ]. split; [reflexivity | ]. split; [reflexivity | ].
    unfold Qdiv. cbn [float_value]. change (inject_Z 0) with 0%Q.
    setoid_replace (0 - 100 * (0 * / inject_Z b))%Q with 0%Q by ring.
    assert (HP := pow2_pos (-45)). apply Qlt_le_weak. exact HP.
  - set (s := a <? 0).
    set (pa := Z.to_pos (Z.abs a)). set (pb := Z.to_pos (Z.abs b)).
    assert (Hpa : Z.pos pa = Z.abs a) by (unfold pa; rewrite Z2Pos.id; lia).
    assert (Hpb : Z.pos pb = b) by (unfold pb; rewrite Z2Pos.id; lia).
    destruct (SFdiv_int_correct s pa pb ltac:(lia)) as (m & e & Hm & He & Hdiv & Hclose).
    rewrite Hdiv, is_infinity_assemble by exact Hm.
    rewrite Hpa, Hpb in Hclose.
    set (y := (inject_Z (Z.abs a) / inject_Z b)%Q) in *.
    assert (HbQ : (0 < inject_Z b)%Q) by (change 0%Q with (inject_Z 0); rewrite <- Zlt_Qlt; lia).
    assert (Hy : (0 <= y <= 1)%Q).
    { unfold y. split.
      - apply Qle_shift_div_l; [exact HbQ | ]. rewrite Qmult_0_l.
        change 0%Q with (inject_Z 0). rewrite <- Zle_Qle. lia.
      - apply Qle_shift_div_r; [exact HbQ | ]. rewrite Qmult_1_l, <- Zle_Qle. lia. }
    assert (Hsign : (inject_Z a / inject_Z b == (if s then -1 else 1) * y)%Q).
    { unfold y, s. destruct (Z.ltb_spec a 0) as [Hneg | Hpos].
      - rewrite Z.abs_neq by lia. rewrite inject_Z_opp. field. lra.
      - rewrite Z.abs_eq by lia. field. lra. }
    assert (H53 : (pow2 (-53) == 1 # 9007199254740992)%Q) by reflexivity.
    assert (H47 : (pow2 (-47) == 1 # 140737488355328)%Q) by reflexivity.
    assert (H45 : (pow2 (-45) == 1 # 35184372088832)%Q) by reflexivity.
    apply Qabs_Qle_condition in Hclose. rewrite H53 in Hclose.
    exists (assemble s m e).
    destruct m as [ | pm | pm]; try lia; cbn [assemble] in *.
    + exists (S754_zero s). rewrite float_mul_zero_hundred.
      split; [reflexivity | ]. split; [reflexivity | ]. split; [reflexivity | ].
      rewrite Hsign, H45. cbn [float_value]. change (inject_Z 0) with 0%Q in Hclose.
      apply Qabs_Qle_condition. clearbody y. clear - Hclose Hy.
      destruct s; split; lra.
    + set (v := (inject_Z (Z.pos pm) * pow2 e)%Q) in *.
      assert (Hv : (v <= 5 # 4)%Q) by (clearbody v y; clear - Hclose Hy; lra).
      destruct (SFmul_100_correct s pm e ltac:(lia) Hv) as (m' & e' & Hm' & Hmul & Hclose').
      fold v in Hclose'. rewrite Hmul.
      destruct (assemble_value s m' e' Hm') as [Hfin Hval].
      exists (assemble s m' e').
      split; [reflexivity | ]. split; [reflexivity | ]. split; [exact Hfin | ].
      rewrite Hval, Hsign, H45.
      apply Qabs_Qle_condition in Hclose'. rewrite H47 in Hclose'.
      set (u := (inject_Z m' * pow2 e')%Q) in *.
      apply Qabs_Qle_condition. clearbody u v y. clear - Hclose Hclose' Hy.
      destruct s; split; lra.
Qed.

(** ** Substrings of a concatenation *)

Lemma substring_zero (m : nat) (s : string) : substring m 0 s = "".
Proof.
  revert m. induction s as [ | c s IH]; intros [ | m]; cbn [substring]; auto.
Qed.

Lemma substring_app_l (a b : string) :
  forall m n : nat,
  String.length (substring m n a) = n ->
  substring m n (a ++ b) = substring m n a.
Proof.
  induction a as [ | c a IH]; intros m n Hlen.
  - assert (n = 0%nat) as -> by (destruct m, n; cbn in Hlen; congruence).
    rewrite !substring_zero. reflexivity.
  - destruct m as [ | m]; cbn [String.append substring].
    + destruct n as [ | n]; [reflexivity | ].
      cbn [substring String.length] in Hlen. f_equal. apply IH. congruence.
    + apply IH. exact Hlen.
Qed.

Lemma contains_app_l (needle a b : string) :
  contains needle a = true -> contains needle (a ++ b) = true.
Proof.
  unfold contains. destruct (index 0 needle a) as [m | ] eqn:Hfound; [intros _ | discriminate].
  destruct (index 0 needle (a ++ b)) as [k | ] eqn:Hnone; [reflexivity | exfalso].
  destruct (string_dec needle "") as [-> | Hne].
  - destruct (a ++ b); cbn in Hnone; discriminate.
  - apply index_correct1 in Hfound.
    apply (index_correct3 0 m _ _ Hnone Hne (Nat.le_0_l m)).
    rewrite substring_app_l; [exact Hfound | ].
    rewrite Hfound. reflexivity.
Qed.

Lemma substring_whole (s : string) : substring 0 (String.length s) s = s.
Proof. induction s as [ | c s IH]; [reflexivity | cbn [String.length substring]; rewrite IH; reflexivity]. Qed.


Lemma contains_self (s : string) : s <> "" -> contains s s = true.
Proof.
  intros Hne. unfold contains.
  destruct (index 0 s s) as [k | ] eqn:Hnone; [reflexivity | exfalso].
  apply (index_correct3 0 0%nat _ _ Hnone Hne (Nat.le_0_l _)). apply substring_whole.
Qed.

(** ** The dashboard: what the loops append *)

Lemma string_app_nil_r (s : string) : s ++ "" = s.
Proof. induction s as [ | c s IH]; [reflexivity | cbn [String.append]; rewrite IH; reflexivity]. Qed.

Lemma string_app_assoc (a b c : string) : (a ++ b) ++ c = a ++ (b ++ c).
Proof. induction a as [ | x a IH]; [reflexivity | cbn [String.append]; rewrite IH; reflexivity]. Qed.

Section DashboardFacts.
Context `{Builtins}.

Lemma render_from (html_content : list chunk) (acc : string) :
  fold_left (fun acc c => acc ++ chunk_text c) html_content acc
  = acc ++ render html_content.
Proof.
  unfold render. revert acc.
  induction html_content as [ | c rest IH]; intros acc; cbn [fold_left].
  - rewrite string_app_nil_r. reflexivity.
  - rewrite IH. rewrite (IH ("" ++ chunk_text c)).
    cbn [String.append]. rewrite string_app_assoc. reflexivity.
Qed.

Lemma render_cons (c : chunk) (rest : list chunk) :
  render (c :: rest) = chunk_text c ++ render rest.
Proof. unfold render at 1. cbn [fold_left]. rewrite render_from. reflexivity. Qed.

Lemma render_app (a b : list chunk) :
  render (a ++ b) = render a ++ render b.
Proof.
  induction a as [ | c a IH]; [reflexivity | ].
  cbn [List.app]. rewrite !render_cons, IH, string_app_assoc. reflexivity.
Qed.

(** The loop over the test details appends one entry per item, whatever
    [html_content] held before. *)
Lemma for_each_test_item_acc (tests : list json) (acc : list chunk) :
  for_each add_test_chunk tests acc
  = (items <- for_each add_test_chunk tests [] ;; Ok (acc ++ items)%list).
Proof.
  revert acc. induction tests as [ | test rest IH]; intros acc; cbn [for_each bind].
  - rewrite app_nil_r. reflexivity.
  - unfold add_test_chunk at 1 3.
    destruct (py_get test "test_name" (JStr "Unknown Test")) as [name | e]; [ | reflexivity].
    destruct (py_get test "status" (JStr "UNKNOWN")) as [st | e]; [ | reflexivity].
    cbn [bind]. rewrite IH. rewrite (IH ([] ++ _)%list).
    destruct (for_each add_test_chunk rest []) as [items | e]; [ | reflexivity].
    cbn [bind List.app]. rewrite <- app_assoc. reflexivity.
Qed.

Lemma for_each_test_item_records (records : list dict) :
  for_each add_test_chunk (map JDict records) [] = Ok (map entry_of records).
Proof.
  induction records as [ | record rest IH]; [reflexivity | ].
  cbn [map for_each]. unfold add_test_chunk. cbn [py_get bind].
  rewrite for_each_test_item_acc, IH. reflexivity.
Qed.


Lemma for_each_screenshot (shots : list string) (acc : list chunk) :
  for_each add_screenshot_chunk shots acc = Ok (acc ++ map ScreenshotItem shots)%list.
Proof.
  revert acc. induction shots as [ | shot rest IH]; intros acc; cbn [for_each map].
  - rewrite app_nil_r. reflexivity.
  - unfold add_screenshot_chunk at 1. cbn [bind]. rewrite IH, <- app_assoc. reflexivity.
Qed.

(** [dashboard_chunks], with the loops replaced by what they append. *)
Lemma dashboard_chunks_unfold (r : results) (now : datetime) :
  dashboard_chunks r now =
  (total_tests <- py_get (get (summary r) (JDict [])) "total_tests" (JInt 0) ;;
   passed <- py_get (get (summary r) (JDict [])) "passed" (JInt 0) ;;
   failed <- py_get (get (summary r) (JDict [])) "failed" (JInt 0) ;;
   rate <- pass_rate total_tests passed ;;
   rate_text <- py_format_1f rate ;;
   tests <- py_iter (get (test_details r) (JList [])) ;;
   items <- for_each add_test_chunk tests [] ;;
   Ok (Header (py_str total_tests) (py_str passed) (py_str failed) rate_text
       :: items ++ DetailsClose :: screenshot_part (get (screenshots r) [])
       ++ [Footer (strftime_dashed now) (py_str passed) (py_str failed)])%list).
Proof.
  unfold dashboard_chunks.
  destruct (py_get (get (summary r) (JDict [])) "total_tests" (JInt 0)) as [t | e]; [ | reflexivity].
  destruct (py_get (get (summary r) (JDict [])) "passed" (JInt 0)) as [p | e]; [ | reflexivity].
  destruct (py_get (get (summary r) (JDict [])) "failed" (JInt 0)) as [f | e]; [ | reflexivity].
  cbn [bind].
  destruct (pass_rate t p) as [rate | e]; [ | reflexivity]. cbn [bind].
  destruct (py_format_1f rate) as [rate_text | e]; [ | reflexivity]. cbn [bind].
  destruct (py_iter (get (test_details r) (JList []))) as [tests | e]; [ | reflexivity].
  cbn [bind]. rewrite for_each_test_item_acc.
  destruct (for_each add_test_chunk tests []) as [items | e]; [ | reflexivity].
  cbn [bind]. unfold screenshot_part.
  destruct (get (screenshots r) []) as [ | shot shots].
  - cbn [bind List.app]. rewrite <- !app_assoc. reflexivity.
  - rewrite for_each_screenshot. cbn [bind]. f_equal.
    cbn [List.app]. f_equal. rewrite <- !app_assoc. cbn [List.app]. reflexivity.
Qed.

Lemma render_document (header footer : chunk) (items part : list chunk) :
  render (header :: items ++ DetailsClose :: part ++ [footer])
  = (chunk_text header ++ render items) ++ details_close_text
    ++ render part ++ chunk_text footer.
Proof.
  rewrite render_cons, render_app, render_cons, render_app, render_cons.
  cbn [chunk_text]. change (render []) with "". rewrite string_app_nil_r.
  rewrite string_app_assoc. reflexivity.
Qed.

(** The loops of [generate_dashboard_html] append the texts of the pieces
    that the loops of [dashboard_chunks] record. *)
Lemma for_each_test_item_render (tests : list json) (acc : string) :
  for_each add_test_item tests acc
  = (items <- for_each add_test_chunk tests [] ;; Ok (acc ++ render items)).
Proof.
  revert acc. induction tests as [ | test rest IH]; intros acc; cbn [for_each bind].
  - change (render []) with "". rewrite string_app_nil_r. reflexivity.
  - unfold add_test_item at 1, add_test_chunk at 1.
    destruct (py_get test "test_name" (JStr "Unknown Test")) as [name | e]; [ | reflexivity].
    destruct (py_get test "status" (JStr "UNKNOWN")) as [st | e]; [ | reflexivity].
    cbn [bind List.app]. rewrite IH, (for_each_test_item_acc rest [_]).
    destruct (for_each add_test_chunk rest []) as [items | e]; [ | reflexivity].
    cbn [bind List.app]. rewrite render_cons, string_app_assoc. reflexivity.
Qed.

Lemma for_each_screenshot_render (shots : list string) (acc : string) :
  for_each add_screenshot shots acc = Ok (acc ++ render (map ScreenshotItem shots)).
Proof.
  revert acc. induction shots as [ | shot rest IH]; intros acc; cbn [for_each map].
  - change (render []) with "". rewrite string_app_nil_r. reflexivity.
  - unfold add_screenshot at 1. cbn [bind].
    rewrite IH, render_cons, string_app_assoc. reflexivity.
Qed.

(** The string that [generate_dashboard_html] returns is the rendering of
    the pieces that [dashboard_chunks] records, and the two raise alike. *)
Lemma generate_dashboard_html_render (r : results) (now : datetime) :
  generate_dashboard_html r now = (html <- dashboard_chunks r now ;; Ok (render html)).
Proof.
  rewrite dashboard_chunks_unfold. unfold generate_dashboard_html.
  destruct (py_get (get (summary r) (JDict [])) "total_tests" (JInt 0)) as [t | e]; [ | reflexivity].
  destruct (py_get (get (summary r) (JDict [])) "passed" (JInt 0)) as [p | e]; [ | reflexivity].
  destruct (py_get (get (summary r) (JDict [])) "failed" (JInt 0)) as [f | e]; [ | reflexivity].
  cbn [bind].
  destruct (pass_rate t p) as [rate | e]; [ | reflexivity]. cbn [bind].
  destruct (py_format_1f rate) as [rate_text | e]; [ | reflexivity]. cbn [bind].
  destruct (py_iter (get (test_details r) (JList []))) as [tests | e]; [ | reflexivity].
  cbn [bind]. rewrite for_each_test_item_render.
  destruct (for_each add_test_chunk tests []) as [items | e]; [ | reflexivity].
  cbn [bind]. rewrite render_document. cbn [chunk_text]. unfold screenshot_part.
  destruct (get (screenshots r) []) as [ | shot shots].
  - cbn [bind]. change (render []) with "". cbn [String.append].
    rewrite !string_app_assoc. reflexivity.
  - rewrite for_each_screenshot_render. cbn [bind].
    rewrite render_cons, render_app, render_cons. cbn [chunk_text].
    change (render []) with "". rewrite string_app_nil_r, !string_app_assoc. reflexivity.
Qed.

(** A string is returned exactly when pieces are recorded. *)
Lemma rendered (r : results) (now : datetime) (text : string) :
  generate_dashboard_html r now = Ok text <->
  exists html, dashboard_chunks r now = Ok html /\ text = render html.
Proof.
  rewrite generate_dashboard_html_render. split.
  - destruct (dashboard_chunks r now) as [html | e]; [ | discriminate].
    cbn [bind]. intros [= <-]. exists html. split; reflexivity.
  - intros (html & -> & ->). reflexivity.
Qed.

End DashboardFacts.

(** ** The dashboard: the shape of the rendered document *)

Section DashboardShape.
Context `{Builtins}.










(** Every document that [dashboard_chunks] returns has the rendered shape. *)
Lemma document_shape (r : results) (now : datetime) (html : list chunk) :
  dashboard_chunks r now = Ok html ->
  exists total passed failed rate tests items,
    py_get (get (summary r) (JDict [])) "total_tests" (JInt 0) = Ok total /\
    py_get (get (summary r) (JDict [])) "passed" (JInt 0) = Ok passed /\
    py_get (get (summary r) (JDict [])) "failed" (JInt 0) = Ok failed /\
    (rate' <- pass_rate total passed ;; py_format_1f rate') = Ok rate /\
    py_iter (get (test_details r) (JList [])) = Ok tests /\
    for_each add_test_chunk tests [] = Ok items /\
    html = (Header (py_str total) (py_str passed) (py_str failed) rate
            :: items ++ DetailsClose :: screenshot_part (get (screenshots r) [])
            ++ [Footer (strftime_dashed now) (py_str passed) (py_str failed)])%list.
Proof.
  rewrite dashboard_chunks_unfold.
  destruct (py_get (get (summary r) (JDict [])) "total_tests" (JInt 0)) as [t | e]; [ | discriminate].
  destruct (py_get (get (summary r) (JDict [])) "passed" (JInt 0)) as [p | e]; [ | discriminate].
  destruct (py_get (get (summary r) (JDict [])) "failed" (JInt 0)) as [f | e]; [ | discriminate].
  cbn [bind].
  destruct (pass_rate t p) as [rate | e] eqn:Hrate; [ | discriminate]. cbn [bind].
  destruct (py_format_1f rate) as [rate_text | e] eqn:Htext; [ | discriminate]. cbn [bind].
  destruct (py_iter (get (test_details r) (JList []))) as [tests | e]; [ | discriminate].
  cbn [bind].
  destruct (for_each add_test_chunk tests []) as [items | e] eqn:Hitems; [ | discriminate].
  cbn [bind]. intros [= <-].
  exists t, p, f, rate_text, tests, items.
  rewrite Hrate. cbn [bind]. rewrite Htext, Hitems. repeat split; reflexivity.
Qed.

(** The header of a summary with integer counts can be computed. *)
Lemma rate_of_counts (t p : Z) :
  t <= 0 \/ Z.abs p <= t ->
  exists rate, (rate' <- pass_rate (JInt t) (JInt p) ;; py_format_1f rate') = Ok rate.
Proof.
  intros Hcounts. unfold pass_rate. cbn [py_gt_int as_number bind].
  destruct (Z.gtb_spec t 0) as [Hpos | Hnonpos].
  - destruct (percentage_correct p t ltac:(lia) ltac:(lia)) as (q & x & Hq & Hx & _).
    cbn [py_truediv as_number]. rewrite Hq. cbn [bind]. rewrite Hx. cbn [bind py_format_1f].
    eexists. reflexivity.
  - exists "0.0". reflexivity.
Qed.

(** Rendering succeeds on a summary with integer counts and a list of
    records. *)
Lemma renders (r : results) (now : datetime) (d : dict) (t p : Z) (records : list dict) :
  get (summary r) (JDict []) = JDict d ->
  dict_get d "total_tests" (JInt 0) = JInt t ->
  dict_get d "passed" (JInt 0) = JInt p ->
  t <= 0 \/ Z.abs p <= t ->
  get (test_details r) (JList []) = JList (map JDict records) ->
  exists html, dashboard_chunks r now = Ok html.
Proof.
  intros Hsum Ht Hp Hcounts Hdetails.
  rewrite dashboard_chunks_unfold, Hsum, Hdetails. cbn [py_get bind py_iter].
  rewrite Ht, Hp.
  destruct (rate_of_counts t p Hcounts) as [rate Hrate].
  destruct (pass_rate (JInt t) (JInt p)) as [rate' | e]; [ | discriminate]. cbn [bind] in *.
  rewrite Hrate. cbn [bind]. rewrite for_each_test_item_records. cbn [bind].
  eexists. reflexivity.
Qed.

End DashboardShape.

(** ** The dashboard: claims *)

Section DashboardClaims.
Context `{Builtins}.

Lemma renders_well_formed (r : results) (now : datetime) :
  well_formed r -> exists text, generate_dashboard_html r now = Ok text.
Proof.
  intros (d & t & p & records & Hsum & Ht & Hp & Hcounts & Hdetails).
  destruct (renders r now d t p records Hsum Ht Hp Hcounts Hdetails) as [html Hhtml].
  exists (render html). apply rendered. exists html. split; [exact Hhtml | reflexivity].
Qed.

(** C1. For non-negative integers [p] and [f] with [p + f > 0], the pass
    rate computed from [total_tests = p + f] and [passed = p] is a finite
    float within [2^-45] of the exact percentage [p / (p + f) * 100]; with
    [total_tests = 0] the pass rate is the int [0], shown as [0.0]; and a
    summary with 9 tests, 7 passed and 2 failed is rendered with the
    metrics 9, 7, 2 and 77.8%. *)
Theorem pass_rate_spec (p f : Z) :
  0 <= p -> 0 <= f -> 0 < p + f ->
  (exists x : float,
     pass_rate (JInt (p + f)) (JInt p) = Ok (JFloat x) /\
     is_finite x = true /\
     (Qabs (float_value x - inject_Z p / inject_Z (p + f) * 100) <= pow2 (-45))%Q) /\
  (forall passed : json, pass_rate (JInt 0) passed = Ok (JInt 0)) /\
  py_format_1f (JInt 0) = Ok "0.0" /\
  (forall (r : results) (now : datetime),
     summary r = Some (summary_doc 9 7 2) ->
     (well_formed r -> exists text, generate_dashboard_html r now = Ok text) /\
     (forall text, generate_dashboard_html r now = Ok text ->
        (exists rest, text = header_text "9" "7" "2" "77.8" ++ rest) /\
        contains ("<div class=" ++ dq ++ "metric-value rate" ++ dq ++ ">77.8%</div>")
                 text = true)).
Proof.
  intros Hp Hf Ht. split; [ | split; [ | split]].
  - destruct (percentage_correct p (p + f) Ht ltac:(lia)) as (q & x & Hq & Hx & Hfin & Hclose).
    exists x. split; [ | split; [exact Hfin | ]].
    + unfold pass_rate. cbn [py_gt_int as_number bind].
      replace (p + f >? 0) with true by (symmetry; apply Z.gtb_lt; lia).
      cbn [py_truediv as_number]. rewrite Hq. cbn [bind]. rewrite Hx. reflexivity.
    + setoid_replace (inject_Z p / inject_Z (p + f) * 100)%Q
        with (100 * (inject_Z p / inject_Z (p + f)))%Q by ring.
      exact Hclose.
  - intros passed. reflexivity.
  - reflexivity.
  - intros r now Hsum. split; [apply renders_well_formed | ].
    intros text Htext. apply rendered in Htext. destruct Htext as (html & Hhtml & ->).
    destruct (document_shape r now html Hhtml)
      as (total & passed & failed & rate & tests & items & Htot & Hpas & Hfai & Hrate & _ & _ & ->).
    rewrite Hsum in Htot, Hpas, Hfai. cbn in Htot, Hpas, Hfai.
    injection Htot as <-. injection Hpas as <-. injection Hfai as <-.
    vm_compute in Hrate. injection Hrate as <-.
    rewrite render_cons. cbn [chunk_text]. split.
    + eexists. reflexivity.
    + apply contains_app_l. vm_compute. reflexivity.
Qed.




End DashboardClaims.

Section DashboardClaimsText.
Context `{Builtins}.

(** C5. Rendering is deterministic up to the generation timestamp: the
    inputs alone decide whether rendering raises (and what), and
    otherwise decide a prefix and a suffix such that, whatever the clock
    reads, the output is the prefix, the formatted clock reading and the
    suffix. Two calls on identical inputs therefore return strings that
    differ at most in the embedded timestamp, and equal strings when the
    clock readings are equal. *)
Theorem render_deterministic (r : results) :
  exists outcome : pyresult (string * string),
    forall now : datetime,
      generate_dashboard_html r now
      = (ends <- outcome ;; Ok (fst ends ++ strftime_dashed now ++ snd ends)).
Proof.
  destruct (dashboard_chunks r {| year := 0; month := 0; day := 0;
                                  hour := 0; minute := 0; second := 0 |})
    as [html0 | e0] eqn:Hprobe.
  - destruct (document_shape _ _ _ Hprobe)
      as (total & passed & failed & rate & tests & items
          & Htot & Hpas & Hfai & Hrate & Htests & Hitems & _).
    set (body := (chunk_text (Header (py_str total) (py_str passed) (py_str failed) rate)
                  ++ render items) ++ details_close_text
                 ++ render (screenshot_part (get (screenshots r) []))).
    exists (Ok (body ++ timestamp_open_text,
                results_chart_open_text ++ py_str passed ++ ", " ++ py_str failed
                ++ results_chart_close_text ++ categories_chart_text
                ++ document_close_text)).
    intros now.
    rewrite generate_dashboard_html_render, dashboard_chunks_unfold, Htot, Hpas, Hfai.
    cbn [bind].
    destruct (pass_rate total passed) as [rate' | e]; [ | discriminate]. cbn [bind] in *.
    rewrite Hrate, Htests. cbn [bind]. rewrite Hitems. cbn [bind fst snd].
    f_equal. rewrite render_document. cbn [chunk_text]. unfold footer_text, body.
    rewrite !string_app_assoc. reflexivity.
  - exists (Raise e0). intros now. cbn [bind].
    rewrite generate_dashboard_html_render.
    rewrite dashboard_chunks_unfold in Hprobe |- *.
    destruct (py_get (get (summary r) (JDict [])) "total_tests" (JInt 0)) as [t | e];
      [ | cbn [bind] in *; congruence].
    destruct (py_get (get (summary r) (JDict [])) "passed" (JInt 0)) as [p | e];
      [ | cbn [bind] in *; congruence].
    destruct (py_get (get (summary r) (JDict [])) "failed" (JInt 0)) as [f | e];
      [ | cbn [bind] in *; congruence].
    cbn [bind] in *.
    destruct (pass_rate t p) as [rate | e]; [ | cbn [bind] in *; congruence].
    cbn [bind] in *.
    destruct (py_format_1f rate) as [rate_text | e]; [ | cbn [bind] in *; congruence].
    cbn [bind] in *.
    destruct (py_iter (get (test_details r) (JList []))) as [tests | e];
      [ | cbn [bind] in *; congruence].
    cbn [bind] in *.
    destruct (for_each add_test_chunk tests []) as [items | e];
      [ | cbn [bind] in *; congruence].
    cbn [bind] in Hprobe. discriminate.
Qed.

(** C9. In every rendered document the script that follows the timestamp
    carries the summary's [passed] and [failed] as the data of the
    passed-versus-failed chart, followed by the categories chart, which is
    a constant text: labels Login, Trading, Views, Bulk Ops with the
    counts 2, 4, 4, 2, whatever the inputs are. *)
Theorem chart_data (r : results) (now : datetime) :
  (well_formed r -> exists text, generate_dashboard_html r now = Ok text) /\
  (forall text, generate_dashboard_html r now = Ok text ->
     exists (passed failed : json) (before : string),
       py_get (get (summary r) (JDict [])) "passed" (JInt 0) = Ok passed /\
       py_get (get (summary r) (JDict [])) "failed" (JInt 0) = Ok failed /\
       text
       = before ++ results_chart_open_text ++ py_str passed ++ ", " ++ py_str failed
         ++ results_chart_close_text ++ categories_chart_text ++ document_close_text) /\
  contains "labels: ['Passed', 'Failed']" results_chart_open_text = true /\
  contains "labels: ['Login', 'Trading', 'Views', 'Bulk Ops']" categories_chart_text = true /\
  contains "data: [2, 4, 4, 2]" categories_chart_text = true /\
  (forall p f : Z, py_str (JInt p) ++ ", " ++ py_str (JInt f)
                   = string_of_Z p ++ ", " ++ string_of_Z f).
Proof.
  split; [apply renders_well_formed | ]. split; [ | repeat split; vm_compute; reflexivity].
  intros text Htext. apply rendered in Htext. destruct Htext as (html & Hhtml & ->).
  destruct (document_shape r now html Hhtml)
    as (total & passed & failed & rate & tests & items & _ & Hpas & Hfai & _ & _ & _ & ->).
  exists passed, failed.
  eexists. split; [exact Hpas | ]. split; [exact Hfai | ].
  rewrite render_document. cbn [chunk_text]. unfold footer_text.
  rewrite <- !string_app_assoc. reflexivity.
Qed.


End DashboardClaimsText.

(** ** The orchestrator: what each step does to the trace *)

Section RunnerFacts.
Context `{Builtins}.
Variable w : Runner.world.

Lemma spawned_app (a b : Runner.trace) :
  spawned (a ++ b)%list = (spawned a ++ spawned b)%list.
Proof. unfold spawned. apply flat_map_app. Qed.

Lemma abind_ok {A B : Type} (m : Runner.action A) (k : A -> Runner.action B)
    (t t' : Runner.trace) (a : A) :
  m t = (Ok a, t') -> Runner.abind m k t = k a t'.
Proof. intros Hm. unfold Runner.abind. rewrite Hm. reflexivity. Qed.

Lemma quiet_ret {A : Type} (a : A) : quiet (Runner.ret a).
Proof. intros t. exists (Ok a), []. rewrite app_nil_r. split; reflexivity. Qed.

Lemma quiet_lift {A : Type} (r : pyresult A) : quiet (Runner.lift r).
Proof. intros t. exists r, []. rewrite app_nil_r. split; reflexivity. Qed.

Lemma silent_print (line : string) : silent (Runner.print line).
Proof. intros t. exists [Runner.Printed line]. split; reflexivity. Qed.

Lemma silent_ret : silent (Runner.ret tt).
Proof. intros t. exists []. rewrite app_nil_r. split; reflexivity. Qed.

Lemma silent_quiet (m : Runner.action unit) : silent m -> quiet m.
Proof. intros Hm t. destruct (Hm t) as (delta & Heq & Hsp). exists (Ok tt), delta. auto. Qed.

Lemma quiet_bind {A B : Type} (m : Runner.action A) (k : A -> Runner.action B) :
  quiet m -> (forall a, quiet (k a)) -> quiet (Runner.abind m k).
Proof.
  intros Hm Hk t. destruct (Hm t) as (r & d1 & Heq1 & Hsp1).
  unfold Runner.abind. rewrite Heq1. destruct r as [a | e].
  - destruct (Hk a (t ++ d1)%list) as (r2 & d2 & Heq2 & Hsp2).
    exists r2, (d1 ++ d2)%list. rewrite Heq2, app_assoc. split; [reflexivity | ].
    rewrite spawned_app, Hsp1, Hsp2. reflexivity.
  - exists (Raise e), d1. auto.
Qed.

Lemma silent_bind (m k : Runner.action unit) :
  silent m -> silent k -> silent (Runner.abind m (fun _ => k)).
Proof.
  intros Hm Hk t. destruct (Hm t) as (d1 & Heq1 & Hsp1).
  destruct (Hk (t ++ d1)%list) as (d2 & Heq2 & Hsp2).
  exists (d1 ++ d2)%list. unfold Runner.abind. rewrite Heq1, Heq2, app_assoc.
  split; [reflexivity | ]. rewrite spawned_app, Hsp1, Hsp2. reflexivity.
Qed.

Lemma silent_when (b : bool) (m : Runner.action unit) : silent m -> silent (Runner.when b m).
Proof. intros Hm. destruct b; [exact Hm | exact silent_ret]. Qed.

(** A quiet body under a handler that only prints cannot raise. *)
Lemma silent_try_except (m : Runner.action unit) (handler : pyexc -> Runner.action unit) :
  quiet m -> (forall e, silent (handler e)) -> silent (Runner.try_except m handler).
Proof.
  intros Hm Hh t. destruct (Hm t) as (r & d1 & Heq1 & Hsp1).
  unfold Runner.try_except. rewrite Heq1. destruct r as [[] | e].
  - exists d1. auto.
  - destruct (Hh e (t ++ d1)%list) as (d2 & Heq2 & Hsp2).
    exists (d1 ++ d2)%list. rewrite Heq2, app_assoc. split; [reflexivity | ].
    rewrite spawned_app, Hsp1, Hsp2. reflexivity.
Qed.

Lemma quiet_when (b : bool) (m : Runner.action unit) : quiet m -> quiet (Runner.when b m).
Proof. intros Hm. destruct b; [exact Hm | apply quiet_ret]. Qed.

Ltac quiet_steps :=
  repeat first
    [ apply quiet_bind; [ | intros ? ]
    | apply quiet_lift
    | apply quiet_ret
    | apply quiet_when
    | apply silent_quiet, silent_print ].

Lemma silent_print_results (loaded : pyresult json) : silent (Runner.print_results loaded).
Proof.
  unfold Runner.print_results. apply silent_try_except; [ | intros e; apply silent_print].
  quiet_steps.
Qed.

Lemma silent_print_summary (exit_code : Z) (report_name : string) :
  silent (Runner.print_summary w exit_code report_name).
Proof.
  unfold Runner.print_summary.
  repeat (apply silent_bind; [apply silent_print | ]).
  apply silent_bind; [ | apply silent_print].
  destruct (Runner.summary_json w); [apply silent_print_results | apply silent_ret].
Qed.

(** [generate_dashboard] prints, spawns the renderer, and prints what
    came of it; it never raises. *)
Lemma generate_dashboard_trace (t : Runner.trace) :
  Runner.generate_dashboard w t
  = (Ok tt, (t ++ [Runner.Printed "📊 Generating test dashboard...";
                   Runner.Spawned (Runner.dashboard_cmd w) None;
                   Runner.Printed (dashboard_message w)])%list).
Proof.
  unfold Runner.generate_dashboard, Runner.try_except, Runner.abind, Runner.print,
    Runner.run, dashboard_message.
  destruct (Runner.subprocess_run w (Runner.dashboard_cmd w)) as [child | e].
  - cbn [andb]. destruct (Runner.returncode child =? 0); cbn [negb];
      rewrite <- !app_assoc; reflexivity.
  - rewrite <- !app_assoc. reflexivity.
Qed.

Lemma bind_print {B : Type} (line : string) (k : unit -> Runner.action B) (t : Runner.trace) :
  Runner.abind (Runner.print line) k t = k tt (t ++ [Runner.Printed line])%list.
Proof. reflexivity. Qed.

Lemma bind_silent {B : Type} (m : Runner.action unit) (k : unit -> Runner.action B)
    (t : Runner.trace) :
  silent m ->
  exists delta, Runner.abind m k t = k tt (t ++ delta)%list /\ spawned delta = [].
Proof.
  intros Hm. destruct (Hm t) as (delta & Heq & Hsp).
  exists delta. split; [apply abind_ok; exact Heq | exact Hsp].
Qed.

Ltac silent_step Hs d Hd :=
  match goal with
  | |- context [Runner.abind ?m ?k ?t] =>
      destruct (bind_silent m k t Hs) as (d & -> & Hd); cbv beta
  end.

Lemma silent_output (label text : string) :
  silent (Runner.when (Runner.nonempty text)
            (Runner.abind (Runner.print label) (fun _ => Runner.print text))).
Proof. apply silent_when, silent_bind; apply silent_print. Qed.

(** [run_tests] when the engine finishes, with whatever exit code. *)
Lemma run_tests_completed (test_type browser : string) (headless parallel : bool)
    (result : Runner.completed_process) (t : Runner.trace) :
  Runner.subprocess_run w (Runner.pytest_cmd w test_type parallel) = Ok result ->
  exists before between after : Runner.trace,
    Runner.run_tests w test_type browser headless parallel t
    = (Ok (Runner.returncode result =? 0),
       (t ++ before
        ++ Runner.Spawned (Runner.pytest_cmd w test_type parallel)
                          (Some (Runner.pytest_env w browser headless))
        :: between
        ++ Runner.Printed "📊 Generating test dashboard..."
        :: Runner.Spawned (Runner.dashboard_cmd w) None
        :: Runner.Printed (dashboard_message w)
        :: after)%list) /\
    spawned before = [] /\ spawned between = [] /\ spawned after = [].
Proof.
  intros Hengine. unfold Runner.run_tests.
  repeat (rewrite bind_print; cbv beta).
  unfold Runner.try_except.
  set (t1 := (_ ++ [Runner.Printed _])%list).
  assert (Hrun : Runner.run w (Runner.pytest_cmd w test_type parallel)
                   (Some (Runner.pytest_env w browser headless)) false t1
                 = (Ok result,
                    (t1 ++ [Runner.Spawned (Runner.pytest_cmd w test_type parallel)
                              (Some (Runner.pytest_env w browser headless))])%list)).
  { unfold Runner.run. rewrite Hengine. reflexivity. }
  rewrite (abind_ok _ _ _ _ _ Hrun).
  silent_step (silent_output "📄 Test Output:" (Runner.stdout result)) d1 Hd1.
  silent_step (silent_output "⚠️  Warnings/Errors:" (Runner.stderr result)) d2 Hd2.
  rewrite (abind_ok _ _ _ _ _ (generate_dashboard_trace _)).
  silent_step (silent_print_summary (Runner.returncode result)
                 (Runner.report_name w test_type)) d3 Hd3.
  unfold Runner.ret. subst t1.
  exists (prelude w test_type browser headless parallel), (d1 ++ d2)%list, d3. split.
  - f_equal. unfold prelude. repeat rewrite <- app_assoc. cbn [List.app]. reflexivity.
  - split; [reflexivity | ]. split; [ | exact Hd3].
    rewrite spawned_app, Hd1, Hd2. reflexivity.
Qed.

(** [run_tests] when [subprocess.run] raises for the engine: the error is
    printed and the run counts as failed; nothing else is spawned. *)
Lemma run_tests_raised (test_type browser : string) (headless parallel : bool)
    (e : pyexc) (t : Runner.trace) :
  Runner.subprocess_run w (Runner.pytest_cmd w test_type parallel) = Raise e ->
  exists before : Runner.trace,
    Runner.run_tests w test_type browser headless parallel t
    = (Ok false,
       (t ++ before
        ++ [Runner.Spawned (Runner.pytest_cmd w test_type parallel)
                           (Some (Runner.pytest_env w browser headless));
            Runner.Printed ("❌ Error running tests: " ++ exc_str e)])%list) /\
    spawned before = [].
Proof.
  intros Hengine. unfold Runner.run_tests.
  repeat (rewrite bind_print; cbv beta).
  unfold Runner.try_except, Runner.abind at 1, Runner.run. rewrite Hengine.
  rewrite bind_print. unfold Runner.ret.
  exists (prelude w test_type browser headless parallel). split.
  - f_equal. unfold prelude. repeat rewrite <- app_assoc. cbn [List.app]. reflexivity.
  - reflexivity.
Qed.

End RunnerFacts.

(** ** The orchestrator: claims *)

Section RunnerClaims.
Context `{Builtins}.
Variable w : Runner.world.

Lemma spawned_spawn (cmd : list string) (env : option Runner.environ) (t : Runner.trace) :
  spawned (Runner.Spawned cmd env :: t) = cmd :: spawned t.
Proof. reflexivity. Qed.

Lemma spawned_print (line : string) (t : Runner.trace) :
  spawned (Runner.Printed line :: t) = spawned t.
Proof. reflexivity. Qed.

Lemma process_run (a : Runner.args) (success : bool) (t : Runner.trace) :
  Runner.list a = false ->
  Runner.dashboard_only a = false ->
  Runner.mkdirs w = Ok tt ->
  Runner.run_tests w (Runner.type a) (Runner.browser a) (Runner.headless a)
    (Runner.parallel a) [] = (Ok success, t) ->
  Runner.process w a = (if success then 0 else 1, t).
Proof.
  intros Hlist Honly Hmk Hrun.
  unfold Runner.process, Runner.main, Runner.abind, Runner.lift.
  rewrite Hmk, Hlist, Honly, Hrun. reflexivity.
Qed.

Lemma process_init_failure (a : Runner.args) (e : pyexc) :
  Runner.mkdirs w = Raise e -> Runner.process w a = (1, []).
Proof.
  intros Hmk. unfold Runner.process, Runner.main, Runner.abind, Runner.lift.
  rewrite Hmk. reflexivity.
Qed.

(** C6. A run of the orchestrator exits with code 0 exactly when the
    engine was run to completion and its exit code was 0. [run_tests]
    never raises, whatever the engine's exit code; when the engine could
    not be run (its executable is missing, [subprocess.run] raises) or the
    orchestrator's own set-up fails, the process exits with code 1. *)
Theorem exit_code_follows_engine (a : Runner.args) :
  Runner.list a = false ->
  Runner.dashboard_only a = false ->
  let engine := Runner.subprocess_run w
                  (Runner.pytest_cmd w (Runner.type a) (Runner.parallel a)) in
  let code := fst (Runner.process w a) in
  (code = 0 <->
     Runner.mkdirs w = Ok tt /\
     exists result, engine = Ok result /\ Runner.returncode result = 0) /\
  (code = 0 \/ code = 1) /\
  (forall t, exists success t',
     Runner.run_tests w (Runner.type a) (Runner.browser a) (Runner.headless a)
       (Runner.parallel a) t = (Ok success, t')) /\
  (forall result, Runner.mkdirs w = Ok tt -> engine = Ok result ->
     Runner.returncode result <> 0 -> code = 1) /\
  (forall e, engine = Raise e -> code = 1) /\
  (forall e, Runner.mkdirs w = Raise e -> code = 1).
Proof.
  intros Hlist Honly engine code.
  assert (Htotal : forall t, exists success t',
            Runner.run_tests w (Runner.type a) (Runner.browser a) (Runner.headless a)
              (Runner.parallel a) t = (Ok success, t')).
  { intros t. destruct engine as [result | e] eqn:Hengine.
    - destruct (run_tests_completed w (Runner.type a) (Runner.browser a) (Runner.headless a)
                  (Runner.parallel a) result t Hengine) as (b1 & b2 & b3 & Hrun & _).
      eexists. eexists. exact Hrun.
    - destruct (run_tests_raised w (Runner.type a) (Runner.browser a) (Runner.headless a)
                  (Runner.parallel a) e t Hengine) as (b1 & Hrun & _).
      eexists. eexists. exact Hrun. }
  assert (Hcode : code = match Runner.mkdirs w with
                         | Raise _ => 1
                         | Ok _ =>
                             match engine with
                             | Ok result => if Runner.returncode result =? 0 then 0 else 1
                             | Raise _ => 1
                             end
                         end).
  { unfold code. destruct (Runner.mkdirs w) as [[] | e0] eqn:Hmk.
    - destruct engine as [result | e] eqn:Hengine.
      + destruct (run_tests_completed w (Runner.type a) (Runner.browser a) (Runner.headless a)
                    (Runner.parallel a) result [] Hengine) as (b1 & b2 & b3 & Hrun & _).
        rewrite (process_run a _ _ Hlist Honly Hmk Hrun). reflexivity.
      + destruct (run_tests_raised w (Runner.type a) (Runner.browser a) (Runner.headless a)
                    (Runner.parallel a) e [] Hengine) as (b1 & Hrun & _).
        rewrite (process_run a _ _ Hlist Honly Hmk Hrun). reflexivity.
    - rewrite (process_init_failure a e0 Hmk). reflexivity. }
  split; [ | split; [ | split; [exact Htotal | split; [ | split]]]].
  - rewrite Hcode. destruct (Runner.mkdirs w) as [[] | e0].
    + destruct engine as [result | e].
      * destruct (Z.eqb_spec (Runner.returncode result) 0) as [Hz | Hnz].
        -- split; [intros _ | reflexivity]. split; [reflexivity | ].
           exists result. split; [reflexivity | exact Hz].
        -- split; [discriminate | ]. intros (_ & result' & [= <-] & Hz). contradiction.
      * split; [discriminate | ]. intros (_ & result' & Hfalse & _). discriminate.
    + split; [discriminate | ]. intros (Hfalse & _). discriminate.
  - rewrite Hcode. destruct (Runner.mkdirs w) as [[] | e0]; [ | right; reflexivity].
    destruct engine as [result | e]; [ | right; reflexivity].
    destruct (Runner.returncode result =? 0); [left | right]; reflexivity.
  - intros result Hmk Hengine Hnz. rewrite Hcode, Hmk, Hengine.
    destruct (Z.eqb_spec (Runner.returncode result) 0); [contradiction | reflexivity].
  - intros e Hengine. rewrite Hcode, Hengine.
    destruct (Runner.mkdirs w) as [[] | e0]; reflexivity.
  - intros e Hmk. rewrite Hcode, Hmk. reflexivity.
Qed.

(** C7 (as amended). Whenever the engine has been run, whatever its exit
    code, the orchestrator then spawns the dashboard renderer; these are
    the only two processes it spawns, in this order. A failure of the
    renderer (it cannot be started, or it exits with a non-zero code) is
    caught and printed as a warning: [run_tests] still returns, its
    verdict is [returncode == 0] of the engine, and the process exit code
    is 0 or 1 accordingly. When the engine cannot be run at all
    ([subprocess.run] raises for it), the error is printed, the renderer
    is not spawned, and the run counts as failed. *)
Theorem dashboard_attempted_after_engine (test_type browser : string)
    (headless parallel : bool) :
  let engine := Runner.subprocess_run w (Runner.pytest_cmd w test_type parallel) in
  let run := Runner.run_tests w test_type browser headless parallel [] in
  let code :=
    fst (Runner.process w {| Runner.type := test_type; Runner.browser := browser;
                             Runner.headless := headless; Runner.parallel := parallel;
                             Runner.list := false; Runner.dashboard_only := false |}) in
  (forall result : Runner.completed_process,
     engine = Ok result ->
     (exists before between after : Runner.trace,
        run = (Ok (Runner.returncode result =? 0),
               (before
                ++ Runner.Spawned (Runner.pytest_cmd w test_type parallel)
                                  (Some (Runner.pytest_env w browser headless))
                :: between
                ++ Runner.Printed "📊 Generating test dashboard..."
                :: Runner.Spawned (Runner.dashboard_cmd w) None
                :: Runner.Printed (dashboard_message w)
                :: after)%list) /\
        spawned before = [] /\ spawned between = [] /\ spawned after = []) /\
     spawned (snd run) = [Runner.pytest_cmd w test_type parallel; Runner.dashboard_cmd w] /\
     renderer_invoked w (snd run) /\
     (Runner.mkdirs w = Ok tt -> code = if Runner.returncode result =? 0 then 0 else 1)) /\
  (forall e, Runner.subprocess_run w (Runner.dashboard_cmd w) = Raise e ->
     dashboard_message w = "⚠️  Dashboard generation failed: " ++ exc_str e) /\
  (forall child, Runner.subprocess_run w (Runner.dashboard_cmd w) = Ok child ->
     Runner.returncode child <> 0 ->
     dashboard_message w
     = "⚠️  Dashboard generation failed: "
       ++ exc_str (CalledProcessError (Runner.returncode child))) /\
  (forall e : pyexc,
     engine = Raise e ->
     fst run = Ok false /\
     spawned (snd run) = [Runner.pytest_cmd w test_type parallel] /\
     last (snd run) (Runner.Printed "") = Runner.Printed ("❌ Error running tests: " ++ exc_str e) /\
     (Runner.mkdirs w = Ok tt -> code = 1)).
Proof.
  intros engine run code. split; [ | split; [ | split]].
  - intros result Hengine.
    destruct (run_tests_completed w test_type browser headless parallel result [] Hengine)
      as (before & between & after & Hrun & Hb & Hm & Ha).
    cbn [List.app] in Hrun. fold run in Hrun.
    assert (Hspawned : spawned (snd run)
                       = [Runner.pytest_cmd w test_type parallel; Runner.dashboard_cmd w]).
    { rewrite Hrun. cbn [snd].
      rewrite spawned_app, Hb, spawned_spawn, spawned_app, Hm, spawned_print, spawned_spawn,
        spawned_print, Ha.
      reflexivity. }
    split; [ | split; [exact Hspawned | split]].
    + exists before, between, after. auto.
    + unfold renderer_invoked. rewrite Hspawned. right. left. reflexivity.
    + intros Hmk. unfold code.
      rewrite (process_run {| Runner.type := test_type; Runner.browser := browser;
                              Runner.headless := headless; Runner.parallel := parallel;
                              Runner.list := false; Runner.dashboard_only := false |}
                 _ _ eq_refl eq_refl Hmk Hrun).
      reflexivity.
  - intros e He. unfold dashboard_message. rewrite He. reflexivity.
  - intros child Hchild Hnz. unfold dashboard_message. rewrite Hchild.
    destruct (Z.eqb_spec (Runner.returncode child) 0); [contradiction | reflexivity].
  - intros e Hengine.
    destruct (run_tests_raised w test_type browser headless parallel e [] Hengine)
      as (before & Hrun & Hb).
    cbn [List.app] in Hrun. fold run in Hrun.
    split; [rewrite Hrun; reflexivity | ]. split; [ | split].
    + rewrite Hrun. cbn [snd]. rewrite spawned_app, Hb. reflexivity.
    + rewrite Hrun. cbn [snd].
      change [Runner.Spawned (Runner.pytest_cmd w test_type parallel)
                (Some (Runner.pytest_env w browser headless));
              Runner.Printed ("❌ Error running tests: " ++ exc_str e)]
        with ([Runner.Spawned (Runner.pytest_cmd w test_type parallel)
                 (Some (Runner.pytest_env w browser headless))]
              ++ [Runner.Printed ("❌ Error running tests: " ++ exc_str e)])%list.
      rewrite app_assoc. apply last_last.
    + intros Hmk. unfold code.
      rewrite (process_run {| Runner.type := test_type; Runner.browser := browser;
                              Runner.headless := headless; Runner.parallel := parallel;
                              Runner.list := false; Runner.dashboard_only := false |}
                 _ _ eq_refl eq_refl Hmk Hrun).
      reflexivity.
Qed.

(** C7 as stated fails when the engine cannot be started. In a world
    without a [python] executable [subprocess.run] raises for the engine:
    [run_tests] prints the error and returns [False], the only command it
    spawned is the engine's, and the renderer is never invoked. *)
Lemma renderer_skipped_without_engine :
  Runner.subprocess_run example_world_no_python
    (Runner.pytest_cmd example_world_no_python "smoke" false)
  = Raise (OSError "python") /\
  fst (@Runner.run_tests plain_builtins example_world_no_python "smoke" "chrome" false false [])
  = Ok false /\
  spawned (snd (@Runner.run_tests plain_builtins example_world_no_python
                  "smoke" "chrome" false false []))
  = [Runner.pytest_cmd example_world_no_python "smoke" false] /\
  ~ @renderer_invoked plain_builtins example_world_no_python
      (snd (@Runner.run_tests plain_builtins example_world_no_python
              "smoke" "chrome" false false [])).
Proof.
  split; [reflexivity | ]. split; [reflexivity | ]. split; [reflexivity | ].
  unfold renderer_invoked.
  replace (spawned (snd (@Runner.run_tests plain_builtins example_world_no_python
                           "smoke" "chrome" false false [])))
    with [Runner.pytest_cmd example_world_no_python "smoke" false] by reflexivity.
  intros [Heq | []]. vm_compute in Heq. discriminate.
Qed.

End RunnerClaims.

(** ** The two counting paths *)

Section Counting.

Lemma count_status_cons (wanted : string) (r : Reporter.result) (rs : list Reporter.result) :
  Reporter.count_status wanted (r :: rs)
  = (if String.eqb (Reporter.status r) wanted then 1 else 0) + Reporter.count_status wanted rs.
Proof.
  unfold Reporter.count_status. cbn [filter].
  destruct (String.eqb (Reporter.status r) wanted); cbn [List.length]; lia.
Qed.

Lemma count_status_bounds (rs : list Reporter.result) :
  0 <= Reporter.count_status "PASSED" rs /\
  0 <= Reporter.count_status "FAILED" rs /\
  Reporter.count_status "PASSED" rs + Reporter.count_status "FAILED" rs
  <= Z.of_nat (List.length rs).
Proof.
  induction rs as [ | r rs IH]; [cbn; lia | ].
  rewrite !count_status_cons. cbn [List.length]. rewrite Nat2Z.inj_succ.
  destruct (String.eqb_spec (Reporter.status r) "PASSED") as [Hp | Hp];
    destruct (String.eqb_spec (Reporter.status r) "FAILED") as [Hf | Hf];
    try lia.
  rewrite Hp in Hf. discriminate.
Qed.

Lemma count_status_all (rs : list Reporter.result) :
  Forall counted rs <->
  Reporter.count_status "PASSED" rs + Reporter.count_status "FAILED" rs
  = Z.of_nat (List.length rs).
Proof.
  induction rs as [ | r rs IH]; [split; [reflexivity | constructor] | ].
  rewrite !count_status_cons. cbn [List.length]. rewrite Nat2Z.inj_succ.
  assert (Hb := count_status_bounds rs).
  destruct (String.eqb_spec (Reporter.status r) "PASSED") as [Hp | Hp];
    destruct (String.eqb_spec (Reporter.status r) "FAILED") as [Hf | Hf].
  - rewrite Hp in Hf. discriminate.
  - split.
    + intros Hall. inversion Hall; subst. apply IH in H2. lia.
    + intros Heq. constructor; [left; exact Hp | apply IH; lia].
  - split.
    + intros Hall. inversion Hall; subst. apply IH in H2. lia.
    + intros Heq. constructor; [right; exact Hf | apply IH; lia].
  - split.
    + intros Hall. inversion Hall as [ | ? ? [Hc | Hc] ?]; contradiction.
    + intros Heq. lia.
Qed.

(** The reporter's pass-rate text can always be computed. *)
Lemma pass_rate_text_ok (rs : list Reporter.result) :
  exists text, Reporter.pass_rate_text (Reporter.count_status "PASSED" rs) rs = Ok text.
Proof.
  destruct rs as [ | r rs]; [exists "0%"; reflexivity | ].
  unfold Reporter.pass_rate_text.
  assert (Hb := count_status_bounds (r :: rs)).
  destruct (percentage_correct (Reporter.count_status "PASSED" (r :: rs))
              (Z.of_nat (List.length (r :: rs)))) as (q & x & Hq & Hx & _).
  - cbn [List.length]. lia.
  - lia.
  - rewrite Hq. cbn [bind]. rewrite Hx. cbn [bind]. eexists. reflexivity.
Qed.

(** C8 (as amended). Both counting paths write integer counts. The hook
    writes the session's two counters as [total_tests] and [failed] and
    their difference as [passed]: [total_tests = passed + failed] always
    holds, and [passed] is non-negative exactly when no more failures
    than collected tests were counted. The reporter's counts are all
    non-negative with [passed + failed <= total_tests], and equality
    holds exactly when every recorded status is PASSED or FAILED. *)
Theorem summary_counts (s : Conftest.session) (exitstatus : Z) (end_time : string)
    (self : Reporter.TestReporter) (total_duration : string) :
  0 <= Conftest.testscollected s ->
  0 <= Conftest.testsfailed s ->
  (let summary := Conftest.pytest_sessionfinish s exitstatus end_time in
   total_tests summary = JInt (Conftest.testscollected s) /\
   passed summary = JInt (Conftest.testscollected s - Conftest.testsfailed s) /\
   failed summary = JInt (Conftest.testsfailed s) /\
   Conftest.testscollected s
   = (Conftest.testscollected s - Conftest.testsfailed s) + Conftest.testsfailed s /\
   (summary_invariant summary <-> Conftest.testsfailed s <= Conftest.testscollected s)) /\
  (exists (summary : dict) (n p f : Z),
     Reporter.summary_of self end_time total_duration = Ok summary /\
     total_tests summary = JInt n /\ passed summary = JInt p /\ failed summary = JInt f /\
     n = Z.of_nat (List.length (Reporter.results self)) /\
     0 <= p /\ 0 <= f /\ p + f <= n /\
     (summary_invariant summary <-> Forall counted (Reporter.results self))).
Proof.
  intros Hc Hf. split.
  - cbn zeta. repeat split; try reflexivity; try lia.
    + intros (t & p & f & Ht & Hp & Hfl & H0 & H1 & H2 & Hsum).
      cbn in Ht, Hp, Hfl. injection Ht as <-. injection Hp as <-. injection Hfl as <-. lia.
    + intros Hle. exists (Conftest.testscollected s),
        (Conftest.testscollected s - Conftest.testsfailed s), (Conftest.testsfailed s).
      repeat split; try reflexivity; lia.
  - unfold Reporter.summary_of.
    destruct (pass_rate_text_ok (Reporter.results self)) as [text ->]. cbn [bind].
    destruct (count_status_bounds (Reporter.results self)) as (Hp0 & Hf0 & Hle).
    eexists. exists (Z.of_nat (List.length (Reporter.results self))),
      (Reporter.count_status "PASSED" (Reporter.results self)),
      (Reporter.count_status "FAILED" (Reporter.results self)).
    split; [reflexivity | ]. repeat split; try reflexivity; try assumption.
    + intros (t & p & f & Ht & Hp & Hfl & H0 & H1 & H2 & Hsum).
      cbn in Ht, Hp, Hfl. injection Ht as <-. injection Hp as <-. injection Hfl as <-.
      apply count_status_all. lia.
    + intros Hall. apply count_status_all in Hall.
      eexists _, _, _. repeat split; try reflexivity; try assumption; lia.
Qed.

(** C8 as stated fails on both paths. A session in which the only module
    fails at collection has no collected test and one failure, and the
    hook writes [passed = -1]; a reporter holding one result recorded
    with another status writes one test, none passed and none failed. *)
Lemma summary_invariant_fails :
  ~ summary_invariant
      (Conftest.pytest_sessionfinish
         {| Conftest.testscollected := 0; Conftest.testsfailed := 1 |} 2 "") /\
  (exists summary,
     Reporter.summary_of
       (Reporter.add_result (Reporter.init "") "test_login" "SKIPPED" JNull ""
          (S754_zero false)) "" ""
     = Ok summary /\
     ~ summary_invariant summary).
Proof.
  split.
  - intros (t & p & f & Ht & Hp & Hfl & H0 & H1 & H2 & Hsum).
    cbn in Hp. injection Hp as <-. lia.
  - eexists. split; [vm_compute; reflexivity | ].
    intros (t & p & f & Ht & Hp & Hfl & H0 & H1 & H2 & Hsum).
    cbn in Ht, Hp, Hfl. injection Ht as <-. injection Hp as <-. injection Hfl as <-. lia.
Qed.

End Counting.

(** ** The claims at concrete inputs *)

Section Witnesses.

Lemma example_results_well_formed : well_formed example_results.
Proof.
  exists [("total_tests", JInt 9); ("passed", JInt 7); ("failed", JInt 2)], 9, 7, example_records.
  repeat split; try reflexivity. right. cbn. lia.
Qed.


Lemma pass_rate_spec_witness :
  (0 <= 7 /\ 0 <= 2 /\ 0 < 7 + 2) /\
  exists x : float,
    pass_rate (JInt (7 + 2)) (JInt 7) = Ok (JFloat x) /\
    is_finite x = true /\
    (Qabs (float_value x - inject_Z 7 / inject_Z (7 + 2) * 100) <= pow2 (-45))%Q.
Proof.
  split; [lia | ].
  exact (proj1 (@pass_rate_spec plain_builtins 7 2 ltac:(lia) ltac:(lia) ltac:(lia))).
Defined.




Lemma chart_data_witness :
  well_formed example_results /\
  exists text before : string,
    @generate_dashboard_html plain_builtins example_results example_now = Ok text /\
    text
    = before ++ results_chart_open_text ++ "7" ++ ", " ++ "2"
      ++ results_chart_close_text ++ categories_chart_text ++ document_close_text.
Proof.
  split; [exact example_results_well_formed | ].
  destruct (@chart_data plain_builtins example_results example_now) as (Hrenders & Hdata & _).
  destruct (Hrenders example_results_well_formed) as [text Htext].
  destruct (Hdata text Htext) as (passed & failed & before & Hp & Hf & Hsplit).
  injection Hp as <-. injection Hf as <-.
  exists text, before. split; [exact Htext | exact Hsplit].
Defined.


Lemma exit_code_follows_engine_witness :
  (Runner.list example_args = false /\ Runner.dashboard_only example_args = false) /\
  fst (@Runner.process plain_builtins example_world example_args) = 1.
Proof.
  split; [split; reflexivity | ].
  destruct (@exit_code_follows_engine plain_builtins example_world example_args
              eq_refl eq_refl) as (_ & _ & _ & Hfailed & _).
  apply (Hfailed {| Runner.stdout := "1 failed"; Runner.stderr := "";
                    Runner.returncode := 1 |}); [reflexivity | reflexivity | discriminate].
Defined.

Lemma dashboard_attempted_after_engine_witness :
  Runner.subprocess_run example_world (Runner.pytest_cmd example_world "smoke" false)
  = Ok {| Runner.stdout := "1 failed"; Runner.stderr := ""; Runner.returncode := 1 |} /\
  spawned (snd (@Runner.run_tests plain_builtins example_world "smoke" "chrome" false false []))
  = [Runner.pytest_cmd example_world "smoke" false; Runner.dashboard_cmd example_world] /\
  @dashboard_message plain_builtins example_world
  = "⚠️  Dashboard generation failed: "
    ++ @exc_str plain_builtins (OSError "generate_dashboard.py") /\
  fst (@Runner.process plain_builtins example_world example_args) = 1.
Proof.
  split; [reflexivity | ].
  destruct (@dashboard_attempted_after_engine plain_builtins example_world "smoke" "chrome"
              false false) as (Hcompleted & Hwarn & _ & _).
  destruct (Hcompleted
              {| Runner.stdout := "1 failed"; Runner.stderr := ""; Runner.returncode := 1 |}
              eq_refl) as (_ & Hspawned & _ & Hexit).
  split; [exact Hspawned | ]. split.
  - exact (Hwarn (OSError "generate_dashboard.py") eq_refl).
  - exact (Hexit eq_refl).
Defined.

Lemma summary_counts_witness :
  (0 <= Conftest.testscollected example_session /\
   0 <= Conftest.testsfailed example_session) /\
  summary_invariant (Conftest.pytest_sessionfinish example_session 1 "2026-01-04T09:05:03") /\
  exists summary : dict,
    Reporter.summary_of example_reporter "2026-01-04T09:05:03" "2.00" = Ok summary /\
    summary_invariant summary.
Proof.
  split; [cbn; lia | ].
  destruct (summary_counts example_session 1 "2026-01-04T09:05:03" example_reporter "2.00"
              ltac:(cbn; lia) ltac:(cbn; lia))
    as ((_ & _ & _ & _ & Hhook) & (summary & n & p & f & Hsummary & _ & _ & _ & _ & _ & _ & _ & Hrep)).
  split.
  - apply Hhook. cbn. lia.
  - exists summary. split; [exact Hsummary | ].
    apply Hrep. unfold example_reporter. cbn [Reporter.results Reporter.add_result Reporter.init List.app].
    constructor; [left; reflexivity | ].
    constructor; [right; reflexivity | constructor].
Defined.

End Witnesses.

(* ================================================================== *)
(** * Beyond the claims: errors, edges and compositions                 *)
(* ================================================================== *)

(** ** The dashboard: documents it cannot render *)

Section DashboardErrors.
Context `{Builtins}.

Lemma py_get_not_dict (v : json) (key : string) (default : json) :
  is_dict v = false -> py_get v key default = Raise AttributeError.
Proof. destruct v; try reflexivity; discriminate. Qed.

Lemma generate_dashboard_html_not_dict (r : results) (now : datetime) :
  is_dict (get (summary r) (JDict [])) = false ->
  generate_dashboard_html r now = Raise AttributeError.
Proof.
  intros Hd. unfold generate_dashboard_html.
  rewrite (py_get_not_dict _ _ _ Hd). reflexivity.
Qed.

(** X1. A report file that exists but cannot be read or parsed is not
    tolerated: [load_test_results] raises what [open] or [json.load]
    raised, the summary file first; a report document that is not a dict
    raises [AttributeError]; a summary document that is not a dict is
    loaded, and rendering it raises [AttributeError]. In each case [main]
    raises the same exception and writes no dashboard. *)
Theorem load_failures_propagate (fs : filesystem) (now : datetime) :
  (forall e, summary_file fs = Some (Raise e) ->
     load_test_results fs = Raise e /\ main fs now = Raise e) /\
  (forall e, (forall e', summary_file fs <> Some (Raise e')) ->
     report_file fs = Some (Raise e) ->
     load_test_results fs = Raise e /\ main fs now = Raise e) /\
  (forall doc, (forall e', summary_file fs <> Some (Raise e')) ->
     report_file fs = Some (Ok doc) -> is_dict doc = false ->
     load_test_results fs = Raise AttributeError /\ main fs now = Raise AttributeError) /\
  (forall doc r, summary_file fs = Some (Ok doc) -> is_dict doc = false ->
     load_test_results fs = Ok r ->
     summary r = Some doc /\
     generate_dashboard_html r now = Raise AttributeError /\
     main fs now = Raise AttributeError).
Proof.
  split; [ | split; [ | split]].
  - intros e Hs. unfold main, load_test_results. rewrite Hs. split; reflexivity.
  - intros e Hs Hr. unfold main, load_test_results. rewrite Hr.
    destruct (summary_file fs) as [[doc | e'] | ]; [ | exfalso; apply (Hs e'); reflexivity | ];
      split; reflexivity.
  - intros doc Hs Hr Hd. unfold main, load_test_results. rewrite Hr.
    destruct (summary_file fs) as [[sdoc | e'] | ]; [ | exfalso; apply (Hs e'); reflexivity | ];
      cbn [bind]; rewrite (py_get_not_dict _ _ _ Hd); split; reflexivity.
  - intros doc r Hs Hd Hload.
    assert (Hsum : summary r = Some doc).
    { unfold load_test_results in Hload. rewrite Hs in Hload. cbn [bind] in Hload.
      destruct (report_file fs) as [[rdoc | e'] | ]; cbn [bind] in Hload.
      - destruct (py_get rdoc "test_results" (JList [])); [ | discriminate].
        cbn [bind] in Hload. injection Hload as <-. reflexivity.
      - discriminate.
      - injection Hload as <-. reflexivity. }
    assert (Hgen : generate_dashboard_html r now = Raise AttributeError).
    { apply generate_dashboard_html_not_dict. rewrite Hsum. exact Hd. }
    split; [exact Hsum | ]. split; [exact Hgen | ].
    unfold main. rewrite Hload. cbn [bind]. rewrite Hgen. reflexivity.
Qed.

(** The loop over the detail list stops at the first item that is not a
    dict. *)
Lemma for_each_test_item_not_dict (tests : list json) (html_content : string) :
  Exists (fun v => is_dict v = false) tests ->
  for_each add_test_item tests html_content = Raise AttributeError.
Proof.
  revert html_content. induction tests as [ | test rest IH]; intros html_content Hex.
  - inversion Hex.
  - cbn [for_each]. destruct (is_dict test) eqn:Hd.
    + destruct test; try discriminate. cbn [add_test_item py_get bind].
      apply IH. inversion Hex as [? ? Hhead | ? ? Htail]; subst; [ | exact Htail].
      cbn in Hhead. discriminate.
    + unfold add_test_item. rewrite (py_get_not_dict _ _ _ Hd). reflexivity.
Qed.

(** X2. Rendering raises on ill-typed documents, in the order the code
    reads them: a summary that is not a dict raises [AttributeError]; a
    [total_tests] that is not a number raises [TypeError]; with a positive
    [total_tests], a [passed] that is not a number raises [TypeError];
    with a well-formed summary, a detail document that cannot be iterated
    raises [TypeError] and one with an item that is not a dict raises
    [AttributeError]. *)
Theorem render_rejects_ill_typed_documents (r : results) (now : datetime) :
  let summary := get (summary r) (JDict []) in
  let details := get (test_details r) (JList []) in
  (is_dict summary = false -> generate_dashboard_html r now = Raise AttributeError) /\
  (forall d, summary = JDict d ->
     as_number (dict_get d "total_tests" (JInt 0)) = None ->
     generate_dashboard_html r now = Raise TypeError) /\
  (forall d t, summary = JDict d ->
     dict_get d "total_tests" (JInt 0) = JInt t -> 0 < t ->
     as_number (dict_get d "passed" (JInt 0)) = None ->
     generate_dashboard_html r now = Raise TypeError) /\
  (forall d t p, summary = JDict d ->
     dict_get d "total_tests" (JInt 0) = JInt t ->
     dict_get d "passed" (JInt 0) = JInt p ->
     t <= 0 \/ Z.abs p <= t ->
     (py_iter details = Raise TypeError ->
      generate_dashboard_html r now = Raise TypeError) /\
     (forall items, py_iter details = Ok items ->
        Exists (fun v => is_dict v = false) items ->
        generate_dashboard_html r now = Raise AttributeError)).
Proof.
  intros summary details. split; [ | split; [ | split]].
  - apply generate_dashboard_html_not_dict.
  - intros d Hs Hn. unfold generate_dashboard_html. fold summary. rewrite Hs.
    cbn [py_get bind]. unfold pass_rate, py_gt_int. rewrite Hn. reflexivity.
  - intros d t Hs Ht Hpos Hn. unfold generate_dashboard_html. fold summary. rewrite Hs.
    cbn [py_get bind]. rewrite Ht. unfold pass_rate, py_gt_int. cbn [as_number bind].
    replace (t >? 0) with true by (symmetry; apply Z.gtb_lt; lia).
    unfold py_truediv. rewrite Hn. reflexivity.
  - intros d t p Hs Ht Hp Hrange.
    destruct (rate_of_counts t p Hrange) as [rate Hrate].
    assert (Hhead :
              generate_dashboard_html r now
              = (tests <- py_iter details ;;
                 html_content <- for_each add_test_item tests
                   (header_text (string_of_Z t) (string_of_Z p)
                      (py_str (dict_get d "failed" (JInt 0))) rate) ;;
                 let html_content := html_content ++ details_close_text in
                 html_content <-
                   match get (screenshots r) [] with
                   | [] => Ok html_content
                   | _ :: _ =>
                       let html_content := html_content ++ screenshots_open_text in
                       html_content <- for_each add_screenshot
                                         (firstn 12 (get (screenshots r) [])) html_content ;;
                       Ok (html_content ++ screenshots_close_text)
                   end ;;
                 Ok (html_content ++ footer_text (strftime_dashed now) (string_of_Z p)
                                       (py_str (dict_get d "failed" (JInt 0)))))).
    { unfold generate_dashboard_html. fold summary details. rewrite Hs.
      cbn [py_get bind]. rewrite Ht, Hp.
      destruct (pass_rate (JInt t) (JInt p)) as [rate' | e]; [ | discriminate].
      cbn [bind] in Hrate |- *. rewrite Hrate. cbn [bind]. reflexivity. }
    split.
    + intros Hiter. rewrite Hhead, Hiter. reflexivity.
    + intros items Hiter Hex. rewrite Hhead, Hiter. cbn [bind].
      rewrite (for_each_test_item_not_dict _ _ Hex). reflexivity.
Qed.

End DashboardErrors.

Lemma load_failures_propagate_witness :
  load_test_results example_filesystem_corrupt = Raise JSONDecodeError /\
  @main plain_builtins example_filesystem_corrupt example_now = Raise JSONDecodeError.
Proof.
  exact (proj1 (@load_failures_propagate plain_builtins example_filesystem_corrupt example_now)
           JSONDecodeError eq_refl).
Defined.

Lemma render_rejects_ill_typed_documents_witness :
  @generate_dashboard_html plain_builtins example_results_bad_item example_now
  = Raise AttributeError.
Proof.
  refine (proj2 (proj2 (proj2 (proj2
            (@render_rejects_ill_typed_documents plain_builtins example_results_bad_item
               example_now)))
            [("total_tests", JInt 9); ("passed", JInt 7); ("failed", JInt 2)] 9 7
            eq_refl eq_refl eq_refl _) [JDict []; JStr "oops"] eq_refl _).
  - right. cbn. lia.
  - right. left. reflexivity.
Defined.

(** ** The dashboard: the pass rate it shows *)

Section RateShown.
Context `{Builtins}.

Lemma round_half_even_close (num den : Z) :
  0 <= num -> 0 < den ->
  0 <= round_half_even num den /\
  2 * Z.abs (round_half_even num den * den - num) <= den.
Proof.
  intros Hnum Hden. unfold round_half_even.
  assert (Hdiv := Z.div_mod num den ltac:(lia)).
  assert (Hmod := Z.mod_pos_bound num den Hden).
  assert (Hq : 0 <= num / den) by (apply Z.div_pos; lia).
  set (q := num / den) in *. set (r := num mod den) in *.
  destruct (Z.compare_spec (2 * r) den) as [Heq | Hlt | Hgt].
  - destruct (Z.even q); split; nia.
  - split; nia.
  - split; nia.
Qed.

Lemma tenths_zero (e : Z) : tenths 0 e = 0.
Proof.
  unfold tenths. destruct (0 <=? e) eqn:He; [reflexivity | ].
  apply Z.leb_gt in He. unfold round_half_even. cbn [Z.mul].
  rewrite Z.div_0_l, Z.mod_0_l by (apply Z.pow_nonzero; lia).
  assert (Hden : 0 < 2 ^ (- e)) by (apply Z.pow_pos_nonneg; lia).
  cbn [Z.mul]. destruct (Z.compare_spec 0 (2 ^ (- e))); [lia | reflexivity | lia].
Qed.

(** What [format(f, ".1f")] shows for a non-negative float. *)
Lemma float_format_1f_assemble (m e : Z) :
  0 <= m -> float_format_1f (assemble false m e) = tenths_text (tenths m e).
Proof.
  intros Hm. destruct m as [ | p | p]; [ | | lia].
  - rewrite tenths_zero. reflexivity.
  - cbn [assemble float_format_1f]. unfold tenths. reflexivity.
Qed.

(** The tenths shown are the nearest to ten times the value. *)
Lemma tenths_close (m e : Z) :
  0 <= m ->
  0 <= tenths m e /\
  (Qabs (inject_Z (tenths m e) - 10 * (inject_Z m * pow2 e)) <= 1 # 2)%Q.
Proof.
  intros Hm. unfold tenths. destruct (0 <=? e) eqn:He.
  - apply Z.leb_le in He. split.
    + assert (0 <= 2 ^ e) by (apply Z.pow_nonneg; lia). nia.
    + rewrite (pow2_inject e He), !inject_Z_mult.
      setoid_replace (inject_Z m * inject_Z 10 * inject_Z (2 ^ e)
                      - 10 * (inject_Z m * inject_Z (2 ^ e)))%Q with 0%Q
        by (change (inject_Z 10) with 10%Q; ring).
      discriminate.
  - apply Z.leb_gt in He.
    assert (Hden : 0 < 2 ^ (- e)) by (apply Z.pow_pos_nonneg; lia).
    destruct (round_half_even_close (m * 10) (2 ^ (- e)) ltac:(lia) Hden) as [Hn Hclose].
    split; [exact Hn | ].
    set (n := round_half_even (m * 10) (2 ^ (- e))) in *.
    set (d := 2 ^ (- e)) in *.
    assert (Hpow : (pow2 e * inject_Z d == 1)%Q).
    { unfold d. rewrite <- (pow2_inject (- e)) by lia. rewrite <- pow2_add.
      replace (e + - e) with 0 by lia. reflexivity. }
    assert (HdQ : (0 < inject_Z d)%Q).
    { change 0%Q with (inject_Z 0). rewrite <- Zlt_Qlt. exact Hden. }
    assert (Hz1 : 2 * (m * 10) <= 2 * (n * d) + d) by lia.
    assert (Hz2 : 2 * (n * d) <= 2 * (m * 10) + d) by lia.
    rewrite Zle_Qle in Hz1, Hz2.
    rewrite inject_Z_plus, !inject_Z_mult in Hz1, Hz2.
    change (inject_Z 2) with 2%Q in Hz1, Hz2. change (inject_Z 10) with 10%Q in Hz1, Hz2.
    assert (HP := pow2_pos e).
    set (P := pow2 e) in *. set (D := inject_Z d) in *. set (N := inject_Z n) in *.
    set (M := inject_Z m) in *.
    apply Qabs_Qle_condition.
    clearbody P D N M. clear - Hz1 Hz2 Hpow HdQ HP.
    assert (Hl' : (2 * (M * 10) * P <= (2 * (N * D) + D) * P)%Q) by nra.
    assert (Hu' : (2 * (N * D) * P <= (2 * (M * 10) + D) * P)%Q) by nra.
    assert (E1 : ((2 * (N * D) + D) * P == 2 * N * (P * D) + (P * D))%Q) by ring.
    assert (E2 : (2 * (N * D) * P == 2 * N * (P * D))%Q) by ring.
    assert (E3 : ((2 * (M * 10) + D) * P == 20 * (M * P) + (P * D))%Q) by ring.
    rewrite E1 in Hl'. rewrite E2, E3 in Hu'. rewrite Hpow in Hl', Hu'.
    split; lra.
Qed.

(** [a / b * 100] on ints with [0 <= a <= b]: the result is a
    non-negative float, the exact percentage up to [2^-45]. *)
Lemma percentage_nonneg (a b : Z) :
  0 < b -> 0 <= a <= b ->
  exists q m e,
    int_true_divide a b = Ok q /\
    float_mul_int q 100 = Ok (assemble false m e) /\
    0 <= m /\
    (Qabs (inject_Z m * pow2 e - 100 * (inject_Z a / inject_Z b)) <= pow2 (-45))%Q.
Proof.
  intros Hb Hab. unfold int_true_divide.
  destruct (Z.eqb_spec b 0) as [Hb0 | _]; [lia | ].
  replace (b <? 0) with false by (symmetry; apply Z.ltb_ge; lia).
  unfold float_mul_int. rewrite int_to_float_100. cbn [bind].
  assert (H45 : (pow2 (-45) == 1 # 35184372088832)%Q) by reflexivity.
  destruct (Z.eqb_spec a 0) as [-> | Ha0].
  - exists (S754_zero false), 0, 0. rewrite float_mul_zero_hundred.
    split; [reflexivity | ]. split; [reflexivity | ]. split; [lia | ].
    unfold Qdiv. change (inject_Z 0) with 0%Q.
    setoid_replace (0 * pow2 0 - 100 * (0 * / inject_Z b))%Q with 0%Q by ring.
    rewrite H45. discriminate.
  - replace (a <? 0) with false by (symmetry; apply Z.ltb_ge; lia).
    set (pa := Z.to_pos (Z.abs a)). set (pb := Z.to_pos (Z.abs b)).
    assert (Hpa : Z.pos pa = a) by (unfold pa; rewrite Z2Pos.id; lia).
    assert (Hpb : Z.pos pb = b) by (unfold pb; rewrite Z2Pos.id; lia).
    destruct (SFdiv_int_correct false pa pb ltac:(lia)) as (m & e & Hm & He & Hdiv & Hclose).
    rewrite Hdiv, is_infinity_assemble by exact Hm.
    rewrite Hpa, Hpb in Hclose.
    set (y := (inject_Z a / inject_Z b)%Q) in *.
    assert (HbQ : (0 < inject_Z b)%Q) by (change 0%Q with (inject_Z 0); rewrite <- Zlt_Qlt; lia).
    assert (Hy : (0 <= y <= 1)%Q).
    { unfold y. split.
      - apply Qle_shift_div_l; [exact HbQ | ]. rewrite Qmult_0_l.
        change 0%Q with (inject_Z 0). rewrite <- Zle_Qle. lia.
      - apply Qle_shift_div_r; [exact HbQ | ]. rewrite Qmult_1_l, <- Zle_Qle. lia. }
    assert (H53 : (pow2 (-53) == 1 # 9007199254740992)%Q) by reflexivity.
    assert (H47 : (pow2 (-47) == 1 # 140737488355328)%Q) by reflexivity.
    apply Qabs_Qle_condition in Hclose. rewrite H53 in Hclose.
    exists (assemble false m e).
    destruct m as [ | pm | pm]; try lia; cbn [assemble] in *.
    + exists 0, 0. rewrite float_mul_zero_hundred.
      split; [reflexivity | ]. split; [reflexivity | ]. split; [lia | ].
      rewrite H45. change (inject_Z 0) with 0%Q in *.
      apply Qabs_Qle_condition. clearbody y. clear - Hclose Hy. split; lra.
    + set (v := (inject_Z (Z.pos pm) * pow2 e)%Q) in *.
      assert (Hv : (v <= 5 # 4)%Q) by (clearbody v y; clear - Hclose Hy; lra).
      destruct (SFmul_100_correct false pm e ltac:(lia) Hv) as (m' & e' & Hm' & Hmul & Hclose').
      fold v in Hclose'. rewrite Hmul.
      exists m', e'.
      split; [reflexivity | ]. split; [reflexivity | ]. split; [exact Hm' | ].
      rewrite H45.
      apply Qabs_Qle_condition in Hclose'. rewrite H47 in Hclose'.
      set (u := (inject_Z m' * pow2 e')%Q) in *.
      apply Qabs_Qle_condition. clearbody u v y. clear - Hclose Hclose' Hy.
      split; lra.
Qed.

(** The pass rate shown for [p] passed tests out of [t]: a number of
    tenths between 0 and 1000, within half a tenth (and the rounding of
    the float arithmetic) of the exact percentage. *)
Lemma rate_shown (t p : Z) :
  0 < t -> 0 <= p <= t ->
  exists n : Z,
    (rate <- pass_rate (JInt t) (JInt p) ;; py_format_1f rate) = Ok (tenths_text n) /\
    0 <= n <= 1000 /\
    (Qabs (inject_Z n / 10 - 100 * (inject_Z p / inject_Z t)) <= (1 # 20) + pow2 (-45))%Q.
Proof.
  intros Ht Hp.
  destruct (percentage_nonneg p t Ht Hp) as (q & m & e & Hq & Hr & Hm & Hclose).
  destruct (tenths_close m e Hm) as [Hn Htenths].
  exists (tenths m e). split; [ | split].
  - unfold pass_rate, py_gt_int. cbn [as_number bind].
    replace (t >? 0) with true by (symmetry; apply Z.gtb_lt; lia).
    unfold py_truediv. cbn [as_number]. rewrite Hq. cbn [bind]. rewrite Hr. cbn [bind py_format_1f].
    rewrite (float_format_1f_assemble m e Hm). reflexivity.
  - split; [exact Hn | ].
    assert (HtQ : (0 < inject_Z t)%Q) by (change 0%Q with (inject_Z 0); rewrite <- Zlt_Qlt; lia).
    assert (Hy : (inject_Z p / inject_Z t <= 1)%Q).
    { apply Qle_shift_div_r; [exact HtQ | ]. rewrite Qmult_1_l, <- Zle_Qle. lia. }
    assert (H45 : (pow2 (-45) == 1 # 35184372088832)%Q) by reflexivity.
    apply Qabs_Qle_condition in Hclose, Htenths. rewrite H45 in Hclose.
    assert (Hlt : (inject_Z (tenths m e) < inject_Z 1001)%Q).
    { change (inject_Z 1001) with 1001%Q.
      set (N := inject_Z (tenths m e)) in *. set (V := (inject_Z m * pow2 e)%Q) in *.
      set (y := (inject_Z p / inject_Z t)%Q) in *.
      clearbody N V y. clear - Hclose Htenths Hy. lra. }
    rewrite <- Zlt_Qlt in Hlt. lia.
  - assert (H45 : (pow2 (-45) == 1 # 35184372088832)%Q) by reflexivity.
    apply Qabs_Qle_condition in Hclose, Htenths. rewrite H45 in Hclose. rewrite H45.
    set (N := inject_Z (tenths m e)) in *. set (V := (inject_Z m * pow2 e)%Q) in *.
    set (y := (inject_Z p / inject_Z t)%Q) in *.
    apply Qabs_Qle_condition. unfold Qdiv. change (/ 10)%Q with (1 # 10)%Q.
    clearbody N V y. clear - Hclose Htenths.
    split; lra.
Qed.

(** The shown rate at the two ends of the range. *)
Lemma rate_shown_ends (t p n : Z) :
  0 < t ->
  (Qabs (inject_Z n / 10 - 100 * (inject_Z p / inject_Z t)) <= (1 # 20) + pow2 (-45))%Q ->
  (p = t -> n = 1000) /\ (p = 0 -> n = 0).
Proof.
  intros Ht Hclose.
  assert (HtQ : (0 < inject_Z t)%Q) by (change 0%Q with (inject_Z 0); rewrite <- Zlt_Qlt; lia).
  assert (H45 : (pow2 (-45) == 1 # 35184372088832)%Q) by reflexivity.
  apply Qabs_Qle_condition in Hclose. rewrite H45 in Hclose.
  unfold Qdiv in Hclose at 1 3. change (/ 10)%Q with (1 # 10)%Q in Hclose.
  split.
  - intros ->.
    assert (Hone : (inject_Z t / inject_Z t == 1)%Q) by (field; lra).
    rewrite Hone in Hclose.
    assert (Hlo : (inject_Z 999 < inject_Z n)%Q) by (change (inject_Z 999) with 999%Q; lra).
    assert (Hhi : (inject_Z n < inject_Z 1001)%Q) by (change (inject_Z 1001) with 1001%Q; lra).
    rewrite <- Zlt_Qlt in Hlo, Hhi. lia.
  - intros ->.
    assert (Hzero : (inject_Z 0 / inject_Z t == 0)%Q) by (field; lra).
    rewrite Hzero in Hclose.
    assert (Hlo : (inject_Z (-1) < inject_Z n)%Q) by (change (inject_Z (-1)) with (-1)%Q; lra).
    assert (Hhi : (inject_Z n < inject_Z 1)%Q) by (change (inject_Z 1) with 1%Q; lra).
    rewrite <- Zlt_Qlt in Hlo, Hhi. lia.
Qed.


End RateShown.


(** ** The dashboard: what [main] reads and writes *)

Section DashboardInputs.
Context `{Builtins}.


End DashboardInputs.


(** ** The orchestrator: the environment of the engine, and the two
    modes that run no test *)

Section RunnerModes.
Context `{Builtins}.
Variable w : Runner.world.

Lemma env_lookup_set_same (key value : string) (env : Runner.environ) :
  env_lookup (Runner.env_set key value env) key = Some value.
Proof.
  induction env as [ | [k v] rest IH]; cbn [Runner.env_set env_lookup].
  - rewrite String.eqb_refl. reflexivity.
  - destruct (String.eqb k key) eqn:Hk; cbn [env_lookup]; rewrite Hk; [reflexivity | exact IH].
Qed.

Lemma env_lookup_set_other (key value other : string) (env : Runner.environ) :
  other <> key ->
  env_lookup (Runner.env_set key value env) other = env_lookup env other.
Proof.
  intros Hne. induction env as [ | [k v] rest IH]; cbn [Runner.env_set env_lookup].
  - destruct (String.eqb_spec key other) as [Heq | _]; [congruence | reflexivity].
  - destruct (String.eqb_spec k key) as [Hk | Hk]; cbn [env_lookup].
    + destruct (String.eqb_spec k other) as [Ho | _]; [congruence | reflexivity].
    + destruct (String.eqb k other); [reflexivity | exact IH].
Qed.

(** X5. The engine is spawned with a copy of the orchestrator's
    environment in which [BROWSER] is the requested browser and, for a
    headless run, [HEADLESS] is ["true"]. For a run that is not headless
    [HEADLESS] is not cleared: the engine sees whatever the orchestrator
    inherited. Every other variable is passed on unchanged. *)
Theorem engine_environment (test_type browser : string) (headless parallel : bool) :
  let env := Runner.pytest_env w browser headless in
  env_lookup env "BROWSER" = Some browser /\
  env_lookup env "HEADLESS"
  = (if headless then Some "true" else env_lookup (Runner.os_environ w) "HEADLESS") /\
  (forall key, key <> "BROWSER" -> key <> "HEADLESS" ->
     env_lookup env key = env_lookup (Runner.os_environ w) key) /\
  (forall t,
     In (Runner.Spawned (Runner.pytest_cmd w test_type parallel) (Some env))
        (snd (Runner.run_tests w test_type browser headless parallel t))).
Proof.
  intros env. unfold env, Runner.pytest_env. split; [ | split; [ | split]].
  - apply env_lookup_set_same.
  - rewrite env_lookup_set_other by discriminate.
    destruct headless; [apply env_lookup_set_same | reflexivity].
  - intros key Hb Hh. rewrite env_lookup_set_other by exact Hb.
    destruct headless; [apply env_lookup_set_other; exact Hh | reflexivity].
  - intros t.
    destruct (Runner.subprocess_run w (Runner.pytest_cmd w test_type parallel))
      as [result | e] eqn:Hengine.
    + destruct (run_tests_completed w test_type browser headless parallel result t Hengine)
        as (before & between & after & -> & _).
      cbn [snd]. apply in_or_app. right. apply in_or_app. right. left. reflexivity.
    + destruct (run_tests_raised w test_type browser headless parallel e t Hengine)
        as (before & -> & _).
      cbn [snd]. apply in_or_app. right. apply in_or_app. right. left. reflexivity.
Qed.

(** X6. With [--dashboard-only] (and without [--list]) the orchestrator
    spawns the renderer and nothing else, runs no test, and exits with
    code 0 whatever became of the renderer: a renderer that cannot be
    started or that fails only changes the line printed last. *)
Theorem dashboard_only_run (a : Runner.args) :
  Runner.list a = false ->
  Runner.dashboard_only a = true ->
  Runner.mkdirs w = Ok tt ->
  Runner.process w a
  = (0, [ Runner.Printed "📊 Generating test dashboard...";
          Runner.Spawned (Runner.dashboard_cmd w) None;
          Runner.Printed (dashboard_message w) ]) /\
  spawned (snd (Runner.process w a)) = [Runner.dashboard_cmd w].
Proof.
  intros Hlist Honly Hmk.
  assert (Hp : Runner.process w a
               = (0, [ Runner.Printed "📊 Generating test dashboard...";
                       Runner.Spawned (Runner.dashboard_cmd w) None;
                       Runner.Printed (dashboard_message w) ])).
  { unfold Runner.process, Runner.main, Runner.abind, Runner.lift.
    rewrite Hmk, Hlist, Honly. rewrite generate_dashboard_trace. reflexivity. }
  split; [exact Hp | rewrite Hp; reflexivity].
Qed.

Lemma print_each_trace (lines : list string) (t : Runner.trace) :
  Runner.print_each lines t
  = (Ok tt, (t ++ map (fun test => Runner.Printed ("  - " ++ str_strip test)) lines)%list).
Proof.
  revert t. induction lines as [ | line rest IH]; intros t.
  - cbn. rewrite app_nil_r. reflexivity.
  - cbn [Runner.print_each map]. unfold Runner.abind, Runner.print. rewrite IH.
    rewrite <- app_assoc. reflexivity.
Qed.

Lemma spawned_printed (lines : list string) : spawned (map Runner.Printed lines) = [].
Proof. induction lines as [ | line rest IH]; [reflexivity | exact IH]. Qed.

Lemma listing_empty : listing "" = [].
Proof. reflexivity. Qed.

(** Everything [list_available_tests] does. *)
Lemma list_available_tests_trace :
  Runner.list_available_tests w []
  = (Ok tt,
     (list_header
      ++ Runner.Spawned Runner.collect_cmd None
      :: match Runner.subprocess_run w Runner.collect_cmd with
         | Ok result => map Runner.Printed (listing (Runner.stdout result))
         | Raise e => [Runner.Printed ("⚠️  Could not collect test list: " ++ exc_str e)]
         end)%list).
Proof.
  unfold Runner.list_available_tests.
  repeat (rewrite bind_print; cbv beta).
  unfold Runner.try_except, Runner.abind at 1, Runner.run.
  destruct (Runner.subprocess_run w Runner.collect_cmd) as [result | e].
  - cbn [andb]. unfold Runner.when, Runner.nonempty.
    destruct (String.eqb_spec (Runner.stdout result) "") as [-> | Hne]; cbn [negb].
    + unfold Runner.ret. rewrite listing_empty. reflexivity.
    + unfold Runner.abind. rewrite print_each_trace. unfold listing, collected_tests.
      cbv zeta.
      destruct (10 <? Z.of_nat (List.length
                  (filter (contains "::test_") (Runner.split_lines (Runner.stdout result))))).
      * unfold Runner.print. f_equal. cbn [List.app].
        rewrite map_app, map_map. reflexivity.
      * unfold Runner.ret. f_equal. cbn [List.app].
        rewrite map_app, map_map, app_nil_r. reflexivity.
  - unfold Runner.print. reflexivity.
Qed.

(** X7. With [--list] the orchestrator prints the test types, spawns the
    collection and nothing else (also when [--dashboard-only] is given as
    well), and exits with code 0 even when the collection cannot be run,
    which only prints a warning. Of the output lines that contain
    [::test_] it prints the first ten, each stripped, and then how many
    more there are; when there are at most ten it prints them all. The
    exit code of the collection is not looked at. *)
Theorem list_run (a : Runner.args) :
  Runner.list a = true ->
  Runner.mkdirs w = Ok tt ->
  fst (Runner.process w a) = 0 /\
  spawned (snd (Runner.process w a)) = [Runner.collect_cmd] /\
  (forall result, Runner.subprocess_run w Runner.collect_cmd = Ok result ->
     snd (Runner.process w a)
     = (list_header ++ Runner.Spawned Runner.collect_cmd None
        :: map Runner.Printed (listing (Runner.stdout result)))%list) /\
  (forall e, Runner.subprocess_run w Runner.collect_cmd = Raise e ->
     snd (Runner.process w a)
     = (list_header
        ++ [Runner.Spawned Runner.collect_cmd None;
            Runner.Printed ("⚠️  Could not collect test list: " ++ exc_str e)])%list) /\
  (forall out : string,
     (List.length (listing out) <= 11)%nat /\
     ((List.length (collected_tests out) <= 10)%nat ->
      listing out = map (fun test => "  - " ++ str_strip test) (collected_tests out))).
Proof.
  intros Hlist Hmk.
  assert (Hp : Runner.process w a
               = (0, snd (Runner.list_available_tests w []))).
  { unfold Runner.process, Runner.main, Runner.abind, Runner.lift.
    rewrite Hmk, Hlist. rewrite list_available_tests_trace. reflexivity. }
  rewrite Hp, list_available_tests_trace. cbn [fst snd].
  split; [reflexivity | ]. split; [ | split; [ | split]].
  - rewrite spawned_app, spawned_spawn.
    destruct (Runner.subprocess_run w Runner.collect_cmd) as [result | e]; [ | reflexivity].
    rewrite spawned_printed. reflexivity.
  - intros result ->. reflexivity.
  - intros e ->. reflexivity.
  - intros out. unfold listing. cbv zeta. split.
    + rewrite length_app, length_map.
      assert (Hfirst := firstn_le_length 10 (collected_tests out)).
      destruct (10 <? Z.of_nat (List.length (collected_tests out))); cbn [List.length]; lia.
    + intros Hlen. replace (10 <? Z.of_nat (List.length (collected_tests out))) with false
        by (symmetry; apply Z.ltb_ge; lia).
      rewrite firstn_all2 by exact Hlen. apply app_nil_r.
Qed.

End RunnerModes.

Lemma dashboard_only_run_witness :
  @Runner.process plain_builtins example_world example_args_dashboard_only
  = (0, [ Runner.Printed "📊 Generating test dashboard...";
          Runner.Spawned (Runner.dashboard_cmd example_world) None;
          Runner.Printed (@dashboard_message plain_builtins example_world) ]).
Proof.
  exact (proj1 (@dashboard_only_run plain_builtins example_world example_args_dashboard_only
                  eq_refl eq_refl eq_refl)).
Defined.

Lemma list_run_witness :
  fst (@Runner.process plain_builtins example_world_collecting example_args_list) = 0 /\
  printed (snd (@Runner.process plain_builtins example_world_collecting example_args_list))
  = (printed list_header
     ++ [ "  - t.py::test_01"; "  - t.py::test_02"; "  - t.py::test_03"; "  - t.py::test_04";
          "  - t.py::test_05"; "  - t.py::test_06"; "  - t.py::test_07"; "  - t.py::test_08";
          "  - t.py::test_09"; "  - t.py::test_10"; "  ... and 2 more tests" ])%list.
Proof.
  destruct (@list_run plain_builtins example_world_collecting example_args_list
              eq_refl eq_refl) as (Hcode & _ & Hout & _).
  split; [exact Hcode | ].
  rewrite (Hout _ eq_refl). reflexivity.
Defined.

(** ** The orchestrator: the summary block *)

Section Uniform.
Context `{Builtins}.
Variable w : Runner.world.

Lemma uniform_ret {A : Type} (a : A) : uniform (Runner.ret a).
Proof. intros t. cbn. rewrite app_nil_r. reflexivity. Qed.

Lemma uniform_lift {A : Type} (r : pyresult A) : uniform (Runner.lift r).
Proof. intros t. cbn. rewrite app_nil_r. reflexivity. Qed.

Lemma uniform_print (line : string) : uniform (Runner.print line).
Proof. intros t. reflexivity. Qed.

Lemma uniform_run (cmd : list string) (env : option Runner.environ) (check : bool) :
  uniform (Runner.run w cmd env check).
Proof.
  intros t. unfold Runner.run.
  destruct (Runner.subprocess_run w cmd) as [result | e]; [ | reflexivity].
  destruct (check && negb (Runner.returncode result =? 0)); reflexivity.
Qed.

Lemma uniform_bind {A B : Type} (m : Runner.action A) (k : A -> Runner.action B) :
  uniform m -> (forall a, uniform (k a)) -> uniform (Runner.abind m k).
Proof.
  intros Hm Hk t. unfold Runner.abind. rewrite (Hm t).
  destruct (m []) as [[a | e] d]; cbn [fst snd].
  - rewrite (Hk a (t ++ d)%list), (Hk a d). cbn [fst snd]. rewrite app_assoc. reflexivity.
  - reflexivity.
Qed.

Lemma uniform_try_except {A : Type} (m : Runner.action A) (handler : pyexc -> Runner.action A) :
  uniform m -> (forall e, uniform (handler e)) -> uniform (Runner.try_except m handler).
Proof.
  intros Hm Hh t. unfold Runner.try_except. rewrite (Hm t).
  destruct (m []) as [[a | e] d]; cbn [fst snd].
  - reflexivity.
  - rewrite (Hh e (t ++ d)%list), (Hh e d). cbn [fst snd]. rewrite app_assoc. reflexivity.
Qed.

Lemma uniform_when (b : bool) (m : Runner.action unit) : uniform m -> uniform (Runner.when b m).
Proof. intros Hm. destruct b; [exact Hm | apply uniform_ret]. Qed.

Lemma uniform_print_results (loaded : pyresult json) : uniform (Runner.print_results loaded).
Proof.
  unfold Runner.print_results.
  apply uniform_try_except; [ | intros e; apply uniform_print].
  repeat first
    [ apply uniform_bind; [ | intros ? ]
    | apply uniform_lift
    | apply uniform_when
    | apply uniform_print ].
Qed.

End Uniform.

Section ConsoleSummary.
Context `{Builtins}.
Variable w : Runner.world.

(** [print_summary] prints the head, what [print_results] prints for the
    summary file, and the closing rule. *)
Lemma print_summary_printed (exit_code : Z) (report_name : string) :
  Runner.print_summary w exit_code report_name []
  = (Ok tt,
     (map Runner.Printed (summary_head w exit_code report_name)
      ++ match Runner.summary_json w with
         | Some loaded => snd (Runner.print_results loaded [])
         | None => []
         end
      ++ [Runner.Printed rule])%list).
Proof.
  unfold Runner.print_summary.
  repeat (rewrite bind_print; cbv beta).
  cbn [List.app].
  destruct (Runner.summary_json w) as [loaded | ].
  - unfold Runner.abind at 1. rewrite uniform_print_results.
    destruct (silent_print_results loaded []) as (delta & Hdelta & _).
    rewrite Hdelta. cbn [fst snd List.app]. unfold Runner.print.
    reflexivity.
  - reflexivity.
Qed.

Lemma printed_app (a b : Runner.trace) : printed (a ++ b)%list = (printed a ++ printed b)%list.
Proof. unfold printed. apply flat_map_app. Qed.

Lemma printed_map (lines : list string) : printed (map Runner.Printed lines) = lines.
Proof. induction lines as [ | line rest IH]; [reflexivity | cbn; f_equal; exact IH]. Qed.




(** X9. [print_summary] never raises and always ends with the closing
    rule. Without a summary file it prints no results; a summary file that
    cannot be read or parsed, or that holds no dict, costs one warning
    line; a summary without a positive [total_tests] is printed without a
    pass rate (where the dashboard shows 0.0%), with [N/A] for each count
    that is missing; and a [total_tests] that is not a number is printed,
    followed by a warning. *)
Theorem summary_block_tolerates (exit_code : Z) (report_name : string) :
  let out := Runner.print_summary w exit_code report_name [] in
  let head := summary_head w exit_code report_name in
  let warning e := "⚠️  Could not load test summary: " ++ exc_str e in
  fst out = Ok tt /\
  (Runner.summary_json w = None -> printed (snd out) = (head ++ [rule])%list) /\
  (forall e, Runner.summary_json w = Some (Raise e) ->
     printed (snd out) = (head ++ [warning e; rule])%list) /\
  (forall v, Runner.summary_json w = Some (Ok v) -> is_dict v = false ->
     printed (snd out)
     = (head ++ [String "010"%char "📈 Results:"; warning AttributeError; rule])%list) /\
  (forall d, Runner.summary_json w = Some (Ok (JDict d)) ->
     let shown key := py_str (dict_get d key (JStr "N/A")) in
     let counts := [ String "010"%char "📈 Results:";
                     "  Total Tests: " ++ shown "total_tests";
                     "  Passed: " ++ shown "passed";
                     "  Failed: " ++ shown "failed" ] in
     (forall t, dict_get d "total_tests" (JInt 0) = JInt t -> t <= 0 ->
        printed (snd out) = (head ++ counts ++ [rule])%list) /\
     (as_number (dict_get d "total_tests" (JInt 0)) = None ->
        printed (snd out) = (head ++ counts ++ [warning TypeError; rule])%list)).
Proof.
  intros out head warning. unfold out. rewrite print_summary_printed. cbn [fst snd].
  split; [reflexivity | ]. split; [ | split; [ | split]].
  - intros ->. rewrite printed_app, printed_map. reflexivity.
  - intros e ->. rewrite !printed_app, printed_map. reflexivity.
  - intros v -> Hv. rewrite !printed_app, printed_map.
    destruct v; try discriminate; reflexivity.
  - intros d ->. cbv zeta. split.
    + intros t Ht Hle. rewrite !printed_app, printed_map. f_equal.
      unfold Runner.print_results, Runner.try_except.
      unfold Runner.abind, Runner.lift, Runner.print. cbn [py_get List.app].
      rewrite Ht. cbn [py_gt_int as_number].
      replace (t >? 0) with false by (symmetry; rewrite Z.gtb_ltb; apply Z.ltb_ge; lia).
      reflexivity.
    + intros Hn. rewrite !printed_app, printed_map. f_equal.
      unfold Runner.print_results, Runner.try_except.
      unfold Runner.abind, Runner.lift, Runner.print. cbn [py_get List.app].
      unfold py_gt_int. rewrite Hn. reflexivity.
Qed.

End ConsoleSummary.


(** ** From the reports to the dashboard *)

Section HookToDashboard.
Context `{Builtins}.


End HookToDashboard.


Section ReportToDashboard.
Context `{Builtins}.



End ReportToDashboard.


Section ReporterRate.

(** The rate of the reporter is the rate of the dashboard. *)
Lemma pass_rate_text_dashboard (rs : list Reporter.result) (p : Z) (text : string) :
  rs <> [] ->
  (rate <- pass_rate (JInt (Z.of_nat (List.length rs))) (JInt p) ;; py_format_1f rate) = Ok text ->
  Reporter.pass_rate_text p rs = Ok (text ++ "%").
Proof.
  intros Hne. destruct rs as [ | r rs]; [contradiction | ].
  unfold Reporter.pass_rate_text, pass_rate, py_gt_int. cbn [as_number bind].
  replace (Z.of_nat (List.length (r :: rs)) >? 0) with true
    by (symmetry; apply Z.gtb_lt; cbn [List.length]; lia).
  unfold py_truediv. cbn [as_number].
  destruct (int_true_divide p (Z.of_nat (List.length (r :: rs)))) as [q | e];
    cbn [bind]; [ | discriminate].
  destruct (float_mul_int q 100) as [x | e]; cbn [bind py_format_1f]; [ | discriminate].
  intros [= <-]. reflexivity.
Qed.

(** X12. The pass rate in the summary of the reporter is the text that
    the dashboard shows for the same counts, followed by [%]: a number of
    tenths within 0.05 of the exact percentage, [100.0%] when every
    result is [PASSED] and [0.0%] when none is. Only an empty reporter
    differs: it writes [0%] where the dashboard shows [0.0]. *)
Theorem reporter_rate_is_the_dashboard_rate (self : Reporter.TestReporter)
    (end_time total_duration : string) :
  let total := Z.of_nat (List.length (Reporter.results self)) in
  let passed := Reporter.count_status "PASSED" (Reporter.results self) in
  exists (summary : dict) (shown : string),
    Reporter.summary_of self end_time total_duration = Ok summary /\
    (rate <- pass_rate (JInt total) (JInt passed) ;; py_format_1f rate) = Ok shown /\
    lookup summary "pass_rate" = Some (JStr (if total =? 0 then "0%" else shown ++ "%")) /\
    (total = 0 -> shown = "0.0") /\
    (0 < total ->
     exists n, shown = tenths_text n /\ 0 <= n <= 1000 /\
       (Qabs (inject_Z n / 10 - 100 * (inject_Z passed / inject_Z total))
        <= (1 # 20) + pow2 (-45))%Q /\
       (passed = total -> n = 1000) /\ (passed = 0 -> n = 0)).
Proof.
  intros total passed.
  assert (Hb := count_status_bounds (Reporter.results self)).
  destruct (Reporter.results self) as [ | r rs] eqn:Hrs.
  - exists [ ("total_tests", JInt 0); ("passed", JInt 0); ("failed", JInt 0);
             ("pass_rate", JStr "0%"); ("start_time", JStr (Reporter.start_time self));
             ("end_time", JStr end_time); ("duration", JStr (total_duration ++ "s")) ], "0.0".
    split; [unfold Reporter.summary_of; rewrite Hrs; reflexivity | ].
    split; [reflexivity | ]. split; [reflexivity | ]. split; [reflexivity | ].
    unfold total. cbn [List.length Z.of_nat]. lia.
  - assert (Htotal : 0 < total) by (unfold total; cbn [List.length]; lia).
    destruct (rate_shown total passed Htotal) as (n & Hshown & Hn & Hclose);
      [unfold total, passed; lia | ].
    assert (Hne : r :: rs <> []) by discriminate.
    assert (Htext := pass_rate_text_dashboard (r :: rs) passed (tenths_text n) Hne Hshown).
    eexists. exists (tenths_text n).
    split; [unfold Reporter.summary_of; rewrite Hrs; cbv zeta; fold passed; rewrite Htext;
            reflexivity | ].
    split; [exact Hshown | ]. split.
    + replace (total =? 0) with false by (symmetry; apply Z.eqb_neq; lia). reflexivity.
    + split; [lia | ]. intros _. exists n. split; [reflexivity | ]. split; [exact Hn | ].
      split; [exact Hclose | exact (rate_shown_ends total passed n Htotal Hclose)].
Qed.

End ReporterRate.

(** ** Screenshots: the hook, the pages and the dashboard *)

Import Selenium.

Lemma string_length_app (a b : string) :
  String.length (a ++ b) = (String.length a + String.length b)%nat.
Proof. induction a as [ | c a IH]; [reflexivity | cbn [String.append String.length]; rewrite IH; reflexivity]. Qed.

Lemma substring_app_r (a b : string) :
  substring (String.length a) (String.length b) (a ++ b) = b.
Proof.
  induction a as [ | c a IH]; [apply substring_whole | ].
  cbn [String.length String.append substring]. exact IH.
Qed.

Lemma ends_with_app (suffix s : string) : Dashboard.ends_with suffix (s ++ suffix) = true.
Proof.
  unfold Dashboard.ends_with. rewrite string_length_app.
  replace (String.length s + String.length suffix - String.length suffix)%nat
    with (String.length s) by lia.
  rewrite substring_app_r, String.eqb_refl, andb_true_r.
  apply Nat.leb_le. lia.
Qed.

Section HookFacts.
Variable save_screenshot : Conftest.driver -> string -> outcome bool.
Variable now : datetime.

(** X13. The hook asks for at most one screenshot, and only for a
    failed [call] phase with a driver at hand: the [driver] attribute of
    the test instance when it has one (a [None] there is not made up for
    by the fixture), else the [chrome_driver] fixture when the item names
    it. The report keeps its phase and outcome; it gains one entry of
    extras exactly when a screenshot was asked for, the driver returned
    and the report has extras. The hook raises only what the driver
    raised on the screenshot, or [KeyError] for a fixture that is named
    but has no value. *)
Theorem hook_screenshots_failed_calls_only (it : Conftest.item) (rep : Conftest.report) :
  let run := Conftest.pytest_runtest_makereport save_screenshot now it rep in
  let file := failure_file (Conftest.name it) now in
  (snd run = [] \/ exists d, snd run = [(d, file)]) /\
  (forall d f, In (d, f) (snd run) ->
     Conftest.when rep = "call" /\ Conftest.failed rep = true /\ f = file /\
     match Conftest.instance_driver it with
     | Some found => found = Some d
     | None =>
         In "chrome_driver" (Conftest.fixturenames it) /\
         Conftest.funcarg (Conftest.funcargs it) "chrome_driver" = Returned (Some d)
     end) /\
  (forall rep', fst run = Returned rep' ->
     Conftest.when rep' = Conftest.when rep /\
     Conftest.failed rep' = Conftest.failed rep /\
     match snd run, Conftest.extra rep with
     | _ :: _, Some entries =>
         Conftest.extra rep' = Some (entries ++ [screenshot_extra file])%list
     | _, _ => Conftest.extra rep' = Conftest.extra rep
     end) /\
  (forall e, fst run = Raised e ->
     (exists d, snd run = [(d, file)] /\ save_screenshot d file = Raised e) \/
     (snd run = [] /\ e = KeyError "chrome_driver")).
Proof.
  intros run file. unfold run, Conftest.pytest_runtest_makereport.
  change ("screenshots/failure_" ++ Conftest.name it ++ "_" ++ strftime_compact now ++ ".png")
    with file.
  change (JDict [("name", JStr "Screenshot"); ("path", JStr file); ("type", JStr "image")])
    with (screenshot_extra file).
  destruct (String.eqb_spec (Conftest.when rep) "call") as [Hwhen | Hwhen]; cbn [andb].
  2: { split; [left; reflexivity | ]. split; [intros d f [] | ].
       split; [intros rep' [= <-]; cbn; repeat split; auto | intros e [=]]. }
  destruct (Conftest.failed rep) eqn:Hfailed.
  2: { split; [left; reflexivity | ]. split; [intros d f [] | ].
       split; [intros rep' [= <-]; cbn; repeat split; auto | intros e [=]]. }
  assert (Hfunc : forall args e,
             Conftest.funcarg args "chrome_driver" = Raised e -> e = KeyError "chrome_driver").
  { induction args as [ | [k v] args IH]; intros e; cbn [Conftest.funcarg].
    - intros [= <-]. reflexivity.
    - destruct (String.eqb k "chrome_driver"); [discriminate | apply IH]. }
  assert (Hsaved : forall d b,
    let run := match save_screenshot d file with
               | Raised e => (Raised e, [(d, file)])
               | Returned _ =>
                   (Returned
                      match Conftest.extra rep with
                      | Some entries =>
                          {| Conftest.when := Conftest.when rep;
                             Conftest.failed := b;
                             Conftest.extra :=
                               Some (entries ++ [screenshot_extra file])%list |}
                      | None => rep
                      end, [(d, file)])
               end in
    snd run = [(d, file)] /\
    (forall rep', fst run = Returned rep' ->
       Conftest.when rep' = Conftest.when rep /\
       (Conftest.failed rep = b -> Conftest.failed rep' = b) /\
       match Conftest.extra rep with
       | Some entries => Conftest.extra rep' = Some (entries ++ [screenshot_extra file])%list
       | None => Conftest.extra rep' = Conftest.extra rep
       end) /\
    (forall e, fst run = Raised e -> save_screenshot d file = Raised e)).
  { intros d b. cbv zeta. destruct (save_screenshot d file) as [written | e]; cbn [fst snd].
    - split; [reflexivity | ]. split; [ | intros e [=]].
      intros rep' [= <-]. destruct (Conftest.extra rep) eqn:Hextra; cbn; auto.
    - split; [reflexivity | ]. split; [intros rep' [=] | intros e' [= <-]; reflexivity]. }
  destruct (Conftest.instance_driver it) as [[d | ] | ] eqn:Hinst.
  - destruct (Hsaved d true) as (Hsnd & Hret & Hraise). cbv zeta in Hsnd, Hret, Hraise.
    rewrite Hsnd.
    split; [right; exists d; reflexivity | ]. split.
    + intros d' f [[= <- <-] | []]. auto.
    + split; [ | intros e He; left; exists d; split; [reflexivity | exact (Hraise e He)]].
      intros rep' Hrep'. destruct (Hret rep' Hrep') as (H1 & H2 & H3).
      split; [exact H1 | ]. split; [exact (H2 Hfailed) | ].
      destruct (Conftest.extra rep); exact H3.
  - split; [left; reflexivity | ]. split; [intros d f [] | ].
    split; [intros rep' [= <-]; cbn; repeat split; auto | intros e [=]].
  - destruct (existsb (String.eqb "chrome_driver") (Conftest.fixturenames it)) eqn:Hfix.
    2: { split; [left; reflexivity | ]. split; [intros d f [] | ].
         split; [intros rep' [= <-]; cbn; repeat split; auto | intros e [=]]. }
    assert (Hin : In "chrome_driver" (Conftest.fixturenames it)).
    { apply existsb_exists in Hfix. destruct Hfix as (x & Hx & Heq).
      apply String.eqb_eq in Heq. subst x. exact Hx. }
    destruct (Conftest.funcarg (Conftest.funcargs it) "chrome_driver") as [[d | ] | e] eqn:Harg.
    + destruct (Hsaved d true) as (Hsnd & Hret & Hraise). cbv zeta in Hsnd, Hret, Hraise.
      rewrite Hsnd.
      split; [right; exists d; reflexivity | ]. split.
      * intros d' f [[= <- <-] | []]. auto.
      * split; [ | intros e He; left; exists d; split; [reflexivity | exact (Hraise e He)]].
        intros rep' Hrep'. destruct (Hret rep' Hrep') as (H1 & H2 & H3).
        split; [exact H1 | ]. split; [exact (H2 Hfailed) | ].
        destruct (Conftest.extra rep); exact H3.
    + split; [left; reflexivity | ]. split; [intros d f [] | ].
      split; [intros rep' [= <-]; cbn; repeat split; auto | intros e [=]].
    + split; [left; reflexivity | ]. split; [intros d f [] | ].
      split; [intros rep' [=] | ].
      intros e' [= <-]. right. split; [reflexivity | exact (Hfunc _ _ Harg)].
Qed.

End HookFacts.

Lemma hook_file (save_screenshot : Conftest.driver -> string -> outcome bool) (now : datetime)
    (it : Conftest.item) (rep : Conftest.report) (d : Conftest.driver) (f : string) :
  In (d, f) (snd (Conftest.pytest_runtest_makereport save_screenshot now it rep)) ->
  f = failure_file (Conftest.name it) now.
Proof.
  unfold Conftest.pytest_runtest_makereport, failure_file.
  repeat match goal with
         | |- context [if ?b then _ else _] => destruct b
         | |- context [match ?x with _ => _ end] => destruct x
         end;
    cbn [snd In]; intros [[= <- <-] | []] || intros []; reflexivity.
Qed.

Lemma glob_suffix_app (suffix stem : string) (entries : list string) :
  In (stem ++ suffix) entries -> In (stem ++ suffix) (Dashboard.glob_suffix suffix entries).
Proof.
  intros Hin. apply filter_In. split; [exact Hin | apply ends_with_app].
Qed.

Section ScreenshotNames.
Context `{Builtins} `{Runtime}.

(** X14. The screenshots of the dashboard are the entries of the
    screenshot directory that end in [.png], and every file that the hook
    or [take_screenshot] asks the driver to write is named
    [screenshots/] followed by such an entry: once in the directory, it
    is listed. [take_screenshot] returns a name only after it asked the
    driver for that file. *)
Theorem saved_screenshots_are_listed :
  (forall fs r, Dashboard.load_test_results fs = Ok r ->
     Dashboard.screenshots r = Some (listed_screenshots fs)) /\
  (forall save_screenshot now it rep d f,
     In (d, f) (snd (Conftest.pytest_runtest_makereport save_screenshot now it rep)) ->
     exists entry,
       f = "screenshots/" ++ entry /\
       forall fs entries,
         Dashboard.screenshot_dir fs = Some entries -> In entry entries ->
         In entry (listed_screenshots fs)) /\
  (forall (w : world) name st f st',
     Pages.take_screenshot w name st = (Returned f, st') ->
     In (SavedScreenshot f) (Pages.past st') /\
     exists entry,
       f = "screenshots/" ++ entry /\
       forall fs entries,
         Dashboard.screenshot_dir fs = Some entries -> In entry entries ->
         In entry (listed_screenshots fs)).
Proof.
  split; [ | split].
  - intros fs r. unfold Dashboard.load_test_results, listed_screenshots.
    destruct (Dashboard.summary_file fs) as [[summary | e] | ]; cbn [bind]; try discriminate;
      destruct (Dashboard.report_file fs) as [[report | e] | ]; cbn [bind]; try discriminate;
      try destruct (py_get report "test_results" (JList [])); cbn [bind]; try discriminate;
      intros [= <-]; reflexivity.
  - intros save_screenshot now it rep d f Hin.
    rewrite (hook_file _ _ _ _ _ _ Hin).
    exists (("failure_" ++ Conftest.name it ++ "_" ++ strftime_compact now) ++ ".png").
    split.
    + unfold failure_file. rewrite !string_app_assoc. reflexivity.
    + intros fs entries Hdir Hentry. unfold listed_screenshots. rewrite Hdir.
      apply glob_suffix_app. exact Hentry.
  - intros w name st f st'. unfold Pages.take_screenshot.
    unfold Pages.bind, Pages.read, Pages.ask, Pages.log, Pages.ret.
    cbn [Pages.past Pages.happened].
    destruct (save_screenshot w _ _) as [written | e]; [ | discriminate].
    intros [= <- <-]. cbn [Pages.past Pages.happened]. split.
    + apply in_or_app. left. apply in_or_app. right. left. reflexivity.
    + exists ((name ++ "_" ++ strftime_compact (now w (Pages.past st))) ++ ".png").
      split.
      * rewrite !string_app_assoc. reflexivity.
      * intros fs entries Hdir Hentry. unfold listed_screenshots. rewrite Hdir.
        apply glob_suffix_app. exact Hentry.
Qed.

End ScreenshotNames.

(** ** The page objects and the tests *)

Section PagesFacts.
Context `{Builtins} `{Runtime}.
Variable w : world.



(** [take_screenshot]: the file name is returned whenever the driver
    returns, whether or not it wrote the file; an exception of the driver
    is passed on. *)
Lemma take_screenshot_cases (name : string) (st : Pages.state) :
  let file := screenshot_file name (now w (Pages.past st)) in
  let asked := (Pages.past st ++ [ReadNow])%list in
  exists st',
    same_instance st st' /\
    ((exists written, save_screenshot w asked file = Returned written /\
                      Pages.take_screenshot w name st = (Returned file, st')) \/
     (exists e, save_screenshot w asked file = Raised e /\
                Pages.take_screenshot w name st = (Raised e, st'))).
Proof.
  intros file asked.
  unfold Pages.take_screenshot, Pages.bind, Pages.read, Pages.ask, Pages.log, Pages.ret.
  cbn [Pages.past Pages.happened]. unfold file, asked, screenshot_file.
  destruct (save_screenshot w _ _) as [written | e].
  - eexists. split; [ | left; exists written; split; reflexivity]. split; reflexivity.
  - eexists. split; [ | right; exists e; split; reflexivity]. split; reflexivity.
Qed.


Lemma trade_order_success_cases (side symbol : string) (st : Pages.state) :
  exists st',
    same_instance st st' /\
    ((exists n created,
        float_to_int (time w (Pages.past st)) = Returned n /\
        Pages.trade_order_success w side symbol st
        = (Returned (order_response side symbol n created), st')) \/
     (exists e,
        float_to_int (time w (Pages.past st)) = Raised e /\
        Pages.trade_order_success w side symbol st = (Raised e, st'))).
Proof.
  unfold Pages.trade_order_success, Pages.bind, Pages.read, Pages.ask, Pages.lift, Pages.ret.
  cbn [Pages.past Pages.happened].
  destruct (float_to_int (time w (Pages.past st))) as [n | e].
  - eexists. split; [ | left; exists n; eexists; split; reflexivity]. split; reflexivity.
  - eexists. split; [ | right; exists e; split; reflexivity]. split; reflexivity.
Qed.

Lemma bind_log {B : Type} (lvl : level) (message : string) (k : unit -> Pages.action B)
    (st : Pages.state) :
  Pages.bind (Pages.log lvl message) k st = k tt (Pages.happened (Logged lvl message) st).
Proof. reflexivity. Qed.

Lemma bind_read {A B : Type} (ev : event) (answer : history -> A) (k : A -> Pages.action B)
    (st : Pages.state) :
  Pages.bind (Pages.read ev answer) k st = k (answer (Pages.past st)) (Pages.happened ev st).
Proof. reflexivity. Qed.

Lemma bind_append_order {B : Type} (order : Pages.MockTradeOrder) (k : unit -> Pages.action B)
    (st : Pages.state) :
  Pages.bind (Pages.append_order order) k st
  = k tt {| Pages.past := Pages.past st;
            Pages.mock_orders := (Pages.mock_orders st ++ [order])%list;
            Pages.reporter := Pages.reporter st |}.
Proof. reflexivity. Qed.

Lemma bind_lift_returned {A B : Type} (a : A) (k : A -> Pages.action B) (st : Pages.state) :
  Pages.bind (Pages.lift (Returned a)) k st = k a st.
Proof. reflexivity. Qed.

Lemma bind_returned {A B : Type} (m : Pages.action A) (k : A -> Pages.action B)
    (st st' : Pages.state) (a : A) :
  m st = (Returned a, st') -> Pages.bind m k st = k a st'.
Proof. intros Hm. unfold Pages.bind. rewrite Hm. reflexivity. Qed.

Lemma bind_raised {A B : Type} (m : Pages.action A) (k : A -> Pages.action B)
    (st st' : Pages.state) (e : exn) :
  m st = (Raised e, st') -> Pages.bind m k st = (Raised e, st').
Proof. intros Hm. unfold Pages.bind. rewrite Hm. reflexivity. Qed.

Lemma try_except_returned {A : Type} (m : Pages.action A) (handler : exn -> option (Pages.action A))
    (st st' : Pages.state) (a : A) :
  m st = (Returned a, st') -> Pages.try_except m handler st = (Returned a, st').
Proof. intros Hm. unfold Pages.try_except. rewrite Hm. reflexivity. Qed.

Lemma try_except_caught {A : Type} (m : Pages.action A) (handler : exn -> option (Pages.action A))
    (st st' : Pages.state) (e : exn) (h : Pages.action A) :
  m st = (Raised e, st') -> handler e = Some h -> Pages.try_except m handler st = h st'.
Proof. intros Hm Hh. unfold Pages.try_except. rewrite Hm, Hh. reflexivity. Qed.

Lemma item_order_response (side symbol : string) (n : Z) (created : string) :
  item (order_response side symbol n created) "order_id"
  = Returned (JStr ("ORD" ++ string_of_Z n)) /\
  item (order_response side symbol n created) "price"
  = Returned (JFloat (if String.eqb side "buy" then Pages.f_45000 else Pages.f_45100)).
Proof. split; reflexivity. Qed.











Lemma place_buy_order_generic :
  Pages.place_buy_order w = place_order w "buy" "Buy".
Proof. reflexivity. Qed.

Lemma place_sell_order_generic :
  Pages.place_sell_order w = place_order w "sell" "Sell".
Proof. reflexivity. Qed.

Lemma place_order_cases (side Side symbol : string) (quantity : float) (st : Pages.state) :
  exists (d : dict) (st' : Pages.state),
    place_order w side Side symbol quantity st = (Returned d, st') /\
    placed w side symbol quantity st d st' /\
    (dict_get d "status" JNull = JStr "success" ->
     exists n created, d = order_response side symbol n created).
Proof.
  unfold place_order. rewrite bind_log.
  match goal with
  | |- context [Pages.try_except ?body ?handler ?s] =>
      set (m := body); set (hd := handler); set (st0 := s)
  end.
  assert (Hbody :
    exists r st',
      m st0 = (r, st') /\
      placed w side symbol quantity st
        (match r with
         | Returned d => d
         | Raised e => Pages.error_response e
         end) st' /\
      (forall d, r = Returned d -> exists n c, d = order_response side symbol n c)).
  { unfold m. rewrite bind_log.
    match goal with
    | |- context [Pages.bind (Pages.trade_order_success w side symbol) ?k ?s] =>
        destruct (trade_order_success_cases side symbol s)
          as (st1 & [Ho1 Hr1] & [(n & created & Hn & Htrade) | (e & He & Htrade)]);
        [rewrite (bind_returned _ k _ _ _ Htrade) | rewrite (bind_raised _ k _ _ _ Htrade)]
    end.
    - destruct (item_order_response side symbol n created) as [Hid Hprice].
      rewrite Hid, bind_lift_returned, Hprice, bind_lift_returned, bind_read,
        bind_append_order, bind_lift_returned, bind_log.
      match goal with
      | |- context [Pages.bind (Pages.take_screenshot w ?name) ?k ?s] =>
          destruct (take_screenshot_cases name s)
            as (st2 & [Ho2 Hr2] & [(written & Hw & Hshot) | (e & He & Hshot)]);
          [rewrite (bind_returned _ k _ _ _ Hshot) | rewrite (bind_raised _ k _ _ _ Hshot)]
      end.
      + do 2 eexists. split; [reflexivity | ]. split.
        * unfold st0 in *.
          cbn [Pages.reporter Pages.mock_orders Pages.happened Pages.past] in *.
          split; [congruence | ]. left.
          exists n, created. do 4 eexists.
          split; [exact Hn | ]. split; [exists written; exact Hw | ].
          split; [reflexivity | ]. rewrite Ho2, Ho1. reflexivity.
        * intros d [= <-]. exists n, created. reflexivity.
      + do 2 eexists. split; [reflexivity | ]. split.
        * unfold st0 in *.
          cbn [Pages.reporter Pages.mock_orders Pages.happened Pages.past] in *.
          split; [congruence | ]. right. left.
          exists n. eexists. exists e. do 3 eexists.
          split; [exact Hn | ]. split; [exact He | ].
          split; [reflexivity | ]. rewrite Ho2, Ho1. reflexivity.
        * intros d [=].
    - do 2 eexists. split; [reflexivity | ]. split.
      + unfold st0 in *.
        cbn [Pages.reporter Pages.mock_orders Pages.happened Pages.past] in *.
        split; [congruence | ]. right. right.
        exists e. eexists. split; [exact He | ]. split; [reflexivity | congruence].
      + intros d [=]. }
  destruct Hbody as ([d | e] & st' & Hm & Hplaced & Hshape).
  - rewrite (try_except_returned _ _ _ _ _ Hm).
    exists d, st'. split; [reflexivity | ]. split; [exact Hplaced | ].
    intros _. exact (Hshape d eq_refl).
  - rewrite (try_except_caught _ hd _ _ _ _ Hm eq_refl). rewrite bind_log.
    do 2 eexists. split; [reflexivity | ]. split.
    + destruct Hplaced as [Hr Hcases]. split; [exact Hr | exact Hcases].
    + cbn. intros Hs. discriminate.
Qed.


Lemma bind_ask {A B : Type} (ev : event) (answer : history -> outcome A)
    (k : A -> Pages.action B) (st : Pages.state) :
  Pages.bind (Pages.ask ev answer) k st
  = match answer (Pages.past st) with
    | Returned a => k a (Pages.happened ev st)
    | Raised e => (Raised e, Pages.happened ev st)
    end.
Proof. unfold Pages.bind, Pages.ask. destruct (answer (Pages.past st)); reflexivity. Qed.

Lemma bind_sleep {B : Type} (seconds : Z) (k : unit -> Pages.action B) (st : Pages.state) :
  Pages.bind (Pages.sleep seconds) k st = k tt (Pages.happened (Slept seconds) st).
Proof. reflexivity. Qed.

Lemma bind_returned_inv {A B : Type} (m : Pages.action A) (k : A -> Pages.action B)
    (st st' : Pages.state) (b : B) :
  Pages.bind m k st = (Returned b, st') ->
  exists a st1, m st = (Returned a, st1) /\ k a st1 = (Returned b, st').
Proof.
  unfold Pages.bind. destruct (m st) as [[a | e] st1]; [ | discriminate].
  intros Hk. exists a, st1. split; [reflexivity | exact Hk].
Qed.

(** [wait_for_element] and [wait_for_clickable] are the same text up to
    the condition and the words of the messages. *)
Lemma wait_outcomes (cond : condition) (words prefix : string) (loc : locator)
    (requested : option Z) (st : Pages.state) :
  let wait_time := Pages.wait_time requested in
  let asked := Waited cond loc wait_time in
  let wait :=
    Pages.try_except
      (Pages.ask asked (fun h => until w h cond loc wait_time))
      (fun e =>
         match e with
         | TimeoutException =>
             Some (Pages.bind (Pages.log ERROR (words ++ tuple_str loc))
                     (fun _ => Pages.bind (Pages.take_screenshot w (prefix ++ snd loc))
                                 (fun _ => Pages.raise e)))
         | _ => None
         end) in
  (forall el, until w (Pages.past st) cond loc wait_time = Returned el ->
     wait st = (Returned el, Pages.happened asked st)) /\
  (forall e, e <> TimeoutException ->
     until w (Pages.past st) cond loc wait_time = Raised e ->
     wait st = (Raised e, Pages.happened asked st)) /\
  (until w (Pages.past st) cond loc wait_time = Raised TimeoutException ->
     wait st
     = match Pages.take_screenshot w (prefix ++ snd loc)
               (Pages.happened (Logged ERROR (words ++ tuple_str loc))
                  (Pages.happened asked st)) with
       | (Returned _, st') => (Raised TimeoutException, st')
       | (Raised e, st') => (Raised e, st')
       end).
Proof.
  intros wait_time asked wait. unfold wait, Pages.try_except, Pages.ask.
  split; [ | split].
  - intros el ->. reflexivity.
  - intros e Hne ->. destruct e; try reflexivity. contradiction.
  - intros ->. rewrite bind_log. unfold Pages.bind.
    destruct (Pages.take_screenshot w (prefix ++ snd loc) _) as [[file | e] st']; reflexivity.
Qed.

Lemma external_ret {A : Type} (a : A) : external (Pages.ret a).
Proof. intros st. split; reflexivity. Qed.

Lemma external_raise {A : Type} (e : exn) : external (@Pages.raise A e).
Proof. intros st. split; reflexivity. Qed.

Lemma external_log (lvl : level) (message : string) : external (Pages.log lvl message).
Proof. intros st. split; reflexivity. Qed.

Lemma external_sleep (seconds : Z) : external (Pages.sleep seconds).
Proof. intros st. split; reflexivity. Qed.

Lemma external_ask {A : Type} (ev : event) (answer : history -> outcome A) :
  external (Pages.ask ev answer).
Proof. intros st. split; reflexivity. Qed.

Lemma external_bind {A B : Type} (m : Pages.action A) (k : A -> Pages.action B) :
  external m -> (forall a, external (k a)) -> external (Pages.bind m k).
Proof.
  intros Hm Hk st. unfold Pages.bind. specialize (Hm st).
  destruct (m st) as [[a | e] st1]; cbn [snd] in *; [ | exact Hm].
  destruct (Hk a st1) as [Ho Hr]. destruct Hm as [Ho1 Hr1]. split; congruence.
Qed.

Lemma external_try_except {A : Type} (m : Pages.action A)
    (handler : exn -> option (Pages.action A)) :
  external m -> (forall e h, handler e = Some h -> external h) ->
  external (Pages.try_except m handler).
Proof.
  intros Hm Hh st. unfold Pages.try_except. specialize (Hm st).
  destruct (m st) as [[a | e] st1]; cbn [snd] in *; [exact Hm | ].
  destruct (handler e) as [h | ] eqn:Hhandler; [ | exact Hm].
  destruct (Hh e h Hhandler st1) as [Ho Hr]. destruct Hm as [Ho1 Hr1]. split; congruence.
Qed.

Lemma external_take_screenshot (name : string) : external (Pages.take_screenshot w name).
Proof.
  unfold Pages.take_screenshot.
  apply external_bind; [apply external_ask | intros stamp].
  apply external_bind; [apply external_ask | intros _].
  apply external_bind; [apply external_log | intros _]. apply external_ret.
Qed.

Lemma external_wait_for_element (loc : locator) (requested : option Z) :
  external (Pages.wait_for_element w loc requested).
Proof.
  unfold Pages.wait_for_element. apply external_try_except; [apply external_ask | ].
  intros e h Hh. destruct e; try discriminate. injection Hh as <-.
  apply external_bind; [apply external_log | intros _].
  apply external_bind; [apply external_take_screenshot | intros _]. apply external_raise.
Qed.

Lemma external_wait_for_clickable (loc : locator) (requested : option Z) :
  external (Pages.wait_for_clickable w loc requested).
Proof.
  unfold Pages.wait_for_clickable. apply external_try_except; [apply external_ask | ].
  intros e h Hh. destruct e; try discriminate. injection Hh as <-.
  apply external_bind; [apply external_log | intros _].
  apply external_bind; [apply external_take_screenshot | intros _]. apply external_raise.
Qed.

Ltac external_steps :=
  repeat first
    [ apply external_bind; [ | intros ? ]
    | apply external_log
    | apply external_sleep
    | apply external_ask
    | apply external_ret
    | apply external_take_screenshot
    | apply external_wait_for_element
    | apply external_wait_for_clickable ].

Lemma external_login (account password : string) : external (Pages.login w account password).
Proof.
  unfold Pages.login. apply external_bind; [apply external_log | intros _].
  apply external_try_except; [external_steps | ].
  intros e h [= <-]. external_steps.
Qed.


Lemma take_screenshot_returns (name : string) (st : Pages.state) :
  screenshots_return w ->
  exists st',
    Pages.take_screenshot w name st
    = (Returned (screenshot_file name (now w (Pages.past st))), st').
Proof.
  intros Hshots.
  destruct (take_screenshot_cases name st) as (st' & _ & [(written & _ & Hrun) | (e & He & _)]).
  - exists st'. exact Hrun.
  - destruct (Hshots (Pages.past st ++ [ReadNow])%list
                (screenshot_file name (now w (Pages.past st)))) as [written Hw].
    cbv zeta in He. congruence.
Qed.

(** The guarded body of [login] returns nothing but the mock response. *)
Lemma login_returns_mock (body : Pages.action dict) (st st' : Pages.state) (d : dict) :
  body st = (Returned d, st') ->
  forall account password,
  body
  = (Pages.bind (Pages.wait_for_element w Pages.ACCOUNT_ID_INPUT None) (fun account_input =>
     Pages.bind (Pages.ask (Cleared account_input) (fun h => clear w h account_input)) (fun _ =>
     Pages.bind (Pages.ask (Typed account_input account)
                   (fun h => send_keys w h account_input account)) (fun _ =>
     Pages.bind (Pages.log INFO ("Entered Account ID: " ++ account)) (fun _ =>
     Pages.bind (Pages.wait_for_element w Pages.PASSWORD_INPUT None) (fun password_input =>
     Pages.bind (Pages.ask (Cleared password_input) (fun h => clear w h password_input)) (fun _ =>
     Pages.bind (Pages.ask (Typed password_input password)
                   (fun h => send_keys w h password_input password)) (fun _ =>
     Pages.bind (Pages.log INFO "Entered password") (fun _ =>
     Pages.bind (Pages.take_screenshot w "before_login") (fun _ =>
     Pages.bind (Pages.wait_for_clickable w Pages.LOGIN_BUTTON None) (fun login_button =>
     Pages.bind (Pages.ask (Clicked login_button) (fun h => click w h login_button)) (fun _ =>
     Pages.bind (Pages.log INFO "Clicked login button") (fun _ =>
     Pages.bind (Pages.sleep 5) (fun _ =>
     Pages.bind (Pages.take_screenshot w "after_login") (fun _ =>
     Pages.ret Pages.login_success))))))))))))))) ->
  d = Pages.login_success.
Proof.
  intros Hbody account password ->.
  repeat (apply bind_returned_inv in Hbody; destruct Hbody as (? & ? & _ & Hbody)).
  unfold Pages.ret in Hbody. congruence.
Qed.

Lemma login_cases (account password : string) (st : Pages.state) :
  exists r st',
    Pages.login w account password st = (r, st') /\
    same_instance st st' /\
    match r with
    | Returned d => d = Pages.login_success \/ exists e, d = Pages.error_response e
    | Raised e => exists h f, save_screenshot w h f = Raised e
    end.
Proof.
  destruct (Pages.login w account password st) as [r st'] eqn:Hlogin.
  exists r, st'. split; [reflexivity | ]. split.
  - assert (Hext := external_login account password st). rewrite Hlogin in Hext. exact Hext.
  - unfold Pages.login in Hlogin. rewrite bind_log in Hlogin.
    unfold Pages.try_except in Hlogin.
    match type of Hlogin with
    | context [match ?body ?s with _ => _ end] =>
        destruct (body s) as [[d | e] st1] eqn:Hbody
    end.
    + injection Hlogin as <- <-. left.
      exact (login_returns_mock _ _ _ _ Hbody account password eq_refl).
    + rewrite bind_log in Hlogin.
      match type of Hlogin with
      | context [Pages.bind (Pages.take_screenshot w ?name) ?k ?s] =>
          destruct (take_screenshot_cases name s)
            as (st2 & _ & [(written & Hw & Hshot) | (e' & He' & Hshot)]);
          [rewrite (bind_returned _ k _ _ _ Hshot) in Hlogin
          | rewrite (bind_raised _ k _ _ _ Hshot) in Hlogin]
      end.
      * injection Hlogin as <- <-. right. exists e. reflexivity.
      * injection Hlogin as <- <-. do 2 eexists. exact He'.
Qed.


Lemma wait_for_element_found (loc : locator) (requested : option Z) (st : Pages.state) :
  (forall h c l t, exists el, until w h c l t = Returned el) ->
  exists el st', Pages.wait_for_element w loc requested st = (Returned el, st').
Proof.
  intros Huntil.
  destruct (Huntil (Pages.past st) presence_of_element_located loc (Pages.wait_time requested))
    as [el Hel].
  exists el. eexists.
  unfold Pages.wait_for_element, Pages.try_except, Pages.ask. rewrite Hel. reflexivity.
Qed.

Lemma wait_for_clickable_found (loc : locator) (requested : option Z) (st : Pages.state) :
  (forall h c l t, exists el, until w h c l t = Returned el) ->
  exists el st', Pages.wait_for_clickable w loc requested st = (Returned el, st').
Proof.
  intros Huntil.
  destruct (Huntil (Pages.past st) element_to_be_clickable loc (Pages.wait_time requested))
    as [el Hel].
  exists el. eexists.
  unfold Pages.wait_for_clickable, Pages.try_except, Pages.ask. rewrite Hel. reflexivity.
Qed.

(** In a cooperative browser [login] answers with the mock response,
    whatever the credentials are. *)
Lemma login_cooperative (account password : string) (st : Pages.state) :
  cooperative w ->
  exists st', Pages.login w account password st = (Returned Pages.login_success, st').
Proof.
  intros (Hshots & Huntil & Hclear & Hsend & Hclick).
  unfold Pages.login. rewrite bind_log.
  match goal with
  | |- context [Pages.try_except ?body ?handler ?s] =>
      assert (Hbody : exists st', body s = (Returned Pages.login_success, st'))
  end.
  { repeat first
      [ rewrite bind_log
      | rewrite bind_sleep
      | rewrite bind_ask, Hclear
      | rewrite bind_ask, Hsend
      | rewrite bind_ask, Hclick
      | match goal with
        | |- context [Pages.bind (Pages.wait_for_element w ?loc ?req) ?k ?s] =>
            let el := fresh "el" in
            let st1 := fresh "st" in
            let Hwait := fresh "Hwait" in
            destruct (wait_for_element_found loc req s Huntil) as (el & st1 & Hwait);
            rewrite (bind_returned _ k _ _ _ Hwait)
        | |- context [Pages.bind (Pages.wait_for_clickable w ?loc ?req) ?k ?s] =>
            let el := fresh "el" in
            let st1 := fresh "st" in
            let Hwait := fresh "Hwait" in
            destruct (wait_for_clickable_found loc req s Huntil) as (el & st1 & Hwait);
            rewrite (bind_returned _ k _ _ _ Hwait)
        | |- context [Pages.bind (Pages.take_screenshot w ?name) ?k ?s] =>
            let st1 := fresh "st" in
            let Hshot := fresh "Hshot" in
            destruct (take_screenshot_returns name s Hshots) as (st1 & Hshot);
            rewrite (bind_returned _ k _ _ _ Hshot)
        end ].
    eexists. reflexivity. }
  destruct Hbody as [st' Hbody]. exists st'.
  exact (try_except_returned _ _ _ _ _ Hbody).
Qed.

(** On a page where nothing shows up, [login] answers with an error
    response that carries the message of the [TimeoutException]. *)
Lemma login_unresponsive (account password : string) (st : Pages.state) :
  unresponsive w -> screenshots_return w ->
  exists st',
    Pages.login w account password st
    = (Returned (Pages.error_response TimeoutException), st').
Proof.
  intros Hdead Hshots.
  unfold Pages.login. rewrite bind_log.
  match goal with
  | |- context [Pages.try_except ?body ?handler ?s] =>
      assert (Hbody : exists st', body s = (Raised TimeoutException, st'));
      [ | destruct Hbody as [st1 Hbody];
          rewrite (try_except_caught _ handler _ _ _ _ Hbody eq_refl) ]
  end.
  - match goal with
    | |- context [Pages.bind (Pages.wait_for_element w ?loc ?req) ?k ?s] =>
        destruct (wait_outcomes presence_of_element_located "Element not found: "
                    "element_not_found_" loc req s) as (_ & _ & Htimeout);
        cbv zeta in Htimeout;
        change (Pages.try_except _ _) with (Pages.wait_for_element w loc req) in Htimeout;
        specialize (Htimeout (Hdead _ _ _ _));
        match type of Htimeout with
        | context [Pages.take_screenshot w ?name ?s'] =>
            destruct (take_screenshot_returns name s' Hshots) as (st2 & Hshot);
            rewrite Hshot in Htimeout
        end;
        rewrite (bind_raised _ k _ _ _ Htimeout)
    end.
    eexists. reflexivity.
  - rewrite bind_log.
    match goal with
    | |- context [Pages.bind (Pages.take_screenshot w ?name) ?k ?s] =>
        destruct (take_screenshot_returns name s Hshots) as (st2 & Hshot);
        rewrite (bind_returned _ k _ _ _ Hshot)
    end.
    eexists. reflexivity.
Qed.


Lemma add_result_runs (name status : string) (details : json) (st : Pages.state) :
  exists st',
    Pages.add_result w name status details st = (Returned tt, st') /\
    Pages.mock_orders st' = Pages.mock_orders st /\
    recorded name status details st st'.
Proof.
  unfold Pages.add_result. rewrite !bind_read. eexists.
  split; [reflexivity | ]. split; [reflexivity | ]. do 2 eexists. reflexivity.
Qed.



Lemma screenshots_return_not_raised (h : history) (f : string) (e : exn) :
  screenshots_return w -> save_screenshot w h f = Raised e -> False.
Proof. intros Hshots He. destruct (Hshots h f) as [written Hw]. congruence. Qed.

Lemma screenshots_raise_not_returned (h : history) (f : string) (e : exn) (written : bool) :
  screenshots_raise w e -> save_screenshot w h f = Returned written -> False.
Proof. intros Hshots Hw. rewrite (Hshots h f) in Hw. discriminate. Qed.

Lemma screenshots_raise_same (h : history) (f : string) (e e' : exn) :
  screenshots_raise w e -> save_screenshot w h f = Raised e' -> e' = e.
Proof. intros Hshots He. rewrite (Hshots h f) in He. congruence. Qed.




(** What both [place_buy_order] and [place_sell_order] come to. *)
Lemma place_order_booked (side Side symbol : string) (quantity : float) (st : Pages.state) :
  exists d st',
    place_order w side Side symbol quantity st = (Returned d, st') /\
    Pages.reporter st' = Pages.reporter st /\
    (time_is_finite w -> screenshots_return w ->
     exists n created_text created,
       d = order_response side symbol n created_text /\
       Pages.mock_orders st'
       = (Pages.mock_orders st ++ [placed_order side symbol quantity n created])%list) /\
    (forall e, time_is_finite w -> screenshots_raise w e ->
     d = Pages.error_response e /\
     exists n created,
       Pages.mock_orders st'
       = (Pages.mock_orders st ++ [placed_order side symbol quantity n created])%list) /\
    (forall n, (forall h, float_to_int (time w h) = Returned n) ->
     exists created,
       Pages.mock_orders st'
       = (Pages.mock_orders st ++ [placed_order side symbol quantity n created])%list).
Proof.
  destruct (place_order_cases side Side symbol quantity st)
    as (d & st' & Hrun & [Hrep Hcases] & _).
  exists d, st'. split; [exact Hrun | ]. split; [exact Hrep | ]. split; [ | split].
  - intros Htime Hshots.
    destruct Hcases as [(n & ct & c & h & h' & f & Hn & Hw & Hd & Ho)
                       | [(n & c & e & h & h' & f & Hn & He & Hd & Ho)
                         | (e & h & He & Hd & Ho)]].
    + exists n, ct, c. auto.
    + destruct (screenshots_return_not_raised h' f e Hshots He).
    + destruct (Htime h) as [n Hn]. congruence.
  - intros e0 Htime Hshots.
    destruct Hcases as [(n & ct & c & h & h' & f & Hn & [written Hw] & Hd & Ho)
                       | [(n & c & e & h & h' & f & Hn & He & Hd & Ho)
                         | (e & h & He & Hd & Ho)]].
    + destruct (screenshots_raise_not_returned h' f e0 written Hshots Hw).
    + rewrite (screenshots_raise_same h' f e0 e Hshots He) in Hd.
      split; [exact Hd | ]. exists n, c. exact Ho.
    + destruct (Htime h) as [n Hn]. congruence.
  - intros n0 Htime.
    destruct Hcases as [(n & ct & c & h & h' & f & Hn & Hw & Hd & Ho)
                       | [(n & c & e & h & h' & f & Hn & He & Hd & Ho)
                         | (e & h & He & Hd & Ho)]].
    + rewrite (Htime h) in Hn. injection Hn as <-. exists c. exact Ho.
    + rewrite (Htime h) in Hn. injection Hn as <-. exists c. exact Ho.
    + rewrite (Htime h) in He. discriminate.
Qed.


(** X17. Order ids are [ORD] followed by the whole seconds of
    [time.time()]: a buy order and a sell order placed while the clock
    reads the same second are both appended and carry the same id. *)
Theorem order_ids_repeat_within_a_second (n : Z) (symbol1 symbol2 : string)
    (quantity1 quantity2 : float) (st : Pages.state) :
  (forall h, float_to_int (time w h) = Returned n) ->
  let st1 := snd (Pages.place_buy_order w symbol1 quantity1 st) in
  let st2 := snd (Pages.place_sell_order w symbol2 quantity2 st1) in
  exists first second,
    Pages.mock_orders st2 = (Pages.mock_orders st ++ [first; second])%list /\
    Pages.order_id first = JStr ("ORD" ++ string_of_Z n) /\
    Pages.order_id second = JStr ("ORD" ++ string_of_Z n) /\
    Pages.order_type first = "buy" /\ Pages.order_type second = "sell".
Proof.
  intros Htime st1 st2. unfold st2, st1.
  rewrite place_buy_order_generic, place_sell_order_generic.
  destruct (place_order_booked "buy" "Buy" symbol1 quantity1 st)
    as (d1 & st1' & Hrun1 & _ & _ & _ & Hid1).
  rewrite Hrun1. cbn [snd].
  destruct (place_order_booked "sell" "Sell" symbol2 quantity2 st1')
    as (d2 & st2' & Hrun2 & _ & _ & _ & Hid2).
  rewrite Hrun2. cbn [snd].
  destruct (Hid1 n Htime) as [c1 Ho1]. destruct (Hid2 n Htime) as [c2 Ho2].
  exists (placed_order "buy" symbol1 quantity1 n c1),
    (placed_order "sell" symbol2 quantity2 n c2).
  split; [rewrite Ho2, Ho1, <- app_assoc; reflexivity | ].
  repeat split.
Qed.

Lemma wait_waited (cond : condition) (words prefix : string) (loc : locator)
    (requested : option Z) (st : Pages.state) :
  waited w cond words prefix loc requested st
    (Pages.try_except
       (Pages.ask (Waited cond loc (Pages.wait_time requested))
          (fun h => until w h cond loc (Pages.wait_time requested)))
       (fun e =>
          match e with
          | TimeoutException =>
              Some (Pages.bind (Pages.log ERROR (words ++ tuple_str loc))
                      (fun _ => Pages.bind (Pages.take_screenshot w (prefix ++ snd loc))
                                  (fun _ => Pages.raise e)))
          | _ => None
          end) st).
Proof.
  unfold waited, Pages.try_except, Pages.ask. cbv zeta.
  destruct (until w (Pages.past st) cond loc (Pages.wait_time requested)) as [el | e].
  - split; [split; reflexivity | split; reflexivity].
  - destruct e; try (split; [split; reflexivity | split; reflexivity]).
    unfold Pages.take_screenshot, Pages.bind, Pages.read, Pages.ask, Pages.log, Pages.ret,
      Pages.raise, screenshot_file.
    cbn [Pages.past Pages.happened]. rewrite <- !app_assoc. cbn [List.app].
    destruct (save_screenshot w _ _) as [written | e]; cbn [fst snd Pages.past].
    + split; [split; reflexivity | ]. split; [reflexivity | ].
      cbn [Pages.past Pages.happened]. rewrite <- ?app_assoc. reflexivity.
    + split; [split; reflexivity | ]. split; [reflexivity | ].
      cbn [Pages.past Pages.happened]. rewrite <- ?app_assoc. reflexivity.
Qed.

(** X18. [wait_for_element] and [wait_for_clickable] wait for the
    configured 20 seconds when no timeout or the timeout 0 is given. They
    ask the driver once; what it returns is returned, and an exception
    other than [TimeoutException] is passed on with nothing else done. On
    a [TimeoutException] they log an error, read the clock and ask for a
    screenshot named after the selector, then raise the
    [TimeoutException] again, unless the screenshot raises, whose
    exception then replaces it. *)
Theorem waits_time_out_with_a_screenshot (loc : locator) (requested : option Z)
    (st : Pages.state) :
  Pages.wait_time None = 20 /\
  Pages.wait_time (Some 0) = 20 /\
  (forall t, t <> 0 -> Pages.wait_time (Some t) = t) /\
  waited w presence_of_element_located "Element not found: " "element_not_found_"
    loc requested st (Pages.wait_for_element w loc requested st) /\
  waited w element_to_be_clickable "Element not clickable: " "element_not_clickable_"
    loc requested st (Pages.wait_for_clickable w loc requested st).
Proof.
  split; [reflexivity | ]. split; [reflexivity | ]. split; [ | split].
  - intros t Ht. unfold Pages.wait_time. destruct (Z.eqb_spec t 0); [contradiction | reflexivity].
  - apply wait_waited.
  - apply wait_waited.
Qed.

(** X19. [login] changes neither the orders nor the reporter. It
    returns the fixed mock answer or an error response, and raises only
    what the driver raised on a screenshot. On a cooperative browser it
    returns the mock answer; on a page where no element shows up it
    returns the error response of the [TimeoutException] instead of
    raising it. *)
Theorem login_answers_are_mocked (account password : string) (st : Pages.state) :
  exists r st',
    Pages.login w account password st = (r, st') /\
    same_instance st st' /\
    match r with
    | Returned d => d = Pages.login_success \/ exists e, d = Pages.error_response e
    | Raised e => exists h f, save_screenshot w h f = Raised e
    end /\
    (cooperative w -> r = Returned Pages.login_success) /\
    (unresponsive w -> screenshots_return w ->
     r = Returned (Pages.error_response TimeoutException)).
Proof.
  destruct (login_cases account password st) as (r & st' & Hrun & Hsame & Hshape).
  exists r, st'. split; [exact Hrun | ]. split; [exact Hsame | ]. split; [exact Hshape | ].
  split.
  - intros Hcoop. destruct (login_cooperative account password st Hcoop) as [st1 Hrun1].
    congruence.
  - intros Hdead Hshots.
    destruct (login_unresponsive account password st Hdead Hshots) as [st1 Hrun1].
    congruence.
Qed.















Lemma navigate_to_login_returns (st : Pages.state) :
  (forall h, get w h Pages.base_url = Returned tt) ->
  exists st', Pages.navigate_to_login w st = (Returned tt, st') /\ same_instance st st'.
Proof.
  intros Hget. unfold Pages.navigate_to_login. rewrite bind_log.
  rewrite bind_ask, Hget.
  eexists. split; [reflexivity | ]. split; reflexivity.
Qed.

(** The body of [test_successful_login], from any state. *)
Lemma login_test_body (st : Pages.state) :
  (forall h, get w h Pages.base_url = Returned tt) ->
  let checks := fun result : dict =>
    Pages.bind (Pages.lift (item result "status")) (fun outcome =>
    Pages.bind (Pages.assert (py_eq_str outcome "success")) (fun _ =>
    Pages.add_result w "test_successful_login" "PASSED" (JDict result))) in
  let body :=
    Pages.bind (Pages.navigate_to_login w) (fun _ =>
    Pages.bind (Pages.login w Pages.account_id Pages.password) checks) in
  exists st1 r st2,
    Pages.navigate_to_login w st = (Returned tt, st1) /\
    Pages.login w Pages.account_id Pages.password st1 = (r, st2) /\
    Pages.reporter st2 = Pages.reporter st /\
    body st
    = match r with
      | Returned d =>
          if py_eq_str (dict_get d "status" JNull) "success"
          then Pages.add_result w "test_successful_login" "PASSED" (JDict d) st2
          else (Raised AssertionError, st2)
      | Raised e => (Raised e, st2)
      end /\
    match r with
    | Returned d => d = Pages.login_success \/ exists e, d = Pages.error_response e
    | Raised _ => True
    end.
Proof.
  intros Hget checks body.
  destruct (navigate_to_login_returns st Hget) as (st1 & Hnav & [_ Hr1]).
  destruct (login_cases Pages.account_id Pages.password st1)
    as (r & st2 & Hlogin & [_ Hr2] & Hshape).
  exists st1, r, st2. split; [exact Hnav | ]. split; [exact Hlogin | ].
  split; [congruence | ]. unfold body. rewrite (bind_returned _ _ _ _ _ Hnav).
  destruct r as [d | e].
  - rewrite (bind_returned _ _ _ _ _ Hlogin).
    split; [ | exact Hshape].
    destruct Hshape as [-> | [e ->]]; reflexivity.
  - rewrite (bind_raised _ _ _ _ _ Hlogin). split; [reflexivity | exact I].
Qed.

(** X23. With a page that loads, [test_successful_login] records
    exactly one result. On a cooperative browser it passes and records
    the mock answer of [login]; on a page where no element shows up (and
    a driver that returns from screenshots) it fails with
    [AssertionError], not with the [TimeoutException] that caused it. *)
Theorem login_test_reports_a_failed_assertion (st : Pages.state) :
  (forall h, get w h Pages.base_url = Returned tt) ->
  exists r st',
    Pages.test_successful_login w st = (r, st') /\
    test_recorded "test_successful_login" r st st' /\
    (cooperative w ->
     r = Returned tt /\
     recorded "test_successful_login" "PASSED" (JDict Pages.login_success) st st') /\
    (unresponsive w -> screenshots_return w -> r = Raised AssertionError).
Proof.
  intros Hget. unfold Pages.test_successful_login.
  destruct (login_test_body st Hget) as (st1 & r & st2 & Hnav & Hlogin & Hrep & Hbody & Hshape).
  cbv zeta in Hbody.
  match goal with
  | |- context [Pages.try_except ?b ?handler st] => set (body := b) in *; set (hd := handler)
  end.
  assert (Hcases :
    exists r' st3,
      body st = (r', st3) /\
      match r' with
      | Returned _ =>
          exists d, r = Returned d /\
            recorded "test_successful_login" "PASSED" (JDict d) st st3
      | Raised e' =>
          Pages.reporter st3 = Pages.reporter st /\
          (r = Raised e' \/ exists e, r = Returned (Pages.error_response e) /\ e' = AssertionError)
      end).
  { rewrite Hbody. destruct r as [d | e].
    - destruct Hshape as [-> | [e ->]].
      + destruct (add_result_runs "test_successful_login" "PASSED"
                    (JDict Pages.login_success) st2)
          as (st3 & Hadd & _ & (stamp & seconds & Hadded)).
        exists (Returned tt), st3. split; [exact Hadd | ].
        exists Pages.login_success. split; [reflexivity | ].
        exists stamp, seconds. rewrite Hadded, Hrep. reflexivity.
      + exists (Raised AssertionError), st2. split; [reflexivity | ].
        split; [exact Hrep | ]. right. exists e. split; reflexivity.
    - exists (Raised e), st2. split; [reflexivity | ]. split; [exact Hrep | ].
      left. reflexivity. }
  destruct Hcases as (r' & st3 & Hrun & Hr').
  assert (Hlogged :
    cooperative w -> r = Returned Pages.login_success).
  { intros Hcoop.
    destruct (login_cooperative Pages.account_id Pages.password st1 Hcoop) as [st2' Hrun2].
    congruence. }
  assert (Hdead :
    unresponsive w -> screenshots_return w ->
    r = Returned (Pages.error_response TimeoutException)).
  { intros Hun Hshots.
    destruct (login_unresponsive Pages.account_id Pages.password st1 Hun Hshots)
      as [st2' Hrun2].
    congruence. }
  destruct r' as [[] | e'].
  - rewrite (try_except_returned _ _ _ _ _ Hrun).
    destruct Hr' as (d & Hd & Hrec).
    exists (Returned tt), st3. split; [reflexivity | ].
    split; [exists (JDict d); exact Hrec | ]. split.
    + intros Hcoop. split; [reflexivity | ].
      rewrite (Hlogged Hcoop) in Hd. injection Hd as <-. exact Hrec.
    + intros Hun Hshots. rewrite (Hdead Hun Hshots) in Hd. injection Hd as <-.
      rewrite Hbody in Hrun. rewrite (Hdead Hun Hshots) in Hrun. discriminate.
  - unfold hd.
    rewrite (try_except_caught _ (Pages.record_failure w "test_successful_login")
               _ _ _ _ Hrun eq_refl).
    destruct (add_result_runs "test_successful_login" "FAILED"
                (JDict [("error", JStr (exn_str e'))]) st3)
      as (st4 & Hadd & _ & (stamp & seconds & Hadded)).
    rewrite (bind_returned _ _ _ _ _ Hadd).
    destruct Hr' as [Hrep3 Hwhy].
    exists (Raised e'), st4. split; [reflexivity | ].
    split; [exists stamp, seconds; rewrite Hadded, Hrep3; reflexivity | ]. split.
    + intros Hcoop. rewrite (Hlogged Hcoop) in Hwhy.
      destruct Hwhy as [Hwhy | (e & Hwhy & _)]; discriminate.
    + intros Hun Hshots. rewrite (Hdead Hun Hshots) in Hwhy.
      destruct Hwhy as [Hwhy | (e & _ & ->)]; [discriminate | reflexivity].
Qed.

Lemma bind_new_trading_page {B : Type} (k : unit -> Pages.action B) (st : Pages.state) :
  Pages.bind Pages.new_trading_page k st
  = k tt {| Pages.past := Pages.past st;
            Pages.mock_orders := [];
            Pages.reporter := Pages.reporter st |}.
Proof. reflexivity. Qed.

Lemma bind_new_reporter {B : Type} (k : unit -> Pages.action B) (st : Pages.state) :
  Pages.bind (Pages.new_reporter w) k st
  = k tt {| Pages.past := (Pages.past st ++ [ReadNow])%list;
            Pages.mock_orders := Pages.mock_orders st;
            Pages.reporter := Reporter.init (isoformat (now w (Pages.past st))) |}.
Proof. reflexivity. Qed.

(** X24. The set-up of the trading tests does not look at what
    [login] answered: when the driver starts, loads the page and returns
    from screenshots, the set-up returns, whatever the page does (also
    when no element ever shows up), with an empty list of orders and a
    fresh reporter. *)
Theorem trading_setup_discards_the_login (st : Pages.state) :
  (forall h, start w h = Returned tt) ->
  (forall h, get w h Pages.base_url = Returned tt) ->
  screenshots_return w ->
  exists started st',
    Pages.trading_setup_method w st = (Returned tt, st') /\
    Pages.mock_orders st' = [] /\
    Pages.reporter st' = Reporter.init (isoformat started).
Proof.
  intros Hstart Hget Hshots. unfold Pages.trading_setup_method.
  rewrite bind_ask, Hstart.
  rewrite bind_new_trading_page, bind_new_reporter.
  match goal with
  | |- context [Pages.bind (Pages.navigate_to_login w) ?k ?s0] =>
      destruct (navigate_to_login_returns s0 Hget) as (st1 & Hnav & [Ho1 Hr1]);
      rewrite (bind_returned _ k _ _ _ Hnav)
  end.
  destruct (login_cases Pages.account_id Pages.password st1)
    as ([d | e] & st2 & Hlogin & [Ho2 Hr2] & Hshape).
  - rewrite (bind_returned _ _ _ _ _ Hlogin).
    cbn [Pages.mock_orders Pages.reporter] in Ho1, Hr1.
    eexists. exists st2. split; [reflexivity | ]. split; [congruence | ].
    rewrite Hr2, Hr1. reflexivity.
  - destruct Hshape as (h & f & He).
    destruct (screenshots_return_not_raised h f e Hshots He).
Qed.

End PagesFacts.

(** ** The examples *)

Lemma example_browser_cooperative : cooperative example_browser.
Proof.
  split; [intros h f; exists true; reflexivity | ].
  split; [intros h c l t; exists 1; reflexivity | ].
  split; [intros h el; reflexivity | ].
  split; [intros h el text; reflexivity | intros h el; reflexivity].
Qed.

Lemma example_browser_stuck_unresponsive : unresponsive example_browser_stuck.
Proof. intros h c l t. reflexivity. Qed.

Lemma example_browser_stuck_screenshots : screenshots_return example_browser_stuck.
Proof. intros h f. exists true. reflexivity. Qed.





Section PagesWitnesses.
#[local] Existing Instance plain_builtins.
#[local] Existing Instance plain_runtime.

Lemma order_ids_repeat_within_a_second_witness :
  exists first second,
    Pages.mock_orders
      (snd (Pages.place_sell_order example_browser "ETHUSD" Pages.f_0_5
              (snd (Pages.place_buy_order example_browser "BTCUSD" Pages.f_0_1
                      example_instance))))
    = [first; second] /\
    Pages.order_id first = JStr "ORD1767517500" /\
    Pages.order_id second = JStr "ORD1767517500".
Proof.
  destruct (order_ids_repeat_within_a_second example_browser 1767517500 "BTCUSD" "ETHUSD"
              Pages.f_0_1 Pages.f_0_5 example_instance (fun h => eq_refl))
    as (first & second & Horders & Hfirst & Hsecond & _).
  exists first, second. split; [exact Horders | ]. split; [exact Hfirst | exact Hsecond].
Defined.

Lemma login_test_reports_a_failed_assertion_witness :
  (exists st', Pages.test_successful_login example_browser example_instance
               = (Returned tt, st')) /\
  (exists st', Pages.test_successful_login example_browser_stuck example_instance
               = (Raised AssertionError, st')).
Proof.
  split.
  - destruct (login_test_reports_a_failed_assertion example_browser example_instance
                (fun h => eq_refl)) as (r & st' & Hrun & _ & Hcoop & _).
    destruct (Hcoop example_browser_cooperative) as [Hr _].
    exists st'. rewrite <- Hr. exact Hrun.
  - destruct (login_test_reports_a_failed_assertion example_browser_stuck example_instance
                (fun h => eq_refl)) as (r & st' & Hrun & _ & _ & Hstuck).
    exists st'.
    rewrite <- (Hstuck example_browser_stuck_unresponsive example_browser_stuck_screenshots).
    exact Hrun.
Defined.

Lemma trading_setup_discards_the_login_witness :
  exists st',
    Pages.trading_setup_method example_browser_stuck example_instance = (Returned tt, st') /\
    Pages.mock_orders st' = [].
Proof.
  destruct (trading_setup_discards_the_login example_browser_stuck example_instance
              (fun h => eq_refl) (fun h => eq_refl) example_browser_stuck_screenshots)
    as (started & st' & Hrun & Horders & _).
  exists st'. split; [exact Hrun | exact Horders].
Defined.



Lemma waits_time_out_with_a_screenshot_witness :
  fst (Pages.wait_for_element example_browser_stuck Pages.ACCOUNT_ID_INPUT None
         example_instance)
  = Raised TimeoutException.
Proof.
  exact (proj1 (proj2 (proj1 (proj2 (proj2 (proj2
           (waits_time_out_with_a_screenshot example_browser_stuck Pages.ACCOUNT_ID_INPUT
              None example_instance))))))).
Defined.

Lemma login_answers_are_mocked_witness :
  (exists st',
     Pages.login example_browser Pages.account_id Pages.password example_instance
     = (Returned Pages.login_success, st')) /\
  (exists st',
     Pages.login example_browser_stuck Pages.account_id Pages.password example_instance
     = (Returned (Pages.error_response TimeoutException), st')).
Proof.
  split.
  - destruct (login_answers_are_mocked example_browser Pages.account_id Pages.password
                example_instance) as (r & st' & Hrun & _ & _ & Hgood & _).
    exists st'. rewrite <- (Hgood example_browser_cooperative). exact Hrun.
  - destruct (login_answers_are_mocked example_browser_stuck Pages.account_id Pages.password
                example_instance) as (r & st' & Hrun & _ & _ & _ & Hstuck).
    exists st'.
    rewrite <- (Hstuck example_browser_stuck_unresponsive example_browser_stuck_screenshots).
    exact Hrun.
Defined.




End PagesWitnesses.
